(** * Order controller: placement, query, status update and deletion

    A shallow embedding of [server/controllers/orderController.js].

    Conventions of the embedding.
    - What the database holds is exact: quantities, stock and the rounded
      totals are integers ([Z]), prices and the tax rate are decimals ([Q]).
      What the handler computes with is a JavaScript number, an IEEE 754
      double ([float]): a price is rounded to the nearest double when it is
      multiplied, and every sum and product rounds again.
    - A handler is a program over the calls it makes to its environment:
      [next(err)], [res.status(c).json(b)] and [await database.query(...)].
      Every [await] is a node of the program, so the same definition gives the
      behaviour of one request run alone and of requests interleaved at their
      awaits.
    - A request field that is read with a truthiness test ([!full_name],
      [!status]) is an [option string]: [None] is undefined or null. *)

From Stdlib Require Import ZArith QArith Qround List String Ascii Bool Lia.
From Stdlib Require Import DecimalString.
From Stdlib Require Import PrimFloat SpecFloat FloatOps.
From Stdlib Require Import Permutation.
Import ListNotations.

Local Open Scope string_scope.
Local Open Scope list_scope.
Local Open Scope Z_scope.

(** ** Rows of the persisted tables *)

Definition uuid := nat.
Bind Scope nat_scope with uuid.

Record Product := mkProduct {
  p_id : uuid;
  p_price : Q;
  p_stock : Z;
  p_name : string
}.

Record Order := mkOrder {
  o_id : uuid;
  o_buyer_id : uuid;
  o_total_price : Z;
  o_tax_price : Q;
  o_shipping_price : Z;
  o_order_status : string;
  o_paid_at : option nat
}.

Record OrderItem := mkOrderItem {
  oi_id : uuid;
  oi_order_id : uuid;
  oi_product_id : uuid;
  oi_quantity : Z;
  oi_price : Q;
  oi_image : string;
  oi_title : string
}.

Record ShippingInfo := mkShippingInfo {
  s_id : uuid;
  s_order_id : uuid;
  s_full_name : string;
  s_state : string;
  s_city : string;
  s_country : string;
  s_address : string;
  s_pincode : string;
  s_phone : string
}.

Record Payment := mkPayment {
  pay_id : uuid;
  pay_order_id : uuid;
  pay_payment_type : string;
  pay_payment_status : string;
  pay_payment_intent_id : option string
}.

(** Modelled from the spec: the table definitions ([database/db.js] and the
    schema it creates) are not among the sources.  The tables and columns are
    those of the persisted schema of the spec (section 6); a table is the list
    of its rows in insertion order.  The spec describes no CHECK constraint on
    [stock] and no foreign-key action on deletion of an order (section 9: only
    the order row is removed), so none is part of the store.  Identifiers
    generated by the database come from the counter [next_uuid], and [NOW()]
    reads [db_now]. *)
Record Store := mkStore {
  products : list Product;
  orders : list Order;
  order_items : list OrderItem;
  shipping_info : list ShippingInfo;
  payments : list Payment;
  next_uuid : uuid;
  db_now : nat
}.

(** ** Values exchanged with the environment *)

(** Modelled from the spec: the class [ErrorHandler] of
    [middlewares/errorMiddleware.js] is not among the sources.  An error of
    the taxonomy of the spec (section 7) is a message with a status code: 400
    for a validation or stock error, 404 for a product or order that is not
    found.  The other constructors are the exceptions that the parser, the
    language and the database driver throw. *)
Inductive error :=
| ErrorHandler (message : string) (statusCode : nat)
| SyntaxError (message : string)
| TypeError (message : string)
| DatabaseError (message : string).

(** A parameter bound to [$n] in a statement. *)
Inductive sqlval :=
| SqlNull
| SqlUuid (u : uuid)
| SqlInt (z : Z)
| SqlNum (q : Q)
| SqlText (s : string).

(** The objects built by [json_build_object] in the joined query. *)
Record OrderItemJson := mkOrderItemJson {
  j_order_item_id : uuid;
  j_order_id : uuid;
  j_product_id : uuid;
  j_quantity : Z;
  j_price : Q
}.

Record ShippingJson := mkShippingJson {
  j_full_name : option string;
  j_state : option string;
  j_city : option string;
  j_country : option string;
  j_address : option string;
  j_pincode : option string;
  j_phone : option string
}.

Record JoinedOrder := mkJoinedOrder {
  j_order : Order;
  j_order_items : list OrderItemJson;
  j_shipping_info : ShippingJson
}.

(** The statements the controller sends, indexed by the type of [rows]. *)
Inductive query : Type -> Type :=
| SELECT_products (productIds : list uuid) : query (list Product)
| INSERT_orders (buyer_id : uuid) (total_price : Z) (tax_price : Q)
    (shipping_price : Z) : query (list Order)
| INSERT_order_items (placeholders : list nat) (values : list sqlval)
    : query (list OrderItem)
| INSERT_shipping_info (order_id : uuid)
    (full_name state city country address pincode phone : string)
    : query (list ShippingInfo)
| INSERT_payments (order_id : uuid) (payment_type payment_status : string)
    (payment_intent_id : option string) : query (list Payment)
| UPDATE_products_stock (quantity : Z) (id : uuid) : query unit
| SELECT_orders_joined (orderId : uuid) : query (list JoinedOrder)
| SELECT_orders (orderId : uuid) : query (list Order)
| UPDATE_orders_status (status : string) (orderId : uuid) : query (list Order)
| DELETE_orders (orderId : uuid) : query (list Order).

(** Bodies passed to [res.status(200).json]. *)
Inductive body :=
| OrderPlaced (message : string) (order : Order) (total_price : Z)
| OrderFetched (message : string) (orders : option JoinedOrder)
| OrderStatusUpdated (message : string) (updatedOrder : option Order)
| OrderDeleted (message : string) (order : option Order).

Inductive event :=
| Next (e : error)
| Json (status : nat) (b : body).

(** ** Handlers as programs *)

Inductive prog (A : Type) : Type :=
| Ret (a : A)
| Throw (e : error)
| CallNext (e : error) (k : prog A)
| ResJson (status : nat) (b : body) (k : prog A)
| Await (R : Type) (q : query R) (k : error + R -> prog A).

Arguments Ret {A} a.
Arguments Throw {A} e.
Arguments CallNext {A} e k.
Arguments ResJson {A} status b k.
Arguments Await {A R} q k.

Fixpoint bind {A B : Type} (p : prog A) (f : A -> prog B) : prog B :=
  match p with
  | Ret a => f a
  | Throw e => Throw e
  | CallNext e k => CallNext e (bind k f)
  | ResJson c b k => ResJson c b (bind k f)
  | Await q k => Await q (fun r => bind (k r) f)
  end.

(** [await database.query(...)]: a rejected promise throws at the await. *)
Definition await {R : Type} (q : query R) : prog R :=
  Await q (fun r => match r with inl e => Throw e | inr rows => Ret rows end).

Declare Scope prog_scope.
Delimit Scope prog_scope with prog.
Notation "x <- p ;; q" := (bind p (fun x => q))
  (at level 61, p at next level, right associativity) : prog_scope.
Notation "p ;;; q" := (bind p (fun _ => q))
  (at level 61, right associativity) : prog_scope.

(** Modelled from the spec: [middlewares/catchAsyncError.js] is not among the
    sources.  By the propagation policy of the spec (section 7) an error
    raised in a handler is reported as it is to the caller: whatever the
    handler throws is passed to [next]. *)
Fixpoint catchAsyncErrors (p : prog unit) : prog unit :=
  match p with
  | Ret a => Ret a
  | Throw e => CallNext e (Ret tt)
  | CallNext e k => CallNext e (catchAsyncErrors k)
  | ResJson c b k => ResJson c b (catchAsyncErrors k)
  | Await q k => Await q (fun r => catchAsyncErrors (k r))
  end.

(** ** The database: what each statement does to the store *)

Definition set_products (st : Store) (ps : list Product) : Store :=
  mkStore ps (orders st) (order_items st) (shipping_info st) (payments st)
    (next_uuid st) (db_now st).

Definition set_orders (st : Store) (os : list Order) : Store :=
  mkStore (products st) os (order_items st) (shipping_info st) (payments st)
    (next_uuid st) (db_now st).

Definition set_order_status (status : string) (o : Order) : Order :=
  mkOrder (o_id o) (o_buyer_id o) (o_total_price o) (o_tax_price o)
    (o_shipping_price o) status (o_paid_at o).

Definition set_stock (stock : Z) (p : Product) : Product :=
  mkProduct (p_id p) (p_price p) stock (p_name p).

(** [VALUES ($o+1, ..., $o+6)]: the row a placeholder group denotes, when the
    six parameters it names were supplied with the types of the columns. *)
Definition item_row (values : list sqlval) (offset : nat) (id : uuid)
  : option OrderItem :=
  match nth_error values offset, nth_error values (offset + 1),
        nth_error values (offset + 2), nth_error values (offset + 3),
        nth_error values (offset + 4), nth_error values (offset + 5) with
  | Some (SqlUuid order_id), Some (SqlUuid product_id), Some (SqlInt quantity),
    Some (SqlNum price), Some (SqlText image), Some (SqlText title) =>
      Some (mkOrderItem id order_id product_id quantity price image title)
  | _, _, _, _, _, _ => None
  end.

Fixpoint item_rows (values : list sqlval) (placeholders : list nat) (id : uuid)
  : option (list OrderItem) :=
  match placeholders with
  | [] => Some []
  | offset :: rest =>
      match item_row values offset id, item_rows values rest (S id) with
      | Some row, Some rows => Some (row :: rows)
      | _, _ => None
      end
  end.

Definition shipping_json (s : option ShippingInfo) : ShippingJson :=
  match s with
  | Some s =>
      mkShippingJson (Some (s_full_name s)) (Some (s_state s)) (Some (s_city s))
        (Some (s_country s)) (Some (s_address s)) (Some (s_pincode s))
        (Some (s_phone s))
  | None => mkShippingJson None None None None None None None
  end.

Definition item_json (oi : OrderItem) : OrderItemJson :=
  mkOrderItemJson (oi_id oi) (oi_order_id oi) (oi_product_id oi)
    (oi_quantity oi) (oi_price oi).

(** [orders o LEFT JOIN order_items oi LEFT JOIN shipping_info s ... GROUP BY
    o.id, s.id]: one row per order and shipping row of that order (one row
    with a null [s] when it has none), each carrying all items of the order;
    [COALESCE(json_agg(...) FILTER (...), '[]')] is the list of items. *)
Definition joined_rows (st : Store) (o : Order) : list JoinedOrder :=
  let items :=
    map item_json
      (filter (fun oi => Nat.eqb (oi_order_id oi) (o_id o)) (order_items st)) in
  match filter (fun s => Nat.eqb (s_order_id s) (o_id o)) (shipping_info st) with
  | [] => [mkJoinedOrder o items (shipping_json None)]
  | ss => map (fun s => mkJoinedOrder o items (shipping_json (Some s))) ss
  end.

Definition exec {R : Type} (q : query R) (st : Store) : Store * (error + R) :=
  match q in query R return Store * (error + R) with
  | SELECT_products productIds =>
      (st, inr (filter (fun p => existsb (Nat.eqb (p_id p)) productIds)
                  (products st)))
  | INSERT_orders buyer_id total_price tax_price shipping_price =>
      let row := mkOrder (next_uuid st) buyer_id total_price tax_price
                   shipping_price "Processing" (Some (db_now st)) in
      (mkStore (products st) (orders st ++ [row]) (order_items st)
         (shipping_info st) (payments st) (S (next_uuid st)) (db_now st),
       inr [row])
  | INSERT_order_items placeholders values =>
      match placeholders with
      | [] => (st, inl (DatabaseError "syntax error at or near RETURNING"))
      | _ =>
          match item_rows values placeholders (next_uuid st) with
          | Some rows =>
              (mkStore (products st) (orders st) (order_items st ++ rows)
                 (shipping_info st) (payments st)
                 (next_uuid st + List.length rows)%nat (db_now st),
               inr rows)
          | None =>
              (st, inl (DatabaseError
                          "bind message does not supply the parameters of the statement"))
          end
      end
  | INSERT_shipping_info order_id full_name state city country address pincode
      phone =>
      let row := mkShippingInfo (next_uuid st) order_id full_name state city
                   country address pincode phone in
      (mkStore (products st) (orders st) (order_items st)
         (shipping_info st ++ [row]) (payments st) (S (next_uuid st))
         (db_now st),
       inr [row])
  | INSERT_payments order_id payment_type payment_status payment_intent_id =>
      let row := mkPayment (next_uuid st) order_id payment_type payment_status
                   payment_intent_id in
      (mkStore (products st) (orders st) (order_items st) (shipping_info st)
         (payments st ++ [row]) (S (next_uuid st)) (db_now st),
       inr [row])
  | UPDATE_products_stock quantity id =>
      (set_products st
         (map (fun p => if Nat.eqb (p_id p) id
                        then set_stock (p_stock p - quantity) p else p)
            (products st)),
       inr tt)
  | SELECT_orders_joined orderId =>
      (st, inr (flat_map (joined_rows st)
                  (filter (fun o => Nat.eqb (o_id o) orderId) (orders st))))
  | SELECT_orders orderId =>
      (st, inr (filter (fun o => Nat.eqb (o_id o) orderId) (orders st)))
  | UPDATE_orders_status status orderId =>
      (set_orders st
         (map (fun o => if Nat.eqb (o_id o) orderId
                        then set_order_status status o else o)
            (orders st)),
       inr (map (set_order_status status)
              (filter (fun o => Nat.eqb (o_id o) orderId) (orders st))))
  | DELETE_orders orderId =>
      (set_orders st
         (filter (fun o => negb (Nat.eqb (o_id o) orderId)) (orders st)),
       inr (filter (fun o => Nat.eqb (o_id o) orderId) (orders st)))
  end.

(** ** Running a handler alone *)

Fixpoint run {A : Type} (p : prog A) (st : Store) (log : list event)
  : Store * list event * (error + A) :=
  match p with
  | Ret a => (st, log, inr a)
  | Throw e => (st, log, inl e)
  | CallNext e k => run k st (log ++ [Next e])
  | ResJson c b k => run k st (log ++ [Json c b])
  | Await q k => let '(st', r) := exec q st in run (k r) st' log
  end.

(** The store and the calls to [next] and [res.json] after a handler (already
    wrapped in [catchAsyncErrors]) has run to completion on [st]. *)
Definition handle (h : prog unit) (st : Store) : Store * list event :=
  fst (run h st []).

(** ** Requests *)

Record CartProduct := mkCartProduct {
  cp_id : uuid;
  cp_images : list string   (* the [url] of each entry of [images] *)
}.

Record CartLine := mkCartLine {
  product : CartProduct;
  quantity : Z
}.

(** [req.body.orderedItems]: an array, a text to be parsed, or nothing. *)
Inductive ordered_items :=
| ItemsArray (items : list CartLine)
| ItemsText (text : string)
| ItemsMissing.

(** What [JSON.parse] returns, as far as the handler looks at it: an array of
    cart lines, a falsy value ([null], [false], [0], the empty string), or
    another value, of which only [length === 0] is tested. *)
Inductive parsed :=
| ParsedArray (items : list CartLine)
| ParsedFalsy
| ParsedNonArray (length_is_zero : bool).

Record PlaceOrderRequest := mkPlaceOrderRequest {
  full_name : option string;
  state : option string;
  city : option string;
  country : option string;
  address : option string;
  pincode : option string;
  phone : option string;
  orderedItems : ordered_items;
  user_id : uuid
}.

(** [!v] *)
Definition falsy (v : option string) : bool :=
  match v with
  | None => true
  | Some s => String.eqb s ""
  end.

Definition text (v : option string) : string :=
  match v with
  | None => ""
  | Some s => s
  end.

Definition string_of_Z (z : Z) : string := NilZero.string_of_int (Z.to_int z).
Definition string_of_uuid (u : uuid) : string :=
  NilZero.string_of_uint (Nat.to_uint u).

(** ** Numbers *)

(** The double nearest to an integer, ties to the even one: the number a
    quantity or a fee is in a sum or a product. *)
Definition Number_of_Z (z : Z) : float :=
  SF2Prim (binary_normalize prec emax z 0 false).

(** The double nearest to a decimal, ties to the even one: what [*] makes of
    the text in which the driver hands over a DECIMAL column, and what the
    literal [0.18] denotes.  The quotient is taken with 1200 binary digits
    more than the denominator has, and a last digit that tells whether
    anything is left; no rounding of a double looks further. *)
Definition Number_of_Q (q : Q) : float :=
  let n := Z.abs (Qnum q) in
  let d := Zpos (Qden q) in
  let k := 1200 + Z.log2 d in
  let quotient := (n * 2 ^ k) / d in
  let sticky := if (n * 2 ^ k) mod d =? 0 then 0 else 1 in
  let m := 2 * quotient + sticky in
  SF2Prim
    (binary_normalize prec emax (if Qnum q <? 0 then - m else m) (- (k + 1))
       false).

(** The rational a double stands for.  A double that is not finite stands for
    none, and is given 0: the handler reaches one only with a total beyond
    the range of the doubles (about 1.8e308), and what the database makes of
    [Infinity] or [NaN] in a DECIMAL column is not modelled. *)
Definition Q_of_Number (x : float) : Q :=
  match Prim2SF x with
  | S754_finite s m e =>
      let n := if s then Zneg m else Zpos m in
      if 0 <=? e then inject_Z (n * 2 ^ e) else n # Z.to_pos (2 ^ (- e))
  | _ => 0
  end.

(** The nearest integer, a half rounded up. *)
Definition Math_round (x : Q) : Z := Qfloor (x + (1 # 2)).

(** ** PLACE NEW ORDER *)

(** The variables the [forEach] callback assigns to. *)
Record cart_acc := mkCartAcc {
  acc_total_price : float;
  acc_values : list sqlval;
  acc_placeholders : list nat   (* [offset] of each group [($offset+1, ...)] *)
}.

Definition forEach_callback (products : list Product) (acc : cart_acc)
  (item : CartLine) (index : nat) : prog cart_acc :=
  match find (fun p => Nat.eqb (p_id p) (cp_id (product item))) products with
  | None =>
      CallNext
        (ErrorHandler
           ("Product not found for ID: "
              ++ string_of_uuid (cp_id (product item)))%string
           404)
        (Ret acc)
  | Some product_row =>
      if quantity item >? p_stock product_row then
        CallNext
          (ErrorHandler
             ("Only " ++ string_of_Z (p_stock product_row)
                ++ " units available for " ++ p_name product_row)%string
             400)
          (Ret acc)
      else
        let itemTotal :=
          (Number_of_Q (p_price product_row) * Number_of_Z (quantity item))%float
        in
        Ret (mkCartAcc
               (acc_total_price acc + itemTotal)%float
               (acc_values acc ++
                  [SqlNull;
                   SqlUuid (p_id product_row);
                   SqlInt (quantity item);
                   SqlNum (p_price product_row);
                   SqlText (match hd_error (cp_images (product item)) with
                            | Some url => url
                            | None => ""
                            end);
                   SqlText (p_name product_row)])
               (acc_placeholders acc ++ [(index * 6)%nat]))
  end.

Fixpoint forEach {A V : Type} (f : V -> A -> nat -> prog V) (l : list A)
  (index : nat) (s : V) : prog V :=
  match l with
  | [] => Ret s
  | x :: rest => bind (f s x index) (forEach f rest (S index))
  end.

(** [for (let i = 0; i < values.length; i += 6) values[i] = orderId]; [k] is
    the distance to the next index that is assigned. *)
Fixpoint fill_order_id (orderId : uuid) (k : nat) (values : list sqlval)
  : list sqlval :=
  match values with
  | [] => []
  | v :: rest =>
      match k with
      | O => SqlUuid orderId :: fill_order_id orderId 5 rest
      | S k' => v :: fill_order_id orderId k' rest
      end
  end.

Fixpoint reduce_stock (items : list CartLine) : prog unit :=
  match items with
  | [] => Ret tt
  | item :: rest =>
      bind (await (UPDATE_products_stock (quantity item) (cp_id (product item))))
        (fun _ => reduce_stock rest)
  end.

Section Controller.

(** [JSON.parse] on a text other than the default ["[]"]; [inl] is the
    exception it throws. *)
Variable JSON_parse : string -> error + parsed.

Local Open Scope prog_scope.

Definition parse_items (o : ordered_items) : prog parsed :=
  match o with
  | ItemsArray items => Ret (ParsedArray items)
  | ItemsText s =>
      if String.eqb s "" then Ret (ParsedArray [])
      else match JSON_parse s with
           | inl e => Throw e
           | inr v => Ret v
           end
  | ItemsMissing => Ret (ParsedArray [])
  end.

(** Steps 3 to 9, once [items] is a non-empty array. *)
Definition place_items (req : PlaceOrderRequest) (items : list CartLine)
  : prog unit :=
  (* 3) Fetch products from DB and validate stock *)
  let productIds := map (fun item => cp_id (product item)) items in
  products <- await (SELECT_products productIds) ;;
  acc <- forEach (forEach_callback products) items 0%nat
           (mkCartAcc 0%float [] []) ;;
  (* 4) Calculate taxes & shipping *)
  let total_price := acc_total_price acc in
  let tax_price := (18 # 100)%Q in   (* a double in the sum, [$3] below *)
  let shipping_price := if (50 <=? total_price)%float then 0 else 2 in
  let total_price :=
    Math_round
      (Q_of_Number (total_price + total_price * Number_of_Q tax_price
                    + Number_of_Z shipping_price)%float) in
  (* 5) Create order *)
  orderResult <- await (INSERT_orders (user_id req) total_price tax_price
                          shipping_price) ;;
  match orderResult with
  | [] => Throw (TypeError "Cannot read properties of undefined (reading 'id')")
  | order :: _ =>
      let orderId := o_id order in
      let values := fill_order_id orderId 0 (acc_values acc) in
      (* 6) Insert order_items *)
      await (INSERT_order_items (acc_placeholders acc) values) ;;;
      (* 7) Insert shipping_info *)
      await (INSERT_shipping_info orderId (text (full_name req))
               (text (state req)) (text (city req)) (text (country req))
               (text (address req)) (text (pincode req)) (text (phone req))) ;;;
      (* 8) Insert payment row directly as PAID *)
      await (INSERT_payments orderId "Online" "Paid" None) ;;;
      (* 9) Reduce stock immediately *)
      reduce_stock items ;;;
      ResJson 200 (OrderPlaced "Order placed successfully." order total_price)
        (Ret tt)
  end.

Definition placeNewOrder (req : PlaceOrderRequest) : prog unit :=
  catchAsyncErrors
    ((* 1) Validate shipping info *)
     if falsy (full_name req) || falsy (state req) || falsy (city req)
        || falsy (country req) || falsy (address req) || falsy (pincode req)
        || falsy (phone req)
     then
       CallNext (ErrorHandler "Please provide complete shipping details." 400)
         (Ret tt)
     else
       (* 2) Parse ordered items *)
       items <- parse_items (orderedItems req) ;;
       match items with
       | ParsedFalsy | ParsedArray [] | ParsedNonArray true =>
           CallNext (ErrorHandler "No items in cart." 400) (Ret tt)
       | ParsedNonArray false => Throw (TypeError "items.map is not a function")
       | ParsedArray items => place_items req items
       end).

End Controller.

(** ** FETCH SINGLE ORDER *)

Local Open Scope prog_scope.

Definition fetchSingleOrder (orderId : uuid) : prog unit :=
  catchAsyncErrors
    (result <- await (SELECT_orders_joined orderId) ;;
     ResJson 200 (OrderFetched "Order fetched." (hd_error result)) (Ret tt)).

(** ** UPDATE ORDER STATUS *)

Definition updateOrderStatus (status : option string) (orderId : uuid)
  : prog unit :=
  catchAsyncErrors
    (if falsy status then
       CallNext (ErrorHandler "Provide a valid status for order." 400) (Ret tt)
     else
       results <- await (SELECT_orders orderId) ;;
       if Nat.eqb (List.length results) 0 then
         CallNext (ErrorHandler "Invalid order ID." 404) (Ret tt)
       else
         updatedOrder <- await (UPDATE_orders_status (text status) orderId) ;;
         ResJson 200
           (OrderStatusUpdated "Order status updated." (hd_error updatedOrder))
           (Ret tt)).

(** ** DELETE ORDER *)

Definition deleteOrder (orderId : uuid) : prog unit :=
  catchAsyncErrors
    (results <- await (DELETE_orders orderId) ;;
     if Nat.eqb (List.length results) 0 then
       CallNext (ErrorHandler "Invalid order ID." 404) (Ret tt)
     else
       ResJson 200 (OrderDeleted "Order deleted." (hd_error results)) (Ret tt)).

(** * Definitions for the statements *)

(** ** Orders by identifier *)

Definition has_id (orderId : uuid) (o : Order) : bool := Nat.eqb (o_id o) orderId.

Definition order_exists (st : Store) (orderId : uuid) : Prop :=
  exists o, In o (orders st) /\ o_id o = orderId.

(** [new] is [old] with the status column set to [status]. *)
Definition status_set (status : string) (old new : Order) : Prop :=
  o_id new = o_id old /\ o_buyer_id new = o_buyer_id old
  /\ o_total_price new = o_total_price old /\ o_tax_price new = o_tax_price old
  /\ o_shipping_price new = o_shipping_price old
  /\ o_paid_at new = o_paid_at old /\ o_order_status new = status.

(** ** PLACE NEW ORDER: the cart loop *)

(** [products.find((p) => p.id === id)] *)
Definition find_product (ps : list Product) (id : uuid) : option Product :=
  find (fun p => Nat.eqb (p_id p) id) ps.

(** The error the callback passes to [next] for a line, if any. *)
Definition line_error (ps : list Product) (item : CartLine) : option error :=
  match find_product ps (cp_id (product item)) with
  | None =>
      Some (ErrorHandler
              ("Product not found for ID: "
                 ++ string_of_uuid (cp_id (product item)))%string
              404)
  | Some p =>
      if quantity item >? p_stock p then
        Some (ErrorHandler
                ("Only " ++ string_of_Z (p_stock p)
                   ++ " units available for " ++ p_name p)%string
                400)
      else None
  end.

Fixpoint cart_errors (ps : list Product) (items : list CartLine) : list error :=
  match items with
  | [] => []
  | item :: rest =>
      match line_error ps item with
      | Some e => e :: cart_errors ps rest
      | None => cart_errors ps rest
      end
  end.

(** The six parameters pushed for a line that passes both tests. *)
Definition line_values (p : Product) (item : CartLine) : list sqlval :=
  [SqlNull; SqlUuid (p_id p); SqlInt (quantity item); SqlNum (p_price p);
   SqlText (match hd_error (cp_images (product item)) with
            | Some url => url
            | None => ""
            end);
   SqlText (p_name p)].

(** The variables of the loop after the lines [items], the first of which has
    index [index]. *)
Fixpoint cart_loop (ps : list Product) (items : list CartLine) (index : nat)
  (acc : cart_acc) : cart_acc :=
  match items with
  | [] => acc
  | item :: rest =>
      cart_loop ps rest (S index)
        match find_product ps (cp_id (product item)) with
        | None => acc
        | Some p =>
            if quantity item >? p_stock p then acc
            else mkCartAcc
                   (acc_total_price acc
                    + Number_of_Q (p_price p) * Number_of_Z (quantity item))%float
                   (acc_values acc ++ line_values p item)
                   (acc_placeholders acc ++ [(index * 6)%nat])
        end
  end.

(** *** Carts whose lines all pass *)

Definition line_ok (ps : list Product) (item : CartLine) : bool :=
  match find_product ps (cp_id (product item)) with
  | Some p => negb (quantity item >? p_stock p)
  | None => false
  end.

Definition unit_price (ps : list Product) (item : CartLine) : Q :=
  match find_product ps (cp_id (product item)) with
  | Some p => p_price p
  | None => 0
  end.

(** [itemTotal] of a line that passes. *)
Definition line_total (ps : list Product) (item : CartLine) : float :=
  (Number_of_Q (unit_price ps item) * Number_of_Z (quantity item))%float.

Definition cart_values (ps : list Product) (item : CartLine) : list sqlval :=
  match find_product ps (cp_id (product item)) with
  | Some p => line_values p item
  | None => []
  end.

(** *** The bulk insert of the order items *)

(** The item rows of a cart whose lines all pass, for the order [orderId]. *)
Fixpoint placed_items (orderId : uuid) (ps : list Product)
  (items : list CartLine) (id : uuid) : list OrderItem :=
  match items with
  | [] => []
  | item :: rest =>
      match find_product ps (cp_id (product item)) with
      | Some p =>
          mkOrderItem id orderId (p_id p) (quantity item) (p_price p)
            (match hd_error (cp_images (product item)) with
             | Some url => url
             | None => ""
             end)
            (p_name p)
          :: placed_items orderId ps rest (S id)
      | None => placed_items orderId ps rest (S id)
      end
  end.

(** *** The stock updates *)

Definition decrement (item : CartLine) (ps : list Product) : list Product :=
  map (fun p => if Nat.eqb (p_id p) (cp_id (product item))
                then set_stock (p_stock p - quantity item) p else p) ps.

Definition decrement_all (items : list CartLine) (ps : list Product)
  : list Product :=
  fold_left (fun ps item => decrement item ps) items ps.

(** *** Pricing *)

Definition tax_rate : Q := 18 # 100.

(** Names for what step 4 of [place_items] computes in line from the
    [total_price] with which the loop ends: the [shipping_price], the double
    that is rounded, and the final [total_price]. *)
Definition shipping_for (subtotal : float) : Z :=
  if (50 <=? subtotal)%float then 0 else 2.

Definition charged (subtotal : float) : float :=
  (subtotal + subtotal * Number_of_Q tax_rate
   + Number_of_Z (shipping_for subtotal))%float.

Definition total_for (subtotal : float) : Z :=
  Math_round (Q_of_Number (charged subtotal)).

(** [total_price] when the loop ends on a cart whose lines all pass. *)
Definition loop_subtotal (ps : list Product) (items : list CartLine) : float :=
  fold_left (fun t item => (t + line_total ps item)%float) items 0%float.

(** *** A placement whose lines all pass *)

Definition placed_order (req : PlaceOrderRequest) (items : list CartLine)
  (st : Store) : Order :=
  let subtotal := loop_subtotal (products st) items in
  mkOrder (next_uuid st) (user_id req) (total_for subtotal) tax_rate
    (shipping_for subtotal) "Processing" (Some (db_now st)).

Definition placed_store (req : PlaceOrderRequest) (items : list CartLine)
  (st : Store) : Store :=
  let rows :=
    placed_items (next_uuid st) (products st) items (S (next_uuid st)) in
  let shipping_id := (S (next_uuid st) + List.length rows)%nat in
  mkStore
    (decrement_all items (products st))
    (orders st ++ [placed_order req items st])
    (order_items st ++ rows)
    (shipping_info st
       ++ [mkShippingInfo shipping_id (next_uuid st) (text (full_name req))
             (text (state req)) (text (city req)) (text (country req))
             (text (address req)) (text (pincode req)) (text (phone req))])
    (payments st ++ [mkPayment (S shipping_id) (next_uuid st) "Online" "Paid" None])
    (S (S shipping_id))
    (db_now st).

(** ** PLACE NEW ORDER: validation *)

(** None of the seven [!field] tests of step 1 fires. *)
Definition shipping_complete (req : PlaceOrderRequest) : bool :=
  negb (falsy (full_name req) || falsy (state req) || falsy (city req)
        || falsy (country req) || falsy (address req) || falsy (pincode req)
        || falsy (phone req)).

(** The value of [items] after step 2, or what [JSON.parse] threw. *)
Definition normalized_cart (JSON_parse : string -> error + parsed)
  (o : ordered_items) : error + parsed :=
  match o with
  | ItemsArray items => inr (ParsedArray items)
  | ItemsText s =>
      if String.eqb s "" then inr (ParsedArray []) else JSON_parse s
  | ItemsMissing => inr (ParsedArray [])
  end.

(** A line is valid for a table when its product is found there and its
    quantity does not exceed the stock of the row found. *)
Definition valid_line (ps : list Product) (item : CartLine) : Prop :=
  exists p, find_product ps (cp_id (product item)) = Some p
            /\ quantity item <= p_stock p.

(** ** PLACE NEW ORDER: the total *)

(** The subtotal in the words of the spec: the sum over the lines of unit
    price times quantity. *)
Definition subtotal (ps : list Product) (items : list CartLine) : Q :=
  fold_right (fun item s => (unit_price ps item * inject_Z (quantity item) + s)%Q)
    0%Q items.

(** [n] is [x] rounded to the nearest integer, a half rounded up. *)
Definition round_half_up (x : Q) (n : Z) : Prop :=
  (inject_Z n - (1 # 2) <= x)%Q /\ (x < inject_Z n + (1 # 2))%Q.

(** ** PLACE NEW ORDER: what the stock updates add up to *)

(** The quantity a cart orders of a product, all its lines together. *)
Fixpoint ordered_quantity (items : list CartLine) (id : uuid) : Z :=
  match items with
  | [] => 0
  | item :: rest =>
      if Nat.eqb id (cp_id (product item))
      then quantity item + ordered_quantity rest id
      else ordered_quantity rest id
  end.

(** ** Stock never negative? *)



Definition cart_ids (items : list CartLine) : list uuid :=
  map (fun item => cp_id (product item)) items.




(** ** PLACE NEW ORDER: failures *)

(** [!items || items.length === 0] *)
Definition no_items (v : parsed) : bool :=
  match v with
  | ParsedArray [] | ParsedFalsy | ParsedNonArray true => true
  | ParsedArray (_ :: _) | ParsedNonArray false => false
  end.

(** What a handler does, in the order in which it does it: what it passes to
    [next] and [res.json], and the statements it sends. *)
Inductive action :=
| Calls (e : event)
| Sends (R : Type) (q : query R).

Arguments Sends {R} q.

Fixpoint trace {A : Type} (p : prog A) (st : Store) : list action :=
  match p with
  | Ret _ | Throw _ => []
  | CallNext e k => Calls (Next e) :: trace k st
  | ResJson c b k => Calls (Json c b) :: trace k st
  | Await q k => Sends q :: trace (k (snd (exec q st))) (fst (exec q st))
  end.

(** A handler run alone when the database rejects one statement: the
    statement number [n] of the run (from 0) changes nothing and its promise
    is rejected with [e]; every other statement is executed. *)
Fixpoint run_rejecting {A : Type} (n : nat) (e : error) (p : prog A)
  (st : Store) (log : list event) : Store * list event * (error + A) :=
  match p with
  | Ret a => (st, log, inr a)
  | Throw e' => (st, log, inl e')
  | CallNext e' k => run_rejecting n e k st (log ++ [Next e'])
  | ResJson c b k => run_rejecting n e k st (log ++ [Json c b])
  | Await q k =>
      match n with
      | O => run (k (inl e)) st log
      | S n' =>
          let '(st', r) := exec q st in run_rejecting n' e (k r) st' log
      end
  end.

(** The store, and what has been passed on, at the moment the handler sends
    statement number [n], if its run has that many. *)
Fixpoint before_statement {A : Type} (n : nat) (p : prog A) (st : Store)
  (log : list event) : option (Store * list event) :=
  match p with
  | Ret _ | Throw _ => None
  | CallNext e k => before_statement n k st (log ++ [Next e])
  | ResJson c b k => before_statement n k st (log ++ [Json c b])
  | Await q k =>
      match n with
      | O => Some (st, log)
      | S n' =>
          let '(st', r) := exec q st in before_statement n' (k r) st' log
      end
  end.

(** Every rejected statement throws at its [await], and nothing catches. *)
Fixpoint rejections_thrown {A : Type} (p : prog A) : Prop :=
  match p with
  | Ret _ | Throw _ => True
  | CallNext _ k | ResJson _ _ k => rejections_thrown k
  | Await q k =>
      (forall e, k (inl e) = Throw e) /\ forall r, rejections_thrown (k r)
  end.

(** Every rejected statement ends the handler with its error passed to
    [next]. *)
Fixpoint rejections_passed_on (p : prog unit) : Prop :=
  match p with
  | Ret _ | Throw _ => True
  | CallNext _ k | ResJson _ _ k => rejections_passed_on k
  | Await q k =>
      (forall e, k (inl e) = CallNext e (Ret tt))
      /\ forall r, rejections_passed_on (k r)
  end.

(** ** PLACE NEW ORDER: what validation rejects *)

(** The field has only white space, so that trimming leaves nothing. *)
Definition empty_after_trim (s : string) : bool :=
  forallb (fun c => Ascii.eqb c " " || Ascii.eqb c "009" || Ascii.eqb c "010"
                    || Ascii.eqb c "013")%char
    (list_ascii_of_string s).

Definition shipping_fields (req : PlaceOrderRequest) : list (option string) :=
  [full_name req; state req; city req; country req; address req; pincode req;
   phone req].

(** ** Requests handled concurrently *)

(** A request in flight: what is left of its handler, and what it has passed
    to [next] and [res.json] so far. *)
Record task := mkTask {
  remaining : prog unit;
  passed : list event
}.

(** One turn of a handler: it runs up to its next [await], whose statement
    the database executes; the handler resumes at its next turn. *)
Fixpoint turn (p : prog unit) (st : Store) (log : list event)
  : prog unit * Store * list event :=
  match p with
  | Ret a => (Ret a, st, log)
  | Throw e => (Throw e, st, log)
  | CallNext e k => turn k st (log ++ [Next e])
  | ResJson c b k => turn k st (log ++ [Json c b])
  | Await q k => let '(st', r) := exec q st in (k r, st', log)
  end.

Fixpoint replace_task (i : nat) (t : task) (tasks : list task) : list task :=
  match tasks, i with
  | [], _ => []
  | _ :: rest, O => t :: rest
  | t0 :: rest, S i' => t0 :: replace_task i' t rest
  end.

(** The tasks take turns in the order of [schedule]. *)
Fixpoint interleave (schedule : list nat) (st : Store) (tasks : list task)
  : Store * list task :=
  match schedule with
  | [] => (st, tasks)
  | i :: rest =>
      match nth_error tasks i with
      | Some t =>
          let '(p', st', log') := turn (remaining t) st (passed t) in
          interleave rest st' (replace_task i (mkTask p' log') tasks)
      | None => interleave rest st tasks
      end
  end.

(** ** Requests handled one after the other *)

Fixpoint handle_each (JSON_parse : string -> error + parsed)
  (reqs : list PlaceOrderRequest) (st : Store) : Store * list (list event) :=
  match reqs with
  | [] => (st, [])
  | req :: rest =>
      let '(st1, log) := handle (placeNewOrder JSON_parse req) st in
      let '(st2, logs) := handle_each JSON_parse rest st1 in
      (st2, log :: logs)
  end.

(** A request for one unit of the product [id]. *)
Definition last_unit_request (JSON_parse : string -> error + parsed)
  (id : uuid) (req : PlaceOrderRequest) : Prop :=
  shipping_complete req = true
  /\ exists item,
       normalized_cart JSON_parse (orderedItems req) = inr (ParsedArray [item])
       /\ cp_id (product item) = id /\ quantity item = 1.

(** The answer of a request that lost: the stock error first, and no 200. *)
Definition out_of_stock (name : string) (log : list event) : Prop :=
  exists rest,
    log = Next (ErrorHandler ("Only 0 units available for " ++ name)%string 400)
          :: rest
    /\ forall c b, ~ In (Json c b) rest.

(** ** One after the other is one of the interleavings *)

(** The number of awaits a handler goes through when it runs alone. *)
Fixpoint turns (p : prog unit) (st : Store) : nat :=
  match p with
  | Ret _ | Throw _ => O
  | CallNext _ k | ResJson _ _ k => turns k st
  | Await q k => S (turns (k (snd (exec q st))) (fst (exec q st)))
  end.

Fixpoint take_turns (n : nat) (p : prog unit) (st : Store) (log : list event)
  : prog unit * Store * list event :=
  match n with
  | O => (p, st, log)
  | S n' =>
      let '(p', st', log') := turn p st log in take_turns n' p' st' log'
  end.

Definition finished (r : error + unit) : prog unit :=
  match r with
  | inl e => Throw e
  | inr a => Ret a
  end.

(** The schedule that gives every handler all its turns before the next. *)
Fixpoint sequential (i : nat) (progs : list (prog unit)) (st : Store)
  : list nat :=
  match progs with
  | [] => []
  | p :: rest =>
      repeat i (S (turns p st))
        ++ sequential (S i) rest (fst (fst (run p st [])))
  end.

Fixpoint run_each (progs : list (prog unit)) (st : Store)
  : Store * list task :=
  match progs with
  | [] => (st, [])
  | p :: rest =>
      let '(st', ts) := run_each rest (fst (fst (run p st []))) in
      (st', mkTask (finished (snd (run p st []))) (snd (fst (run p st []))) :: ts)
  end.

(** ** Data for the examples *)

(** A shop with one placed order, used to run the handlers. *)
Definition P1 : Product := mkProduct 1 (30 # 1) 5 "P1".
Definition P2 : Product := mkProduct 2 (10 # 1) 3 "P2".

Definition P3 : Product := mkProduct 3 (20 # 1) 1 "P3".

Definition order100 : Order :=
  mkOrder 100 9 71 (18 # 100) 0 "Processing" (Some 7%nat).

Definition shop : Store := mkStore [P1; P2] [] [] [] [] 100 7.

Definition shop_after_order : Store :=
  mkStore
    [mkProduct 1 (30 # 1) 3 "P1"; P2]
    [order100]
    [mkOrderItem 101 100 1 2 (30 # 1) "" "P1"]
    [mkShippingInfo 102 100 "Ann" "Chuy" "Bishkek" "KG" "Main st. 1" "720000"
       "0555"]
    [mkPayment 103 100 "Online" "Paid" None]
    104 7.

Definition shop_with_last_unit : Store := mkStore [P3] [] [] [] [] 100 7.

(** A shop with prices that are not doubles, and a cart of one unit of each
    product, 50 in all. *)
Definition shop_of_decimals : Store :=
  mkStore
    [mkProduct 1 (1420 # 100) 5 "A"; mkProduct 2 (1790 # 100) 5 "B";
     mkProduct 3 (1790 # 100) 5 "C"]
    [] [] [] [] 100 7.

Definition cart_line (id : uuid) (q : Z) : CartLine :=
  mkCartLine (mkCartProduct id []) q.

Definition cart_of_fifty : list CartLine :=
  [cart_line 1 1; cart_line 2 1; cart_line 3 1].

Definition request_of_ann (o : ordered_items) : PlaceOrderRequest :=
  mkPlaceOrderRequest (Some "Ann") (Some "Chuy") (Some "Bishkek") (Some "KG")
    (Some "Main st. 1") (Some "720000") (Some "0555") o 9.

Definition request_of_bob (o : ordered_items) : PlaceOrderRequest :=
  mkPlaceOrderRequest (Some "Bob") (Some "Osh") (Some "Osh") (Some "KG")
    (Some "Lenin st. 2") (Some "723500") (Some "0777") o 10.

Definition request_without_pincode (o : ordered_items) : PlaceOrderRequest :=
  mkPlaceOrderRequest (Some "Ann") (Some "Chuy") (Some "Bishkek") (Some "KG")
    (Some "Main st. 1") None (Some "0555") o 9.

Definition request_with_blank_name (o : ordered_items) : PlaceOrderRequest :=
  mkPlaceOrderRequest (Some "   ") (Some "Chuy") (Some "Bishkek") (Some "KG")
    (Some "Main st. 1") (Some "720000") (Some "0555") o 9.

Definition JSON_parse_rejects : string -> error + parsed :=
  fun _ => inl (SyntaxError "Unexpected token in JSON").

(** A parser for the texts of the examples: the empty array, [null], an
    object, and otherwise a text that is not JSON. *)
Definition JSON_parse_sample (s : string) : error + parsed :=
  if String.eqb s "[]" then inr (ParsedArray [])
  else if String.eqb s "null" then inr ParsedFalsy
  else if String.eqb s "{}" then inr (ParsedNonArray false)
  else inl (SyntaxError "Unexpected token in JSON").

(** * The listings and further definitions *)

(** ** FETCH MY ORDERS and FETCH ALL ORDERS *)

(** The item objects of the two listings, which carry image and title. *)
Record ListedItemJson := mkListedItemJson {
  l_order_item_id : uuid;
  l_order_id : uuid;
  l_product_id : uuid;
  l_quantity : Z;
  l_price : Q;
  l_image : string;
  l_title : string
}.

Record ListedOrder := mkListedOrder {
  l_order : Order;
  l_order_items : list ListedItemJson;
  l_shipping_info : ShippingJson
}.

Definition listed_item_json (oi : OrderItem) : ListedItemJson :=
  mkListedItemJson (oi_id oi) (oi_order_id oi) (oi_product_id oi)
    (oi_quantity oi) (oi_price oi) (oi_image oi) (oi_title oi).

(** The same join and grouping as in [joined_rows]. *)
Definition listed_rows (st : Store) (o : Order) : list ListedOrder :=
  let items :=
    map listed_item_json
      (filter (fun oi => Nat.eqb (oi_order_id oi) (o_id o)) (order_items st)) in
  match filter (fun s => Nat.eqb (s_order_id s) (o_id o)) (shipping_info st) with
  | [] => [mkListedOrder o items (shipping_json None)]
  | ss => map (fun s => mkListedOrder o items (shipping_json (Some s))) ss
  end.

(** [o.paid_at IS NOT NULL] *)
Definition paid (o : Order) : bool :=
  match o_paid_at o with
  | Some _ => true
  | None => false
  end.

(** The statements of the two listings. *)
Inductive list_query : Type -> Type :=
| SELECT_my_orders (buyer_id : uuid) : list_query (list ListedOrder)
| SELECT_all_orders : list_query (list ListedOrder).

Inductive list_body :=
| MyOrdersFetched (message : string) (myOrders : list ListedOrder)
| AllOrdersFetched (message : string) (orders : list ListedOrder).

Inductive list_event :=
| ListNext (e : error)
| ListJson (status : nat) (b : list_body).

Section Listings.

(** Neither statement has an ORDER BY: the database gives the rows it selects
    in an order of its choice, which can change with the state of the store.
    [row_order st rows] is the order in which the rows [rows] come out of the
    store [st]. *)
Variable row_order : Store -> list ListedOrder -> list ListedOrder.

Definition exec_list {R : Type} (q : list_query R) (st : Store)
  : Store * (error + R) :=
  match q in list_query R return Store * (error + R) with
  | SELECT_my_orders buyer_id =>
      (st, inr (row_order st
                  (flat_map (listed_rows st)
                     (filter (fun o => Nat.eqb (o_buyer_id o) buyer_id && paid o)
                        (orders st)))))
  | SELECT_all_orders =>
      (st, inr (row_order st
                  (flat_map (listed_rows st) (filter paid (orders st)))))
  end.

(** Both handlers await one statement and answer with its rows; what the
    await throws goes to [next]. *)
Definition fetchMyOrders (user_id : uuid) (st : Store)
  : Store * list list_event :=
  let '(st', result) := exec_list (SELECT_my_orders user_id) st in
  match result with
  | inl e => (st', [ListNext e])
  | inr rows =>
      (st', [ListJson 200 (MyOrdersFetched "All your orders are fetched." rows)])
  end.

Definition fetchAllOrders (st : Store) : Store * list list_event :=
  let '(st', result) := exec_list SELECT_all_orders st in
  match result with
  | inl e => (st', [ListNext e])
  | inr rows => (st', [ListJson 200 (AllOrdersFetched "All orders fetched." rows)])
  end.

End Listings.

(** Whatever the order, the database gives the rows selected, each as often
    as it is selected. *)
Definition rearranges (row_order : Store -> list ListedOrder -> list ListedOrder)
  : Prop :=
  forall st rows, Permutation (row_order st rows) rows.

(** For the examples: a database that gives the rows of a listing last
    inserted first. *)
Definition newest_first (st : Store) (rows : list ListedOrder)
  : list ListedOrder :=
  rev rows.

Definition listed_orders (evs : list list_event) : list ListedOrder :=
  match evs with
  | [ListJson _ (MyOrdersFetched _ rows)] => rows
  | [ListJson _ (AllOrdersFetched _ rows)] => rows
  | _ => []
  end.

(** ** Keys and references *)

(** The primary keys hold: product and order identifiers are unique, and
    the identifiers of the orders come from the counter. *)
Definition keys_ok (st : Store) : Prop :=
  NoDup (map p_id (products st))
  /\ NoDup (map o_id (orders st))
  /\ forall o, In o (orders st) -> (o_id o < next_uuid st)%nat.

(** No row refers to an order that the counter has not handed out yet. *)
Definition references_ok (st : Store) : Prop :=
  (forall o, In o (orders st) -> (o_id o < next_uuid st)%nat)
  /\ (forall oi, In oi (order_items st) -> (oi_order_id oi < next_uuid st)%nat)
  /\ (forall s, In s (shipping_info st) -> (s_order_id s < next_uuid st)%nat)
  /\ (forall pay, In pay (payments st) -> (pay_order_id pay < next_uuid st)%nat).

(** ** What a placement leaves alone *)

(** [st'] has the rows of [st], in the same order, followed by new ones, and
    its products are those of [st] with identifier, price and name as they
    were. *)
Definition extends (st st' : Store) : Prop :=
  (exists new, orders st' = orders st ++ new)
  /\ (exists new, order_items st' = order_items st ++ new)
  /\ (exists new, shipping_info st' = shipping_info st ++ new)
  /\ (exists new, payments st' = payments st ++ new)
  /\ map p_id (products st') = map p_id (products st)
  /\ map p_price (products st') = map p_price (products st)
  /\ map p_name (products st') = map p_name (products st).

(** The statements that insert rows or update the stock, and the selects. *)
Definition appends_only {R : Type} (q : query R) : bool :=
  match q with
  | UPDATE_orders_status _ _ | DELETE_orders _ => false
  | _ => true
  end.

(** Every statement the program can send is one of those. *)
Fixpoint placing {A : Type} (p : prog A) : Prop :=
  match p with
  | Ret _ | Throw _ => True
  | CallNext _ k | ResJson _ _ k => placing k
  | Await q k => appends_only q = true /\ forall r, placing (k r)
  end.

(** ** The rows of a placed order *)

(** The sum over item rows of price times quantity. *)
Definition items_total (rows : list OrderItem) : Q :=
  fold_right (fun oi s => (oi_price oi * inject_Z (oi_quantity oi) + s)%Q) 0%Q
    rows.

(** The same sum as the handler takes it: in doubles, row after row. *)
Definition items_total_of_doubles (rows : list OrderItem) : float :=
  fold_left
    (fun t oi =>
       (t + Number_of_Q (oi_price oi) * Number_of_Z (oi_quantity oi))%float)
    rows 0%float.

(** The total of the lines that pass, as the loop accumulates it on any
    cart. *)
Definition passing_total (ps : list Product) (items : list CartLine) : float :=
  acc_total_price (cart_loop ps items 0 (mkCartAcc 0%float [] [])).

(** ** A placement on any cart *)

(** The order row that step 5 inserts, whatever the lines of the cart. *)
Definition inserted_order (req : PlaceOrderRequest) (items : list CartLine)
  (st : Store) : Order :=
  let t := passing_total (products st) items in
  mkOrder (next_uuid st) (user_id req) (total_for t) tax_rate (shipping_for t)
    "Processing" (Some (db_now st)).

(** The store when the handler stops after step 5. *)
Definition store_with_order (req : PlaceOrderRequest) (items : list CartLine)
  (st : Store) : Store :=
  mkStore (products st) (orders st ++ [inserted_order req items st])
    (order_items st) (shipping_info st) (payments st) (S (next_uuid st))
    (db_now st).

(** The store when the handler goes through all its steps, [rows] being the
    item rows of step 6. *)
Definition store_with_all (req : PlaceOrderRequest) (items : list CartLine)
  (rows : list OrderItem) (st : Store) : Store :=
  let shipping_id := (S (next_uuid st) + List.length rows)%nat in
  mkStore
    (decrement_all items (products st))
    (orders st ++ [inserted_order req items st])
    (order_items st ++ rows)
    (shipping_info st
       ++ [mkShippingInfo shipping_id (next_uuid st) (text (full_name req))
             (text (state req)) (text (city req)) (text (country req))
             (text (address req)) (text (pincode req)) (text (phone req))])
    (payments st ++ [mkPayment (S shipping_id) (next_uuid st) "Online" "Paid" None])
    (S (S shipping_id))
    (db_now st).

(** The parameters and placeholders at the end of the loop. *)
Definition loop_values (ps : list Product) (items : list CartLine)
  : list sqlval :=
  acc_values (cart_loop ps items 0 (mkCartAcc 0%float [] [])).

Definition loop_placeholders (ps : list Product) (items : list CartLine)
  : list nat :=
  acc_placeholders (cart_loop ps items 0 (mkCartAcc 0%float [] [])).

(** ** The cart as an array or as a text *)

(** The request with another cart. *)
Definition with_items (req : PlaceOrderRequest) (o : ordered_items)
  : PlaceOrderRequest :=
  mkPlaceOrderRequest (full_name req) (state req) (city req) (country req)
    (address req) (pincode req) (phone req) o (user_id req).

(** A parser that knows the text of one cart, two units of P1. *)
Definition JSON_parse_one_cart (s : string) : error + parsed :=
  if String.eqb s "[{product:{id:1},quantity:2}]"
  then inr (ParsedArray [cart_line 1 2])
  else inl (SyntaxError "Unexpected token in JSON").

(** * Properties *)

(** ** The interpreter *)

Lemma run_bind {A B : Type} (p : prog A) (f : A -> prog B) st log :
  run (bind p f) st log =
  match run p st log with
  | (st', log', inr a) => run (f a) st' log'
  | (st', log', inl e) => (st', log', inl e)
  end.
Proof.
  revert st log.
  induction p as [a | e | e k IH | c b k IH | R q k IH]; intros st log; simpl;
    try reflexivity; try apply IH.
  destruct (exec q st) as [st' r]. apply IH.
Qed.

Lemma run_catchAsyncErrors (p : prog unit) st log :
  run (catchAsyncErrors p) st log =
  match run p st log with
  | (st', log', inr a) => (st', log', inr a)
  | (st', log', inl e) => (st', log' ++ [Next e], inr tt)
  end.
Proof.
  revert st log.
  induction p as [a | e | e k IH | c b k IH | R q k IH]; intros st log; simpl;
    try reflexivity; try apply IH.
  destruct (exec q st) as [st' r]. apply IH.
Qed.

Lemma run_await {R : Type} (q : query R) st log :
  run (await q) st log = (fst (exec q st), log, snd (exec q st)).
Proof.
  unfold await. simpl. destruct (exec q st) as [st' [e | rows]]; reflexivity.
Qed.

(** One [await] of a handler that runs alone: the statement is executed. *)
Ltac step_await := rewrite run_bind, run_await; cbn [exec fst snd].

(** The log only grows: what was passed to [next] or [res.json] stays. *)
Lemma run_log_extends {A : Type} (p : prog A) st log :
  exists tail, snd (fst (run p st log)) = log ++ tail.
Proof.
  revert st log.
  induction p as [a | e | e k IH | c b k IH | R q k IH]; intros st log; simpl.
  - exists []. now rewrite app_nil_r.
  - exists []. now rewrite app_nil_r.
  - destruct (IH st (log ++ [Next e])) as [tail H]. rewrite H.
    exists (Next e :: tail). now rewrite <- app_assoc.
  - destruct (IH st (log ++ [Json c b])) as [tail H]. rewrite H.
    exists (Json c b :: tail). now rewrite <- app_assoc.
  - destruct (exec q st) as [st' r]. apply IH.
Qed.

(** ** Orders by identifier *)

Lemma has_id_true orderId o : has_id orderId o = true <-> o_id o = orderId.
Proof. unfold has_id. apply Nat.eqb_eq. Qed.

Lemma filter_has_id_nil (st : Store) (orderId : uuid) :
  ~ order_exists st orderId ->
  filter (fun o => Nat.eqb (o_id o) orderId) (orders st) = [].
Proof.
  intros H. unfold order_exists in H.
  induction (orders st) as [| o os IH]; simpl; [reflexivity |].
  destruct (Nat.eqb (o_id o) orderId) eqn:E.
  - exfalso. apply H. exists o. split; [now left | now apply Nat.eqb_eq].
  - apply IH. intros [o' [Hin Hid]]. apply H. exists o'. split; [now right | exact Hid].
Qed.

Lemma filter_has_id_cons (st : Store) (orderId : uuid) :
  order_exists st orderId ->
  exists o rest,
    filter (fun o => Nat.eqb (o_id o) orderId) (orders st) = o :: rest
    /\ In o (orders st) /\ o_id o = orderId.
Proof.
  intros [o [Hin Hid]].
  assert (Hf : In o (filter (fun o => Nat.eqb (o_id o) orderId) (orders st))).
  { apply filter_In. split; [exact Hin | now apply Nat.eqb_eq]. }
  destruct (filter (fun o => Nat.eqb (o_id o) orderId) (orders st))
    as [| o1 rest] eqn:E; [destruct Hf |].
  exists o1, rest. split; [reflexivity |].
  assert (H1 : In o1 (filter (fun o => Nat.eqb (o_id o) orderId) (orders st))).
  { rewrite E. now left. }
  apply filter_In in H1. destruct H1 as [H1 H2].
  split; [exact H1 | now apply Nat.eqb_eq].
Qed.

Lemma status_update_frame status orderId (os : list Order) :
  Forall2
    (fun old new =>
       if Nat.eqb (o_id old) orderId then status_set status old new
       else new = old)
    os
    (map (fun o => if Nat.eqb (o_id o) orderId
                   then set_order_status status o else o) os).
Proof.
  induction os as [| o os IH]; simpl; constructor; [| exact IH].
  destruct (Nat.eqb (o_id o) orderId); [| reflexivity].
  unfold status_set. simpl. repeat split.
Qed.

(** ** UPDATE ORDER STATUS *)

(** C7. [updateOrderStatus] passes the 400 error to [next] when the status is
    missing or empty and the 404 error when no order has the identifier, both
    without touching the store; otherwise it answers 200 with an order of the
    store that has the identifier and the new status, every order with the
    identifier differs from its old row in the status column only, every
    other order is the same row, and products, order items, shipping records
    and payments are unchanged. *)
Theorem updateOrderStatus_sets_only_status
  (status : option string) (orderId : uuid) (st : Store) :
  (falsy status = true ->
   handle (updateOrderStatus status orderId) st
   = (st, [Next (ErrorHandler "Provide a valid status for order." 400)]))
  /\ (falsy status = false -> ~ order_exists st orderId ->
      handle (updateOrderStatus status orderId) st
      = (st, [Next (ErrorHandler "Invalid order ID." 404)]))
  /\ (falsy status = false -> order_exists st orderId ->
      exists st' updated,
        handle (updateOrderStatus status orderId) st
        = (st', [Json 200 (OrderStatusUpdated "Order status updated."
                             (Some updated))])
        /\ In updated (orders st') /\ o_id updated = orderId
        /\ o_order_status updated = text status
        /\ Forall2
             (fun old new =>
                if Nat.eqb (o_id old) orderId
                then status_set (text status) old new
                else new = old)
             (orders st) (orders st')
        /\ products st' = products st
        /\ order_items st' = order_items st
        /\ shipping_info st' = shipping_info st
        /\ payments st' = payments st).
Proof.
  unfold handle, updateOrderStatus.
  rewrite run_catchAsyncErrors.
  split; [| split].
  - intros Hs. rewrite Hs. reflexivity.
  - intros Hs Hno. rewrite Hs, run_bind, run_await. simpl.
    rewrite (filter_has_id_nil st orderId Hno). reflexivity.
  - intros Hs Hex. rewrite Hs, run_bind, run_await. simpl.
    destruct (filter_has_id_cons st orderId Hex) as [o [rest [E [Hin Hid]]]].
    rewrite E. simpl. rewrite E. simpl.
    eexists. exists (set_order_status (text status) o).
    split; [reflexivity |]. simpl.
    split.
    { apply in_map_iff. exists o. split; [| exact Hin].
      apply Nat.eqb_eq in Hid. now rewrite Hid. }
    split; [exact Hid |].
    split; [reflexivity |].
    split; [apply status_update_frame |].
    repeat split.
Qed.

Lemma updateOrderStatus_sets_only_status_witness :
  handle (updateOrderStatus (Some "") 100) shop_after_order
  = (shop_after_order,
     [Next (ErrorHandler "Provide a valid status for order." 400)])
  /\ handle (updateOrderStatus (Some "Shipped") 55) shop_after_order
     = (shop_after_order, [Next (ErrorHandler "Invalid order ID." 404)])
  /\ exists st' updated,
       handle (updateOrderStatus (Some "Shipped") 100) shop_after_order
       = (st', [Json 200 (OrderStatusUpdated "Order status updated."
                            (Some updated))])
       /\ In updated (orders st') /\ o_id updated = 100%nat
       /\ o_order_status updated = "Shipped"
       /\ Forall2
            (fun old new =>
               if Nat.eqb (o_id old) 100
               then status_set "Shipped" old new
               else new = old)
            (orders shop_after_order) (orders st')
       /\ products st' = products shop_after_order
       /\ order_items st' = order_items shop_after_order
       /\ shipping_info st' = shipping_info shop_after_order
       /\ payments st' = payments shop_after_order.
Proof.
  split; [| split].
  - apply (proj1 (updateOrderStatus_sets_only_status
                    (Some "") 100 shop_after_order)).
    reflexivity.
  - apply (proj1 (proj2 (updateOrderStatus_sets_only_status
                           (Some "Shipped") 55 shop_after_order))).
    + reflexivity.
    + intros [o [[Ho | []] Hid]]. subst o. discriminate Hid.
  - apply (proj2 (proj2 (updateOrderStatus_sets_only_status
                           (Some "Shipped") 100 shop_after_order))).
    + reflexivity.
    + exists order100. split; [now left | reflexivity].
Defined.

(** ** FETCH SINGLE ORDER *)

(** C5. For an identifier that no order has, [fetchSingleOrder] answers 200
    with [orders] undefined and passes nothing to [next]; the store is
    unchanged. *)
Theorem fetchSingleOrder_missing_order_answers_200 (orderId : uuid) (st : Store) :
  ~ order_exists st orderId ->
  handle (fetchSingleOrder orderId) st
  = (st, [Json 200 (OrderFetched "Order fetched." None)]).
Proof.
  intros Hno. unfold handle, fetchSingleOrder.
  rewrite run_catchAsyncErrors, run_bind, run_await. simpl.
  rewrite (filter_has_id_nil st orderId Hno). reflexivity.
Qed.

(** For an identifier that an order has, the answer carries that order, the
    list of all its items (empty when it has none) and a shipping object. *)
Lemma fetchSingleOrder_joins (orderId : uuid) (st : Store) :
  order_exists st orderId ->
  exists joined,
    handle (fetchSingleOrder orderId) st
    = (st, [Json 200 (OrderFetched "Order fetched." (Some joined))])
    /\ In (j_order joined) (orders st)
    /\ o_id (j_order joined) = orderId
    /\ j_order_items joined
       = map item_json
           (filter (fun oi => Nat.eqb (oi_order_id oi) orderId) (order_items st)).
Proof.
  intros Hex. unfold handle, fetchSingleOrder.
  rewrite run_catchAsyncErrors, run_bind, run_await. simpl.
  destruct (filter_has_id_cons st orderId Hex) as [o [rest [E [Hin Hid]]]].
  rewrite E. simpl. unfold joined_rows at 1. rewrite Hid.
  destruct (filter (fun s => Nat.eqb (s_order_id s) orderId) (shipping_info st))
    as [| s ss]; simpl; eexists; (split; [reflexivity |]); simpl;
    repeat split; assumption.
Qed.

Lemma fetchSingleOrder_missing_order_answers_200_witness :
  ~ order_exists shop_after_order 55
  /\ handle (fetchSingleOrder 55) shop_after_order
     = (shop_after_order, [Json 200 (OrderFetched "Order fetched." None)]).
Proof.
  assert (H : ~ order_exists shop_after_order 55).
  { intros [o [[Ho | []] Hid]]. subst o. discriminate Hid. }
  split; [exact H |].
  exact (fetchSingleOrder_missing_order_answers_200 55 shop_after_order H).
Defined.

(** ** DELETE ORDER *)

Lemma filter_not_id_all (st : Store) (orderId : uuid) :
  ~ order_exists st orderId ->
  filter (fun o => negb (Nat.eqb (o_id o) orderId)) (orders st) = orders st.
Proof.
  unfold order_exists. intros H.
  induction (orders st) as [| o os IH]; simpl; [reflexivity |].
  destruct (Nat.eqb (o_id o) orderId) eqn:E; simpl.
  - exfalso. apply H. exists o. split; [now left | now apply Nat.eqb_eq].
  - f_equal. apply IH. intros [o' [Hin Hid]]. apply H. exists o'.
    split; [now right | exact Hid].
Qed.

Lemma set_orders_same (st : Store) : set_orders st (orders st) = st.
Proof. destruct st; reflexivity. Qed.

(** C6 as stated fails: after [deleteOrder] of a placed order its item,
    shipping and payment rows are still in the store, and [fetchSingleOrder]
    on the deleted identifier answers 200 rather than an error. *)
Lemma deleteOrder_leaves_dependent_rows :
  let st' := fst (handle (deleteOrder 100) shop_after_order) in
  orders st' = []
  /\ order_items st' = [mkOrderItem 101 100 1 2 (30 # 1) "" "P1"]
  /\ shipping_info st'
     = [mkShippingInfo 102 100 "Ann" "Chuy" "Bishkek" "KG" "Main st. 1"
          "720000" "0555"]
  /\ payments st' = [mkPayment 103 100 "Online" "Paid" None]
  /\ handle (fetchSingleOrder 100) st'
     = (st', [Json 200 (OrderFetched "Order fetched." None)]).
Proof. vm_compute. repeat split. Qed.

(** C6, amended. [deleteOrder] passes the 404 error to [next] and leaves the
    store unchanged when no order has the identifier; otherwise it answers
    200 with a row of the store that has the identifier, afterwards no order
    of the store has the identifier, the orders with another identifier are
    the same rows in the same order, and the products, order items, shipping
    records and payments are untouched. *)
Theorem deleteOrder_removes_only_order_row (orderId : uuid) (st : Store) :
  (~ order_exists st orderId ->
   handle (deleteOrder orderId) st
   = (st, [Next (ErrorHandler "Invalid order ID." 404)]))
  /\ (order_exists st orderId ->
      exists st' deleted,
        handle (deleteOrder orderId) st
        = (st', [Json 200 (OrderDeleted "Order deleted." (Some deleted))])
        /\ In deleted (orders st) /\ o_id deleted = orderId
        /\ ~ order_exists st' orderId
        /\ orders st'
           = filter (fun o => negb (Nat.eqb (o_id o) orderId)) (orders st)
        /\ products st' = products st
        /\ order_items st' = order_items st
        /\ shipping_info st' = shipping_info st
        /\ payments st' = payments st).
Proof.
  unfold handle, deleteOrder.
  rewrite run_catchAsyncErrors, run_bind, run_await. simpl.
  split.
  - intros Hno. rewrite (filter_has_id_nil st orderId Hno). simpl.
    now rewrite (filter_not_id_all st orderId Hno), set_orders_same.
  - intros Hex.
    destruct (filter_has_id_cons st orderId Hex) as [o [rest [E [Hin Hid]]]].
    rewrite E. simpl.
    eexists. exists o. split; [reflexivity |]. simpl.
    split; [exact Hin |]. split; [exact Hid |].
    split; [| repeat split].
    intros [o' [Hin' Hid']]. simpl in Hin'.
    apply filter_In in Hin'. destruct Hin' as [_ Hneg].
    apply Nat.eqb_eq in Hid'. rewrite Hid' in Hneg. discriminate Hneg.
Qed.

Lemma deleteOrder_removes_only_order_row_witness :
  handle (deleteOrder 55) shop_after_order
  = (shop_after_order, [Next (ErrorHandler "Invalid order ID." 404)])
  /\ exists st' deleted,
       handle (deleteOrder 100) shop_after_order
       = (st', [Json 200 (OrderDeleted "Order deleted." (Some deleted))])
       /\ In deleted (orders shop_after_order) /\ o_id deleted = 100%nat
       /\ ~ order_exists st' 100
       /\ orders st'
          = filter (fun o => negb (Nat.eqb (o_id o) 100))
              (orders shop_after_order)
       /\ products st' = products shop_after_order
       /\ order_items st' = order_items shop_after_order
       /\ shipping_info st' = shipping_info shop_after_order
       /\ payments st' = payments shop_after_order.
Proof.
  split.
  - apply (proj1 (deleteOrder_removes_only_order_row 55 shop_after_order)).
    intros [o [[Ho | []] Hid]]. subst o. discriminate Hid.
  - apply (proj2 (deleteOrder_removes_only_order_row 100 shop_after_order)).
    exists order100. split; [now left | reflexivity].
Defined.

(** ** PLACE NEW ORDER: the cart loop *)

(** The rows selected by [id = ANY(productIds)] answer [find] like the whole
    table does, for every identifier of the cart. *)
Lemma find_product_selected (ps : list Product) (ids : list uuid) (id : uuid) :
  In id ids ->
  find_product (filter (fun p => existsb (Nat.eqb (p_id p)) ids) ps) id
  = find_product ps id.
Proof.
  intros Hin. unfold find_product.
  induction ps as [| p ps IH]; simpl; [reflexivity |].
  destruct (Nat.eqb (p_id p) id) eqn:E.
  - assert (Hex : existsb (Nat.eqb (p_id p)) ids = true).
    { apply existsb_exists. exists id. split; [exact Hin | exact E]. }
    rewrite Hex. simpl. now rewrite E.
  - destruct (existsb (Nat.eqb (p_id p)) ids); simpl; [rewrite E |]; exact IH.
Qed.

(** The loop sends nothing to the database and never throws: it passes the
    errors of the offending lines to [next], in cart order, and goes on. *)
Lemma run_forEach (ps : list Product) (items : list CartLine) :
  forall index acc st log,
    run (forEach (forEach_callback ps) items index acc) st log
    = (st, log ++ map Next (cart_errors ps items),
       inr (cart_loop ps items index acc)).
Proof.
  induction items as [| item rest IH]; intros index acc st log; simpl.
  - now rewrite app_nil_r.
  - rewrite run_bind. unfold forEach_callback, line_error, find_product.
    destruct (find (fun p => Nat.eqb (p_id p) (cp_id (product item))) ps)
      as [p |]; simpl.
    + destruct (quantity item >? p_stock p); simpl.
      * rewrite IH. now rewrite <- app_assoc.
      * rewrite IH. reflexivity.
    + rewrite IH. now rewrite <- app_assoc.
Qed.

Lemma line_error_selected (ps : list Product) (ids : list uuid) item :
  In (cp_id (product item)) ids ->
  line_error (filter (fun p => existsb (Nat.eqb (p_id p)) ids) ps) item
  = line_error ps item.
Proof.
  intros Hin. unfold line_error. now rewrite find_product_selected.
Qed.

Lemma cart_errors_selected (ps : list Product) (ids : list uuid) items :
  incl (map (fun item => cp_id (product item)) items) ids ->
  cart_errors (filter (fun p => existsb (Nat.eqb (p_id p)) ids) ps) items
  = cart_errors ps items.
Proof.
  induction items as [| item rest IH]; intros Hincl; simpl; [reflexivity |].
  rewrite line_error_selected by (apply Hincl; now left).
  rewrite IH by (intros x Hx; apply Hincl; now right).
  reflexivity.
Qed.

Lemma cart_loop_selected (ps : list Product) (ids : list uuid) items :
  incl (map (fun item => cp_id (product item)) items) ids ->
  forall index acc,
    cart_loop (filter (fun p => existsb (Nat.eqb (p_id p)) ids) ps) items
      index acc
    = cart_loop ps items index acc.
Proof.
  induction items as [| item rest IH]; intros Hincl index acc; simpl;
    [reflexivity |].
  rewrite find_product_selected by (apply Hincl; now left).
  apply IH. intros x Hx. apply Hincl. now right.
Qed.

(** *** Carts whose lines all pass *)

Lemma cart_errors_ok (ps : list Product) items :
  forallb (line_ok ps) items = true -> cart_errors ps items = [].
Proof.
  induction items as [| item rest IH]; simpl; [reflexivity |].
  intros H. apply andb_prop in H. destruct H as [Hok Hrest].
  unfold line_ok in Hok. unfold line_error.
  destruct (find_product ps (cp_id (product item))) as [p |];
    [| discriminate Hok].
  destruct (quantity item >? p_stock p); [discriminate Hok |].
  now apply IH.
Qed.

Lemma cart_loop_ok (ps : list Product) items :
  forallb (line_ok ps) items = true ->
  forall index acc,
    cart_loop ps items index acc
    = mkCartAcc
        (fold_left (fun t item => (t + line_total ps item)%float) items
           (acc_total_price acc))
        (acc_values acc ++ flat_map (cart_values ps) items)
        (acc_placeholders acc
           ++ map (fun i => (i * 6)%nat) (seq index (List.length items))).
Proof.
  induction items as [| item rest IH]; intros H index acc; simpl.
  - rewrite !app_nil_r. now destruct acc.
  - apply andb_prop in H. destruct H as [Hok Hrest].
    rewrite (IH Hrest). unfold line_ok in Hok.
    unfold line_total, unit_price, cart_values.
    destruct (find_product ps (cp_id (product item))) as [p |];
      [| discriminate Hok].
    destruct (quantity item >? p_stock p); [discriminate Hok |].
    cbn [acc_total_price acc_values acc_placeholders].
    rewrite <- !app_assoc. reflexivity.
Qed.

(** *** The bulk insert of the order items *)

Lemma fill_order_id_line orderId p item rest :
  fill_order_id orderId 0 (line_values p item ++ rest)
  = (SqlUuid orderId :: tl (line_values p item))
      ++ fill_order_id orderId 0 rest.
Proof. reflexivity. Qed.

Lemma nth_error_after {A : Type} (pre l : list A) (k j : nat) :
  List.length pre = k -> nth_error (pre ++ l) (k + j) = nth_error l j.
Proof.
  intros <-. rewrite nth_error_app2 by lia. f_equal. lia.
Qed.

Lemma item_rows_placed (orderId : uuid) (ps : list Product) items :
  forallb (line_ok ps) items = true ->
  forall (pre : list sqlval) (k : nat) (id : uuid),
    List.length pre = (k * 6)%nat ->
    item_rows (pre ++ fill_order_id orderId 0 (flat_map (cart_values ps) items))
      (map (fun i => (i * 6)%nat) (seq k (List.length items))) id
    = Some (placed_items orderId ps items id).
Proof.
  induction items as [| item rest IH]; intros H pre k id Hlen; simpl;
    [reflexivity |].
  apply andb_prop in H. destruct H as [Hok Hrest].
  unfold line_ok in Hok.
  assert (Hcv : forall p, find_product ps (cp_id (product item)) = Some p ->
                cart_values ps item = line_values p item).
  { intros p Hp. unfold cart_values. now rewrite Hp. }
  destruct (find_product ps (cp_id (product item))) as [p |];
    [| discriminate Hok].
  rewrite (Hcv p eq_refl), fill_order_id_line.
  assert (Hrow :
    item_row
      (pre ++ (SqlUuid orderId :: tl (line_values p item))
           ++ fill_order_id orderId 0 (flat_map (cart_values ps) rest))
      (k * 6) id
    = Some (mkOrderItem id orderId (p_id p) (quantity item) (p_price p)
              (match hd_error (cp_images (product item)) with
               | Some url => url
               | None => ""
               end)
              (p_name p))).
  { unfold item_row.
    replace (k * 6)%nat with (k * 6 + 0)%nat at 1 by lia.
    rewrite !(nth_error_after pre _ (k * 6)) by exact Hlen.
    reflexivity. }
  rewrite Hrow.
  rewrite app_assoc.
  rewrite (IH Hrest (pre ++ SqlUuid orderId :: tl (line_values p item)) (S k)
             (S id)).
  - reflexivity.
  - rewrite length_app. simpl. lia.
Qed.

(** *** The stock updates *)

Lemma set_products_same (st : Store) : set_products st (products st) = st.
Proof. destruct st; reflexivity. Qed.

Lemma run_reduce_stock (items : list CartLine) :
  forall st log,
    run (reduce_stock items) st log
    = (set_products st (decrement_all items (products st)), log, inr tt).
Proof.
  induction items as [| item rest IH]; intros st log; simpl.
  - now rewrite set_products_same.
  - rewrite IH. reflexivity.
Qed.

(** *** A placement whose lines all pass *)

Lemma run_place_items_ok (req : PlaceOrderRequest) (items : list CartLine)
  (st : Store) (log : list event) :
  items <> [] ->
  forallb (line_ok (products st)) items = true ->
  run (place_items req items) st log
  = (placed_store req items st,
     log ++ [Json 200 (OrderPlaced "Order placed successfully."
                         (placed_order req items st)
                         (total_for (loop_subtotal (products st) items)))],
     inr tt).
Proof.
  intros Hne Hok. unfold place_items.
  step_await.
  rewrite run_bind, run_forEach.
  rewrite cart_errors_selected, cart_loop_selected by apply incl_refl.
  rewrite (cart_errors_ok _ _ Hok), (cart_loop_ok _ _ Hok).
  cbn [map acc_total_price acc_values acc_placeholders app].
  rewrite app_nil_r.
  step_await. cbn [o_id]. step_await.
  destruct items as [| item rest]; [now elim Hne |].
  pose proof (item_rows_placed (next_uuid st) (products st) (item :: rest) Hok
                [] 0 (S (next_uuid st)) eq_refl) as Hrows.
  cbn [app] in Hrows.
  cbn [products orders order_items shipping_info payments next_uuid db_now].
  rewrite Hrows.
  cbn [fst snd].
  step_await. step_await.
  rewrite run_bind, run_reduce_stock.
  reflexivity.
Qed.

(** ** PLACE NEW ORDER: validation *)

Lemma run_parse_items JSON_parse (o : ordered_items) st log :
  run (parse_items JSON_parse o) st log = (st, log, normalized_cart JSON_parse o).
Proof.
  destruct o as [items | s |]; simpl; try reflexivity.
  destruct (String.eqb s ""); [reflexivity |].
  destruct (JSON_parse s); reflexivity.
Qed.

Lemma shipping_complete_false JSON_parse req st :
  shipping_complete req = false ->
  handle (placeNewOrder JSON_parse req) st
  = (st, [Next (ErrorHandler "Please provide complete shipping details." 400)]).
Proof.
  unfold shipping_complete, handle, placeNewOrder. intros H.
  apply negb_false_iff in H. rewrite H. reflexivity.
Qed.

(** Past validation with a non-empty array, the handler is steps 3 to 9. *)
Lemma handle_placeNewOrder_items JSON_parse req items st :
  shipping_complete req = true ->
  normalized_cart JSON_parse (orderedItems req) = inr (ParsedArray items) ->
  items <> [] ->
  handle (placeNewOrder JSON_parse req) st
  = match run (place_items req items) st [] with
    | (st', log', inr _) => (st', log')
    | (st', log', inl e) => (st', log' ++ [Next e])
    end.
Proof.
  unfold shipping_complete, handle, placeNewOrder. intros Hs Hc Hne.
  apply negb_true_iff in Hs. rewrite Hs.
  rewrite run_catchAsyncErrors, run_bind, run_parse_items, Hc.
  destruct items as [| item rest]; [now elim Hne |].
  destruct (run (place_items req (item :: rest)) st []) as [[st' log'] [e | []]];
    reflexivity.
Qed.

Lemma handle_placeNewOrder_ok JSON_parse req items st :
  shipping_complete req = true ->
  normalized_cart JSON_parse (orderedItems req) = inr (ParsedArray items) ->
  items <> [] ->
  forallb (line_ok (products st)) items = true ->
  handle (placeNewOrder JSON_parse req) st
  = (placed_store req items st,
     [Json 200 (OrderPlaced "Order placed successfully."
                  (placed_order req items st)
                  (total_for (loop_subtotal (products st) items)))]).
Proof.
  intros Hs Hc Hne Hok.
  rewrite (handle_placeNewOrder_items JSON_parse req items st Hs Hc Hne).
  now rewrite (run_place_items_ok req items st [] Hne Hok).
Qed.

Lemma valid_lines_ok (ps : list Product) (items : list CartLine) :
  (forall item, In item items -> valid_line ps item) ->
  forallb (line_ok ps) items = true.
Proof.
  intros H. apply forallb_forall. intros item Hin.
  destruct (H item Hin) as [p [Hp Hq]]. unfold line_ok. rewrite Hp.
  apply negb_true_iff. rewrite Z.gtb_ltb. apply Z.ltb_ge. exact Hq.
Qed.

(** ** PLACE NEW ORDER: the total *)

Lemma Math_round_half_up (x : Q) : round_half_up x (Math_round x).
Proof.
  unfold round_half_up, Math_round.
  pose proof (Qfloor_le (x + (1 # 2))) as Hle.
  pose proof (Qlt_floor (x + (1 # 2))) as Hlt.
  rewrite inject_Z_plus in Hlt.
  split.
  - apply Qplus_le_l with (z := 1 # 2).
    setoid_replace (inject_Z (Qfloor (x + (1 # 2))) - (1 # 2) + (1 # 2))%Q
      with (inject_Z (Qfloor (x + (1 # 2)))) by ring.
    exact Hle.
  - apply Qplus_lt_l with (z := 1 # 2).
    setoid_replace (inject_Z (Qfloor (x + (1 # 2))) + (1 # 2) + (1 # 2))%Q
      with (inject_Z (Qfloor (x + (1 # 2))) + inject_Z 1)%Q by ring.
    exact Hlt.
Qed.

(** There is one such integer. *)
Lemma round_half_up_unique (x : Q) (n m : Z) :
  round_half_up x n -> round_half_up x m -> n = m.
Proof.
  unfold round_half_up. intros [Hn1 Hn2] [Hm1 Hm2].
  assert (Hnm : (inject_Z n < inject_Z (m + 1))%Q).
  { rewrite inject_Z_plus.
    apply Qplus_lt_l with (z := (- (1 # 2))%Q).
    setoid_replace (inject_Z m + inject_Z 1 + - (1 # 2))%Q
      with (inject_Z m + (1 # 2))%Q by ring.
    eapply Qle_lt_trans; [exact Hn1 | exact Hm2]. }
  assert (Hmn : (inject_Z m < inject_Z (n + 1))%Q).
  { rewrite inject_Z_plus.
    apply Qplus_lt_l with (z := (- (1 # 2))%Q).
    setoid_replace (inject_Z n + inject_Z 1 + - (1 # 2))%Q
      with (inject_Z n + (1 # 2))%Q by ring.
    eapply Qle_lt_trans; [exact Hm1 | exact Hn2]. }
  rewrite <- Zlt_Qlt in Hnm, Hmn. lia.
Qed.

(** C3 as stated fails: three lines of one unit each, at 14.20, 17.90 and
    17.90, are a valid cart whose subtotal is 50, so that shipping is free by
    the formula and the total is 59; the doubles add up to
    49.99999999999999, and the handler stores a shipping price of 2 and a
    total price of 61. *)
Lemma total_price_differs_from_exact_formula :
  (forall item, In item cart_of_fifty ->
                valid_line (products shop_of_decimals) item)
  /\ handle (placeNewOrder JSON_parse_rejects
               (request_of_ann (ItemsArray cart_of_fifty))) shop_of_decimals
     = (mkStore
          [mkProduct 1 (1420 # 100) 4 "A"; mkProduct 2 (1790 # 100) 4 "B";
           mkProduct 3 (1790 # 100) 4 "C"]
          [mkOrder 100 9 61 (18 # 100) 2 "Processing" (Some 7%nat)]
          [mkOrderItem 101 100 1 1 (1420 # 100) "" "A";
           mkOrderItem 102 100 2 1 (1790 # 100) "" "B";
           mkOrderItem 103 100 3 1 (1790 # 100) "" "C"]
          [mkShippingInfo 104 100 "Ann" "Chuy" "Bishkek" "KG" "Main st. 1"
             "720000" "0555"]
          [mkPayment 105 100 "Online" "Paid" None]
          106 7,
        [Json 200
           (OrderPlaced "Order placed successfully."
              (mkOrder 100 9 61 (18 # 100) 2 "Processing" (Some 7%nat)) 61)])
  /\ (subtotal (products shop_of_decimals) cart_of_fifty == 50)%Q
  /\ Qle_bool 50 (subtotal (products shop_of_decimals) cart_of_fifty) = true
  /\ (forall n,
        round_half_up
          (subtotal (products shop_of_decimals) cart_of_fifty
           + subtotal (products shop_of_decimals) cart_of_fifty * (18 # 100)
           + inject_Z 0)%Q
          n
        <-> n = 59).
Proof.
  split; [| split; [| split; [| split]]].
  - intros item [<- | [<- | [<- | []]]]; eexists; (split; [reflexivity |]);
      simpl; lia.
  - vm_compute. reflexivity.
  - reflexivity.
  - reflexivity.
  - assert (H : round_half_up
                  (subtotal (products shop_of_decimals) cart_of_fifty
                   + subtotal (products shop_of_decimals) cart_of_fifty
                     * (18 # 100)
                   + inject_Z 0)%Q
                  59).
    { split; vm_compute; [discriminate | reflexivity]. }
    intros n. split.
    + intros Hn. exact (round_half_up_unique _ _ _ Hn H).
    + intros ->. exact H.
Qed.

(** C3, amended. When the request passes validation and every line of the
    cart is valid (its product is found, its quantity within the stock
    found), the handler answers 200 with the order it inserted.  The
    [shipping_price] of that order is 0 when [subtotal >= 50] and 2
    otherwise, and the [total_price] of the answer and of the order is
    [subtotal + subtotal * 0.18 + shipping] rounded half up, where every
    number is a double: [subtotal] is the sum, taken in cart order from 0, of
    the products of the double nearest to the unit price and the quantity,
    0.18 is the double nearest to it, and every sum and product is rounded to
    the nearest double.  Only the last rounding, to the integer, is that of
    the exact value of its argument.  The cart is one whose total stays
    within the range of the doubles. *)
Theorem total_price_is_rounded_sum_of_doubles
  (JSON_parse : string -> error + parsed) (req : PlaceOrderRequest)
  (items : list CartLine) (st : Store) :
  shipping_complete req = true ->
  normalized_cart JSON_parse (orderedItems req) = inr (ParsedArray items) ->
  items <> [] ->
  (forall item, In item items -> valid_line (products st) item) ->
  is_finite (charged (loop_subtotal (products st) items)) = true ->
  exists st' order total_price,
    handle (placeNewOrder JSON_parse req) st
    = (st', [Json 200 (OrderPlaced "Order placed successfully." order
                         total_price)])
    /\ In order (orders st')
    /\ o_total_price order = total_price
    /\ o_shipping_price order
       = (if (50 <=? loop_subtotal (products st) items)%float then 0 else 2)
    /\ total_price
       = Math_round
           (Q_of_Number
              (loop_subtotal (products st) items
               + loop_subtotal (products st) items * Number_of_Q (18 # 100)
               + Number_of_Z (o_shipping_price order))%float)
    /\ round_half_up
         (Q_of_Number
            (loop_subtotal (products st) items
             + loop_subtotal (products st) items * Number_of_Q (18 # 100)
             + Number_of_Z (o_shipping_price order))%float)
         total_price.
Proof.
  intros Hs Hc Hne Hvalid _.
  pose proof (valid_lines_ok _ _ Hvalid) as Hok.
  rewrite (handle_placeNewOrder_ok JSON_parse req items st Hs Hc Hne Hok).
  eexists. eexists. eexists. split; [reflexivity |].
  split; [| split; [| split; [| split]]].
  - simpl. apply in_or_app. right. now left.
  - reflexivity.
  - reflexivity.
  - reflexivity.
  - apply Math_round_half_up.
Qed.

(** The first example of the spec: two units of P1 (price 30, stock 5) make a
    subtotal of 60, free shipping and a total of 71. *)
Lemma total_price_is_rounded_sum_of_doubles_witness :
  handle (placeNewOrder JSON_parse_rejects
            (request_of_ann (ItemsArray [cart_line 1 2]))) shop
  = (shop_after_order,
     [Json 200 (OrderPlaced "Order placed successfully." order100 71)])
  /\ exists st' order total_price,
       handle (placeNewOrder JSON_parse_rejects
                 (request_of_ann (ItemsArray [cart_line 1 2]))) shop
       = (st', [Json 200 (OrderPlaced "Order placed successfully." order
                            total_price)])
       /\ In order (orders st')
       /\ o_total_price order = total_price
       /\ o_shipping_price order
          = (if (50 <=? loop_subtotal (products shop) [cart_line 1 2])%float
             then 0 else 2)
       /\ total_price
          = Math_round
              (Q_of_Number
                 (loop_subtotal (products shop) [cart_line 1 2]
                  + loop_subtotal (products shop) [cart_line 1 2]
                    * Number_of_Q (18 # 100)
                  + Number_of_Z (o_shipping_price order))%float)
       /\ round_half_up
            (Q_of_Number
               (loop_subtotal (products shop) [cart_line 1 2]
                + loop_subtotal (products shop) [cart_line 1 2]
                  * Number_of_Q (18 # 100)
                + Number_of_Z (o_shipping_price order))%float)
            total_price.
Proof.
  split; [vm_compute; reflexivity |].
  apply (total_price_is_rounded_sum_of_doubles JSON_parse_rejects
           (request_of_ann (ItemsArray [cart_line 1 2])) [cart_line 1 2] shop).
  - reflexivity.
  - reflexivity.
  - discriminate.
  - intros item [<- | []]. exists P1. split; [reflexivity | simpl; lia].
  - vm_compute. reflexivity.
Defined.

(** ** PLACE NEW ORDER: what the stock updates add up to *)

Lemma decrement_all_map (items : list CartLine) :
  forall ps,
    decrement_all items ps
    = map (fun p => set_stock (p_stock p - ordered_quantity items (p_id p)) p) ps.
Proof.
  induction items as [| item rest IH]; intros ps.
  - simpl. induction ps as [| p ps IHps]; simpl; [reflexivity |].
    rewrite <- IHps. f_equal. destruct p. unfold set_stock. simpl.
    now rewrite Z.sub_0_r.
  - change (decrement_all (item :: rest) ps)
      with (decrement_all rest (decrement item ps)).
    rewrite IH. unfold decrement. rewrite map_map.
    apply map_ext. intros p. simpl.
    destruct (Nat.eqb (p_id p) (cp_id (product item))); simpl.
    + unfold set_stock. simpl. f_equal. lia.
    + reflexivity.
Qed.

Lemma find_product_map_stock (f : Product -> Z) (ps : list Product) (id : uuid) :
  find_product (map (fun p => set_stock (f p) p) ps) id
  = option_map (fun p => set_stock (f p) p) (find_product ps id).
Proof.
  unfold find_product.
  induction ps as [| p ps IH]; simpl; [reflexivity |].
  destruct (Nat.eqb (p_id p) id); [reflexivity | exact IH].
Qed.

Lemma find_product_id (ps : list Product) (id : uuid) (p : Product) :
  find_product ps id = Some p -> p_id p = id /\ In p ps.
Proof.
  unfold find_product. intros H. apply find_some in H.
  destruct H as [Hin Hid]. split; [now apply Nat.eqb_eq | exact Hin].
Qed.

(** C10. A cart of two lines for the same product, each quantity within the
    stock of the product and their sum above it, passes both per-line tests:
    nothing is passed to [next], the handler answers 200, and the stock of the
    product is decreased by both quantities, which leaves it negative. *)
Theorem duplicate_lines_oversell
  (JSON_parse : string -> error + parsed) (req : PlaceOrderRequest)
  (st : Store) (item1 item2 : CartLine) (p : Product) :
  shipping_complete req = true ->
  normalized_cart JSON_parse (orderedItems req)
  = inr (ParsedArray [item1; item2]) ->
  cp_id (product item2) = cp_id (product item1) ->
  find_product (products st) (cp_id (product item1)) = Some p ->
  quantity item1 <= p_stock p ->
  quantity item2 <= p_stock p ->
  p_stock p < quantity item1 + quantity item2 ->
  exists st' order total_price p',
    handle (placeNewOrder JSON_parse req) st
    = (st', [Json 200 (OrderPlaced "Order placed successfully." order
                         total_price)])
    /\ find_product (products st') (cp_id (product item1)) = Some p'
    /\ p_stock p' = p_stock p - (quantity item1 + quantity item2)
    /\ p_stock p' < 0.
Proof.
  intros Hs Hc Hsame Hp Hq1 Hq2 Hsum.
  assert (Hok : forallb (line_ok (products st)) [item1; item2] = true).
  { apply valid_lines_ok. intros item [<- | [<- | []]]; exists p.
    - split; [exact Hp | exact Hq1].
    - rewrite Hsame. split; [exact Hp | exact Hq2]. }
  rewrite (handle_placeNewOrder_ok JSON_parse req [item1; item2] st Hs Hc
             ltac:(discriminate) Hok).
  destruct (find_product_id _ _ _ Hp) as [Hid _].
  eexists. eexists. eexists.
  exists (set_stock (p_stock p - (quantity item1 + quantity item2)) p).
  split; [reflexivity |].
  split.
  - cbn [products placed_store]. rewrite decrement_all_map.
    rewrite find_product_map_stock, Hp. simpl.
    rewrite Hid, Hsame, Nat.eqb_refl. do 2 f_equal. lia.
  - simpl. split; [reflexivity | lia].
Qed.

(** Two lines of two units of P2, which has three in stock. *)
Lemma duplicate_lines_oversell_witness :
  exists st' order total_price p',
    handle (placeNewOrder JSON_parse_rejects
              (request_of_ann (ItemsArray [cart_line 2 2; cart_line 2 2]))) shop
    = (st', [Json 200 (OrderPlaced "Order placed successfully." order
                         total_price)])
    /\ find_product (products st') 2 = Some p'
    /\ p_stock p' = 3 - (2 + 2)
    /\ p_stock p' < 0.
Proof.
  apply (duplicate_lines_oversell JSON_parse_rejects
           (request_of_ann (ItemsArray [cart_line 2 2; cart_line 2 2])) shop
           (cart_line 2 2) (cart_line 2 2) P2).
  - reflexivity.
  - reflexivity.
  - reflexivity.
  - reflexivity.
  - simpl. lia.
  - simpl. lia.
  - simpl. lia.
Defined.

(** ** Stock never negative? *)








(** ** PLACE NEW ORDER: failures *)

Lemma no_items_rejected JSON_parse req v st :
  shipping_complete req = true ->
  normalized_cart JSON_parse (orderedItems req) = inr v ->
  no_items v = true ->
  handle (placeNewOrder JSON_parse req) st
  = (st, [Next (ErrorHandler "No items in cart." 400)]).
Proof.
  unfold shipping_complete, handle, placeNewOrder. intros Hs Hc Hv.
  apply negb_true_iff in Hs. rewrite Hs.
  rewrite run_catchAsyncErrors, run_bind, run_parse_items, Hc.
  destruct v as [[| item rest] | | []]; try discriminate Hv; reflexivity.
Qed.

Lemma parse_exception_passed JSON_parse req e st :
  shipping_complete req = true ->
  normalized_cart JSON_parse (orderedItems req) = inl e ->
  handle (placeNewOrder JSON_parse req) st = (st, [Next e]).
Proof.
  unfold shipping_complete, handle, placeNewOrder. intros Hs Hc.
  apply negb_true_iff in Hs. rewrite Hs.
  now rewrite run_catchAsyncErrors, run_bind, run_parse_items, Hc.
Qed.

Lemma non_array_throws JSON_parse req st :
  shipping_complete req = true ->
  normalized_cart JSON_parse (orderedItems req) = inr (ParsedNonArray false) ->
  handle (placeNewOrder JSON_parse req) st
  = (st, [Next (TypeError "items.map is not a function")]).
Proof.
  unfold shipping_complete, handle, placeNewOrder. intros Hs Hc.
  apply negb_true_iff in Hs. rewrite Hs.
  now rewrite run_catchAsyncErrors, run_bind, run_parse_items, Hc.
Qed.

Lemma cart_errors_first (ps : list Product) pre item post e :
  (forall l, In l pre -> valid_line ps l) ->
  line_error ps item = Some e ->
  cart_errors ps (pre ++ item :: post) = e :: cart_errors ps post.
Proof.
  intros Hpre He.
  induction pre as [| l pre IH]; simpl.
  - now rewrite He.
  - destruct (Hpre l (or_introl eq_refl)) as [p [Hp Hq]].
    unfold line_error at 1. rewrite Hp.
    assert (Hgt : (quantity l >? p_stock p) = false).
    { rewrite Z.gtb_ltb. now apply Z.ltb_ge. }
    rewrite Hgt. apply IH. intros l' Hl'. apply Hpre. now right.
Qed.

(** *** The order in which the handler acts *)

Lemma trace_bind {A B : Type} (p : prog A) (f : A -> prog B) :
  forall st log,
    trace (bind p f) st
    = trace p st
        ++ match run p st log with
           | (st', _, inr a) => trace (f a) st'
           | (_, _, inl _) => []
           end.
Proof.
  induction p as [a | e | e k IH | c b k IH | R q k IH]; intros st log; simpl;
    try reflexivity.
  - f_equal. apply IH.
  - f_equal. apply IH.
  - f_equal. destruct (exec q st) as [st' r]. apply IH.
Qed.

Lemma trace_catchAsyncErrors (p : prog unit) :
  forall st log,
    trace (catchAsyncErrors p) st
    = trace p st
        ++ match snd (run p st log) with
           | inl e => [Calls (Next e)]
           | inr _ => []
           end.
Proof.
  induction p as [a | e | e k IH | c b k IH | R q k IH]; intros st log; simpl;
    try reflexivity.
  - f_equal. apply IH.
  - f_equal. apply IH.
  - f_equal. destruct (exec q st) as [st' r]. apply IH.
Qed.

Lemma trace_parse_items JSON_parse (o : ordered_items) st :
  trace (parse_items JSON_parse o) st = [].
Proof.
  destruct o as [items | s |]; simpl; try reflexivity.
  destruct (String.eqb s ""); [reflexivity |].
  destruct (JSON_parse s); reflexivity.
Qed.

(** The loop sends no statement: it only passes the errors of the offending
    lines to [next]. *)
Lemma trace_forEach (ps : list Product) (items : list CartLine) :
  forall index acc st,
    trace (forEach (forEach_callback ps) items index acc) st
    = map (fun e => Calls (Next e)) (cart_errors ps items).
Proof.
  induction items as [| item rest IH]; intros index acc st; simpl;
    [reflexivity |].
  rewrite (trace_bind _ _ st []).
  unfold forEach_callback, line_error, find_product.
  destruct (find (fun p => Nat.eqb (p_id p) (cp_id (product item))) ps)
    as [p |]; simpl.
  - destruct (quantity item >? p_stock p); simpl; now rewrite IH.
  - now rewrite IH.
Qed.

Lemma trace_placeNewOrder_items JSON_parse req items st :
  shipping_complete req = true ->
  normalized_cart JSON_parse (orderedItems req) = inr (ParsedArray items) ->
  items <> [] ->
  exists rest,
    trace (placeNewOrder JSON_parse req) st
    = Sends (SELECT_products (cart_ids items))
      :: map (fun e => Calls (Next e)) (cart_errors (products st) items)
      ++ rest.
Proof.
  unfold shipping_complete, placeNewOrder. intros Hs Hc Hne.
  apply negb_true_iff in Hs. rewrite Hs.
  rewrite (trace_catchAsyncErrors _ st []).
  rewrite (trace_bind _ _ st []), trace_parse_items, run_parse_items, Hc.
  destruct items as [| item rest]; [now elim Hne |].
  cbn [app]. unfold place_items at 1.
  cbn [bind await trace exec fst snd].
  rewrite (trace_bind _ _ st []), trace_forEach.
  rewrite cart_errors_selected by apply incl_refl.
  rewrite <- ?app_comm_cons, <- ?app_assoc. eexists. reflexivity.
Qed.

(** *** A statement that the database rejects *)

Lemma rejections_thrown_bind {A B : Type} (p : prog A) (f : A -> prog B) :
  rejections_thrown p -> (forall a, rejections_thrown (f a)) ->
  rejections_thrown (bind p f).
Proof.
  intros Hp Hf.
  induction p as [a | e | e k IH | c b k IH | R q k IH]; simpl in *;
    try exact I; try apply Hf; try (now apply IH).
  destruct Hp as [Hq Hk]. split.
  - intros e. now rewrite Hq.
  - intros r. now apply IH.
Qed.

Lemma rejections_thrown_await {R : Type} (q : query R) :
  rejections_thrown (await q).
Proof.
  unfold await. simpl. split; [reflexivity |]. intros [e | rows]; exact I.
Qed.

Lemma rejections_thrown_forEach (ps : list Product) (items : list CartLine) :
  forall index acc,
    rejections_thrown (forEach (forEach_callback ps) items index acc).
Proof.
  induction items as [| item rest IH]; intros index acc; simpl; [exact I |].
  apply rejections_thrown_bind; [| intros a; apply IH].
  unfold forEach_callback.
  destruct (find (fun p => Nat.eqb (p_id p) (cp_id (product item))) ps)
    as [p |]; simpl; [| exact I].
  destruct (quantity item >? p_stock p); exact I.
Qed.

Lemma rejections_thrown_reduce_stock (items : list CartLine) :
  rejections_thrown (reduce_stock items).
Proof.
  induction items as [| item rest IH]; simpl; [exact I |].
  split; [reflexivity |]. intros [e | []]; simpl; [exact I | exact IH].
Qed.

Lemma rejections_thrown_place_items (req : PlaceOrderRequest)
  (items : list CartLine) :
  rejections_thrown (place_items req items).
Proof.
  unfold place_items.
  apply rejections_thrown_bind; [apply rejections_thrown_await |].
  intros products.
  apply rejections_thrown_bind; [apply rejections_thrown_forEach |].
  intros acc.
  apply rejections_thrown_bind; [apply rejections_thrown_await |].
  intros [| order rest]; [exact I |].
  apply rejections_thrown_bind; [apply rejections_thrown_await |]. intros _.
  apply rejections_thrown_bind; [apply rejections_thrown_await |]. intros _.
  apply rejections_thrown_bind; [apply rejections_thrown_await |]. intros _.
  apply rejections_thrown_bind; [apply rejections_thrown_reduce_stock |].
  intros _. exact I.
Qed.

Lemma rejections_passed_on_catchAsyncErrors (p : prog unit) :
  rejections_thrown p -> rejections_passed_on (catchAsyncErrors p).
Proof.
  induction p as [a | e | e k IH | c b k IH | R q k IH]; simpl; intros H;
    try exact I; try (now apply IH).
  destruct H as [Hq Hk]. split.
  - intros e. now rewrite Hq.
  - intros r. now apply IH.
Qed.

Lemma rejections_passed_on_placeNewOrder JSON_parse (req : PlaceOrderRequest) :
  rejections_passed_on (placeNewOrder JSON_parse req).
Proof.
  unfold placeNewOrder. apply rejections_passed_on_catchAsyncErrors.
  destruct (falsy (full_name req) || falsy (state req) || falsy (city req)
            || falsy (country req) || falsy (address req)
            || falsy (pincode req) || falsy (phone req)); [exact I |].
  apply rejections_thrown_bind.
  - unfold parse_items. destruct (orderedItems req) as [items | s |];
      try exact I.
    destruct (String.eqb s ""); [exact I |].
    destruct (JSON_parse s); exact I.
  - intros [[| item rest] | | []]; try exact I.
    apply rejections_thrown_place_items.
Qed.

(** When the database rejects a statement of such a handler, the handler
    passes the error to [next] and ends: the store is the one in which the
    statement was sent. *)
Lemma run_rejecting_passed_on (p : prog unit) :
  rejections_passed_on p ->
  forall n e st log st_n passed,
    before_statement n p st log = Some (st_n, passed) ->
    run_rejecting n e p st log = (st_n, passed ++ [Next e], inr tt).
Proof.
  induction p as [a | e' | e' k IH | c b k IH | R q k IH]; simpl;
    intros H n e st log st_n passed Hbefore;
    try discriminate Hbefore; try (now apply IH).
  destruct H as [Hq Hk]. destruct n as [| n'].
  - injection Hbefore as <- <-. rewrite Hq. reflexivity.
  - destruct (exec q st) as [st' r]. now apply IH.
Qed.

(** C1 as stated fails: two units of P1 are a valid cart; when the database
    rejects the insert of the shipping record, the fourth statement of the
    placement, the handler passes the error to [next], and the order row and
    its item row, written by the second and third statements, stay in the
    store, which held no order and no item. *)
Lemma rejected_shipping_insert_leaves_order_rows :
  nth_error
    (trace (placeNewOrder JSON_parse_rejects
              (request_of_ann (ItemsArray [cart_line 1 2]))) shop)
    3
  = Some (Sends (INSERT_shipping_info 100 "Ann" "Chuy" "Bishkek" "KG"
                   "Main st. 1" "720000" "0555"))
  /\ run_rejecting 3 (DatabaseError "Connection terminated unexpectedly")
       (placeNewOrder JSON_parse_rejects
          (request_of_ann (ItemsArray [cart_line 1 2]))) shop []
     = (mkStore [P1; P2] [order100]
          [mkOrderItem 101 100 1 2 (30 # 1) "" "P1"] [] [] 102 7,
        [Next (DatabaseError "Connection terminated unexpectedly")],
        inr tt)
  /\ orders shop = [] /\ order_items shop = [].
Proof. repeat split; vm_compute; reflexivity. Qed.

(** C1, amended. When validation fails (a shipping field is missing or
    empty, or the cart is missing, empty or falsy), the handler does one
    thing, which is to pass the 400 error to [next]: it sends no statement,
    and the store is unchanged.  When a line of the cart is the first whose
    product is not found or whose quantity exceeds the stock, the 404 or 400
    error of that line is passed to [next] right after the product lookup,
    before any insert or update is sent.  When the database rejects a
    statement of the placement, whichever it is, the handler passes that
    error to [next] as it is, and that is the last thing it does; the store
    stays as the statements before the rejected one have made it, with
    nothing more written and nothing undone. *)
Theorem placeNewOrder_failure_is_surfaced
  (JSON_parse : string -> error + parsed) (req : PlaceOrderRequest)
  (st : Store) :
  (shipping_complete req = false ->
   trace (placeNewOrder JSON_parse req) st
   = [Calls (Next (ErrorHandler "Please provide complete shipping details."
                     400))]
   /\ handle (placeNewOrder JSON_parse req) st
      = (st, [Next (ErrorHandler "Please provide complete shipping details."
                      400)]))
  /\ (forall v,
        shipping_complete req = true ->
        normalized_cart JSON_parse (orderedItems req) = inr v ->
        no_items v = true ->
        trace (placeNewOrder JSON_parse req) st
        = [Calls (Next (ErrorHandler "No items in cart." 400))]
        /\ handle (placeNewOrder JSON_parse req) st
           = (st, [Next (ErrorHandler "No items in cart." 400)]))
  /\ (forall pre item post,
        shipping_complete req = true ->
        normalized_cart JSON_parse (orderedItems req)
        = inr (ParsedArray (pre ++ item :: post)) ->
        (forall l, In l pre -> valid_line (products st) l) ->
        (find_product (products st) (cp_id (product item)) = None ->
         exists rest,
           trace (placeNewOrder JSON_parse req) st
           = Sends (SELECT_products (cart_ids (pre ++ item :: post)))
             :: Calls (Next (ErrorHandler
                               ("Product not found for ID: "
                                  ++ string_of_uuid (cp_id (product item)))%string
                               404))
             :: rest)
        /\ (forall p,
              find_product (products st) (cp_id (product item)) = Some p ->
              p_stock p < quantity item ->
              exists rest,
                trace (placeNewOrder JSON_parse req) st
                = Sends (SELECT_products (cart_ids (pre ++ item :: post)))
                  :: Calls (Next (ErrorHandler
                                    ("Only " ++ string_of_Z (p_stock p)
                                       ++ " units available for "
                                       ++ p_name p)%string
                                    400))
                  :: rest))
  /\ (forall n e st_n passed,
        before_statement n (placeNewOrder JSON_parse req) st []
        = Some (st_n, passed) ->
        run_rejecting n e (placeNewOrder JSON_parse req) st []
        = (st_n, passed ++ [Next e], inr tt)).
Proof.
  split; [| split; [| split]].
  - intros Hs. split; [| now apply shipping_complete_false].
    unfold shipping_complete in Hs. apply negb_false_iff in Hs.
    unfold placeNewOrder. rewrite Hs. reflexivity.
  - intros v Hs Hc Hv. split; [| now apply (no_items_rejected _ _ v)].
    unfold shipping_complete in Hs. apply negb_true_iff in Hs.
    unfold placeNewOrder. rewrite Hs.
    rewrite (trace_catchAsyncErrors _ st []).
    rewrite (trace_bind _ _ st []), run_bind, trace_parse_items,
      run_parse_items, Hc.
    destruct v as [[| item rest] | | []]; try discriminate Hv; reflexivity.
  - intros pre item post Hs Hc Hpre.
    assert (Hfirst : forall e,
              line_error (products st) item = Some e ->
              exists rest,
                trace (placeNewOrder JSON_parse req) st
                = Sends (SELECT_products (cart_ids (pre ++ item :: post)))
                  :: Calls (Next e) :: rest).
    { intros e He.
      destruct (trace_placeNewOrder_items JSON_parse req _ st Hs Hc)
        as [rest Hrest]; [destruct pre; discriminate |].
      rewrite Hrest, (cart_errors_first _ _ _ _ _ Hpre He). cbn [map app].
      eexists. reflexivity. }
    split.
    + intros Hnone. apply Hfirst. unfold line_error. now rewrite Hnone.
    + intros p Hp Hq. apply Hfirst. unfold line_error. rewrite Hp.
      assert (Hgt : (quantity item >? p_stock p) = true).
      { rewrite Z.gtb_ltb. now apply Z.ltb_lt. }
      now rewrite Hgt.
  - intros n e st_n passed.
    apply run_rejecting_passed_on, rejections_passed_on_placeNewOrder.
Qed.

Lemma placeNewOrder_failure_is_surfaced_witness :
  (trace (placeNewOrder JSON_parse_rejects
            (request_without_pincode (ItemsArray [cart_line 1 2]))) shop
   = [Calls (Next (ErrorHandler "Please provide complete shipping details."
                     400))]
   /\ handle (placeNewOrder JSON_parse_rejects
                (request_without_pincode (ItemsArray [cart_line 1 2]))) shop
      = (shop, [Next (ErrorHandler "Please provide complete shipping details."
                        400)]))
  /\ (trace (placeNewOrder JSON_parse_rejects (request_of_ann (ItemsArray [])))
        shop
      = [Calls (Next (ErrorHandler "No items in cart." 400))]
      /\ handle (placeNewOrder JSON_parse_rejects
                   (request_of_ann (ItemsArray []))) shop
         = (shop, [Next (ErrorHandler "No items in cart." 400)]))
  /\ (exists rest,
        trace (placeNewOrder JSON_parse_rejects
                 (request_of_ann (ItemsArray [cart_line 1 1; cart_line 3 1])))
          shop
        = Sends (SELECT_products [1; 3]%nat)
          :: Calls (Next (ErrorHandler "Product not found for ID: 3" 404))
          :: rest)
  /\ (exists rest,
        trace (placeNewOrder JSON_parse_rejects
                 (request_of_ann (ItemsArray [cart_line 1 1; cart_line 2 4])))
          shop
        = Sends (SELECT_products [1; 2]%nat)
          :: Calls (Next (ErrorHandler "Only 3 units available for P2" 400))
          :: rest)
  /\ run_rejecting 4 (DatabaseError "Connection terminated unexpectedly")
       (placeNewOrder JSON_parse_rejects
          (request_of_ann (ItemsArray [cart_line 1 2]))) shop []
     = (mkStore [P1; P2] [order100]
          [mkOrderItem 101 100 1 2 (30 # 1) "" "P1"]
          [mkShippingInfo 102 100 "Ann" "Chuy" "Bishkek" "KG" "Main st. 1"
             "720000" "0555"]
          [] 103 7,
        [] ++ [Next (DatabaseError "Connection terminated unexpectedly")],
        inr tt).
Proof.
  assert (Hpre : forall l, In l [cart_line 1 1] -> valid_line (products shop) l).
  { intros l [<- | []]. exists P1. split; [reflexivity | simpl; lia]. }
  split; [| split; [| split; [| split]]].
  - apply (proj1 (placeNewOrder_failure_is_surfaced JSON_parse_rejects
                    (request_without_pincode (ItemsArray [cart_line 1 2]))
                    shop)).
    reflexivity.
  - apply (proj1 (proj2 (placeNewOrder_failure_is_surfaced JSON_parse_rejects
                           (request_of_ann (ItemsArray [])) shop))
             (ParsedArray [])); reflexivity.
  - exact (proj1 (proj1 (proj2 (proj2 (placeNewOrder_failure_is_surfaced
                                         JSON_parse_rejects
                                         (request_of_ann
                                            (ItemsArray
                                               [cart_line 1 1; cart_line 3 1]))
                                         shop)))
                    [cart_line 1 1] (cart_line 3 1) [] eq_refl eq_refl Hpre)
             eq_refl).
  - exact (proj2 (proj1 (proj2 (proj2 (placeNewOrder_failure_is_surfaced
                                         JSON_parse_rejects
                                         (request_of_ann
                                            (ItemsArray
                                               [cart_line 1 1; cart_line 2 4]))
                                         shop)))
                    [cart_line 1 1] (cart_line 2 4) [] eq_refl eq_refl Hpre)
             P2 eq_refl ltac:(simpl; lia)).
  - apply (proj2 (proj2 (proj2 (placeNewOrder_failure_is_surfaced
                                  JSON_parse_rejects
                                  (request_of_ann (ItemsArray [cart_line 1 2]))
                                  shop)))).
    reflexivity.
Defined.

(** ** PLACE NEW ORDER: an offending line does not stop the placement *)

(** C4. The handler passes the stock error, or the not-found error, of an
    offending line to [next], but [return] only leaves the callback of
    [forEach]: the order is inserted with the remaining lines, its shipping
    and payment rows are written, the stock of every line of the cart is
    updated, the offending one included, and [res.json] is called with the
    200 answer. *)
Theorem offending_line_does_not_stop_placement :
  handle (placeNewOrder JSON_parse_rejects
            (request_of_ann (ItemsArray [cart_line 1 1; cart_line 2 4]))) shop
  = (mkStore
       [mkProduct 1 (30 # 1) 4 "P1"; mkProduct 2 (10 # 1) (-1) "P2"]
       [mkOrder 100 9 37 (18 # 100) 2 "Processing" (Some 7%nat)]
       [mkOrderItem 101 100 1 1 (30 # 1) "" "P1"]
       [mkShippingInfo 102 100 "Ann" "Chuy" "Bishkek" "KG" "Main st. 1"
          "720000" "0555"]
       [mkPayment 103 100 "Online" "Paid" None]
       104 7,
     [Next (ErrorHandler "Only 3 units available for P2" 400);
      Json 200
        (OrderPlaced "Order placed successfully."
           (mkOrder 100 9 37 (18 # 100) 2 "Processing" (Some 7%nat)) 37)])
  /\ handle (placeNewOrder JSON_parse_rejects
               (request_of_ann (ItemsArray [cart_line 1 1; cart_line 3 1])))
       shop
     = (mkStore
          [mkProduct 1 (30 # 1) 4 "P1"; P2]
          [mkOrder 100 9 37 (18 # 100) 2 "Processing" (Some 7%nat)]
          [mkOrderItem 101 100 1 1 (30 # 1) "" "P1"]
          [mkShippingInfo 102 100 "Ann" "Chuy" "Bishkek" "KG" "Main st. 1"
             "720000" "0555"]
          [mkPayment 103 100 "Online" "Paid" None]
          104 7,
        [Next (ErrorHandler "Product not found for ID: 3" 404);
         Json 200
           (OrderPlaced "Order placed successfully."
              (mkOrder 100 9 37 (18 # 100) 2 "Processing" (Some 7%nat)) 37)]).
Proof. split; reflexivity. Qed.

(** ** PLACE NEW ORDER: what validation rejects *)

(** C8 as stated fails: a full name of three spaces is empty after trimming,
    yet the request passes validation and the order is placed under that
    name; a cart text that is not JSON makes the handler pass the exception
    of the parser to [next], and one that parses to an object a [TypeError],
    neither of which is the 400 error of validation. *)
Lemma blank_name_passes_validation :
  empty_after_trim "   " = true
  /\ handle (placeNewOrder JSON_parse_sample
               (request_with_blank_name (ItemsArray [cart_line 1 2]))) shop
     = (mkStore
          [mkProduct 1 (30 # 1) 3 "P1"; P2]
          [order100]
          [mkOrderItem 101 100 1 2 (30 # 1) "" "P1"]
          [mkShippingInfo 102 100 "   " "Chuy" "Bishkek" "KG" "Main st. 1"
             "720000" "0555"]
          [mkPayment 103 100 "Online" "Paid" None]
          104 7,
        [Json 200 (OrderPlaced "Order placed successfully." order100 71)])
  /\ handle (placeNewOrder JSON_parse_sample
               (request_of_ann (ItemsText "[{product"))) shop
     = (shop, [Next (SyntaxError "Unexpected token in JSON")])
  /\ handle (placeNewOrder JSON_parse_sample (request_of_ann (ItemsText "{}")))
       shop
     = (shop, [Next (TypeError "items.map is not a function")]).
Proof. repeat split. Qed.

Lemma missing_field_incomplete (req : PlaceOrderRequest) (f : option string) :
  In f (shipping_fields req) -> f = None \/ f = Some "" ->
  shipping_complete req = false.
Proof.
  intros Hin Hf.
  assert (Hfalsy : falsy f = true) by (destruct Hf; subst f; reflexivity).
  unfold shipping_complete. apply negb_false_iff.
  unfold shipping_fields in Hin. simpl in Hin.
  repeat (destruct Hin as [<- | Hin];
          [rewrite Hfalsy, ?orb_true_r; reflexivity |]).
  destruct Hin.
Qed.

(** C8, amended. Validation passes the 400 error to [next] when a shipping
    field is missing or the empty string (fields are not trimmed), and when
    the cart is missing or normalizes to an empty array, a falsy value or a
    value of length 0.  A cart text that does not parse makes the handler
    pass the exception of the parser, and one that parses to another
    non-array value a [TypeError]; these are not the 400 error.  In all these
    cases nothing is written: the store is unchanged. *)
Theorem validation_rejects_without_writing
  (JSON_parse : string -> error + parsed) (req : PlaceOrderRequest)
  (st : Store) :
  (forall f, In f (shipping_fields req) -> f = None \/ f = Some "" ->
     handle (placeNewOrder JSON_parse req) st
     = (st, [Next (ErrorHandler "Please provide complete shipping details."
                     400)]))
  /\ (shipping_complete req = true ->
      (forall v,
         normalized_cart JSON_parse (orderedItems req) = inr v ->
         no_items v = true ->
         handle (placeNewOrder JSON_parse req) st
         = (st, [Next (ErrorHandler "No items in cart." 400)]))
      /\ (forall e,
            normalized_cart JSON_parse (orderedItems req) = inl e ->
            handle (placeNewOrder JSON_parse req) st = (st, [Next e]))
      /\ (normalized_cart JSON_parse (orderedItems req)
          = inr (ParsedNonArray false) ->
          handle (placeNewOrder JSON_parse req) st
          = (st, [Next (TypeError "items.map is not a function")]))).
Proof.
  split.
  - intros f Hin Hf. apply shipping_complete_false.
    now apply (missing_field_incomplete req f).
  - intros Hs. split; [| split].
    + intros v. now apply no_items_rejected.
    + intros e. now apply parse_exception_passed.
    + now apply non_array_throws.
Qed.

Lemma validation_rejects_without_writing_witness :
  handle (placeNewOrder JSON_parse_sample
            (request_without_pincode (ItemsArray [cart_line 1 2])))
    shop_after_order
  = (shop_after_order,
     [Next (ErrorHandler "Please provide complete shipping details." 400)])
  /\ handle (placeNewOrder JSON_parse_sample (request_of_ann ItemsMissing))
       shop_after_order
     = (shop_after_order, [Next (ErrorHandler "No items in cart." 400)])
  /\ handle (placeNewOrder JSON_parse_sample (request_of_ann (ItemsText "null")))
       shop_after_order
     = (shop_after_order, [Next (ErrorHandler "No items in cart." 400)])
  /\ handle (placeNewOrder JSON_parse_sample
               (request_of_ann (ItemsText "[{product")))
       shop_after_order
     = (shop_after_order, [Next (SyntaxError "Unexpected token in JSON")])
  /\ handle (placeNewOrder JSON_parse_sample (request_of_ann (ItemsText "{}")))
       shop_after_order
     = (shop_after_order, [Next (TypeError "items.map is not a function")]).
Proof.
  split; [| split; [| split; [| split]]].
  - apply (proj1 (validation_rejects_without_writing JSON_parse_sample
                    (request_without_pincode (ItemsArray [cart_line 1 2]))
                    shop_after_order) None).
    + simpl. tauto.
    + now left.
  - apply (proj1 (proj2 (validation_rejects_without_writing JSON_parse_sample
                           (request_of_ann ItemsMissing) shop_after_order)
                    eq_refl) (ParsedArray [])); reflexivity.
  - apply (proj1 (proj2 (validation_rejects_without_writing JSON_parse_sample
                           (request_of_ann (ItemsText "null")) shop_after_order)
                    eq_refl) ParsedFalsy); reflexivity.
  - apply (proj1 (proj2 (proj2 (validation_rejects_without_writing
                                  JSON_parse_sample
                                  (request_of_ann (ItemsText "[{product"))
                                  shop_after_order)
                           eq_refl))).
    reflexivity.
  - apply (proj2 (proj2 (proj2 (validation_rejects_without_writing
                                  JSON_parse_sample
                                  (request_of_ann (ItemsText "{}"))
                                  shop_after_order)
                           eq_refl))).
    reflexivity.
Defined.

(** ** Requests handled concurrently *)

(** A turn is a prefix of the run of the handler alone. *)
Lemma turn_run (p : prog unit) :
  forall st log,
    run (fst (fst (turn p st log))) (snd (fst (turn p st log)))
      (snd (turn p st log))
    = run p st log.
Proof.
  induction p as [a | e | e k IH | c b k IH | R q k IH]; intros st log; simpl;
    try reflexivity; try apply IH.
  destruct (exec q st) as [st' r]. reflexivity.
Qed.

(** C9 as stated fails: two placements of the last unit of P3, interleaved so
    that both read the stock before either updates it, both pass the test,
    both answer 200, and the stock ends at -1. *)
Lemma last_unit_sold_twice :
  interleave [0; 1; 0; 0; 0; 0; 0; 0; 1; 1; 1; 1; 1; 1]%nat shop_with_last_unit
    [mkTask (placeNewOrder JSON_parse_rejects
               (request_of_ann (ItemsArray [cart_line 3 1]))) [];
     mkTask (placeNewOrder JSON_parse_rejects
               (request_of_bob (ItemsArray [cart_line 3 1]))) []]
  = (mkStore
       [mkProduct 3 (20 # 1) (-1) "P3"]
       [mkOrder 100 9 26 (18 # 100) 2 "Processing" (Some 7%nat);
        mkOrder 104 10 26 (18 # 100) 2 "Processing" (Some 7%nat)]
       [mkOrderItem 101 100 3 1 (20 # 1) "" "P3";
        mkOrderItem 105 104 3 1 (20 # 1) "" "P3"]
       [mkShippingInfo 102 100 "Ann" "Chuy" "Bishkek" "KG" "Main st. 1"
          "720000" "0555";
        mkShippingInfo 106 104 "Bob" "Osh" "Osh" "KG" "Lenin st. 2" "723500"
          "0777"]
       [mkPayment 103 100 "Online" "Paid" None;
        mkPayment 107 104 "Online" "Paid" None]
       108 7,
     [mkTask (Ret tt)
        [Json 200
           (OrderPlaced "Order placed successfully."
              (mkOrder 100 9 26 (18 # 100) 2 "Processing" (Some 7%nat)) 26)];
      mkTask (Ret tt)
        [Json 200
           (OrderPlaced "Order placed successfully."
              (mkOrder 104 10 26 (18 # 100) 2 "Processing" (Some 7%nat)) 26)]]).
Proof. reflexivity. Qed.

(** ** Requests handled one after the other *)

(** A cart of one offending line: the error is passed on, the order row is
    inserted all the same, and the insert of no items is rejected. *)
Lemma handle_single_offending_line JSON_parse req item e st :
  shipping_complete req = true ->
  normalized_cart JSON_parse (orderedItems req) = inr (ParsedArray [item]) ->
  line_error (products st) item = Some e ->
  handle (placeNewOrder JSON_parse req) st
  = (mkStore (products st)
       (orders st
          ++ [mkOrder (next_uuid st) (user_id req) 2 tax_rate 2 "Processing"
                (Some (db_now st))])
       (order_items st) (shipping_info st) (payments st) (S (next_uuid st))
       (db_now st),
     [Next e; Next (DatabaseError "syntax error at or near RETURNING")]).
Proof.
  intros Hs Hc He.
  rewrite (handle_placeNewOrder_items JSON_parse req [item] st Hs Hc)
    by discriminate.
  unfold place_items.
  step_await.
  rewrite run_bind, run_forEach.
  rewrite cart_errors_selected, cart_loop_selected by apply incl_refl.
  assert (Hloop : forall acc, cart_loop (products st) [item] 0 acc = acc).
  { intros acc. simpl. unfold line_error in He.
    destruct (find_product (products st) (cp_id (product item))) as [p |];
      [| reflexivity].
    destruct (quantity item >? p_stock p); [reflexivity | discriminate He]. }
  rewrite Hloop. simpl cart_errors. rewrite He.
  reflexivity.
Qed.

Lemma sold_out_requests JSON_parse id (reqs : list PlaceOrderRequest) :
  Forall (last_unit_request JSON_parse id) reqs ->
  forall st p,
    find_product (products st) id = Some p -> p_stock p = 0 ->
    exists st' logs,
      handle_each JSON_parse reqs st = (st', logs)
      /\ products st' = products st
      /\ List.length logs = List.length reqs
      /\ Forall (out_of_stock (p_name p)) logs.
Proof.
  induction 1 as [| req rest Hreq Hrest IH]; intros st p Hp Hstock; simpl.
  - exists st, []. repeat split. constructor.
  - destruct Hreq as [Hs [item [Hc [Hid Hq]]]].
    assert (He : line_error (products st) item
                 = Some (ErrorHandler
                           ("Only 0 units available for " ++ p_name p)%string
                           400)).
    { unfold line_error. rewrite Hid, Hp, Hq, Hstock. reflexivity. }
    rewrite (handle_single_offending_line JSON_parse req item _ st Hs Hc He).
    match goal with
    | |- context [handle_each JSON_parse rest ?st1] =>
        destruct (IH st1 p Hp Hstock) as [st' [logs [Hrun [Hps [Hlen Hall]]]]]
    end.
    rewrite Hrun. eexists. eexists. split; [reflexivity |].
    split; [exact Hps |]. split; [simpl; now rewrite Hlen |].
    constructor; [| exact Hall].
    eexists. split; [reflexivity |].
    intros c b [H | []]. discriminate H.
Qed.

(** C9, amended. When placements that each request the last unit of a
    product whose stock is 1 are handled one after the other, the first one
    answers 200, each of the others passes the stock error to [next] first
    and never answers 200, and the stock of the product ends at 0. *)
Theorem last_unit_sold_once_in_sequence
  (JSON_parse : string -> error + parsed) (id : uuid) (p : Product)
  (req : PlaceOrderRequest) (reqs : list PlaceOrderRequest) (st : Store) :
  find_product (products st) id = Some p ->
  p_stock p = 1 ->
  last_unit_request JSON_parse id req ->
  Forall (last_unit_request JSON_parse id) reqs ->
  exists st' order total_price logs p',
    handle_each JSON_parse (req :: reqs) st
    = (st',
       [Json 200 (OrderPlaced "Order placed successfully." order total_price)]
       :: logs)
    /\ List.length logs = List.length reqs
    /\ Forall (out_of_stock (p_name p)) logs
    /\ find_product (products st') id = Some p'
    /\ p_stock p' = 0.
Proof.
  intros Hp Hstock [Hs [item [Hc [Hid Hq]]]] Hreqs.
  assert (Hok : forallb (line_ok (products st)) [item] = true).
  { apply valid_lines_ok. intros l [<- | []]. exists p.
    rewrite Hid, Hq, Hstock. split; [exact Hp | lia]. }
  cbn [handle_each].
  rewrite (handle_placeNewOrder_ok JSON_parse req [item] st Hs Hc
             ltac:(discriminate) Hok).
  assert (Hp' : find_product (products (placed_store req [item] st)) id
                = Some (set_stock 0 p)).
  { cbn [products placed_store]. rewrite decrement_all_map.
    rewrite find_product_map_stock, Hp. simpl.
    destruct (find_product_id _ _ _ Hp) as [Hpid _].
    rewrite Hpid, Hid, Nat.eqb_refl, Hq, Hstock. reflexivity. }
  destruct (sold_out_requests JSON_parse id reqs Hreqs
              (placed_store req [item] st) (set_stock 0 p) Hp' eq_refl)
    as [st' [logs [Hrun [Hps [Hlen Hall]]]]].
  rewrite Hrun.
  eexists. eexists. eexists. exists logs, (set_stock 0 p).
  split; [reflexivity |].
  split; [exact Hlen |]. split; [exact Hall |].
  split; [| reflexivity].
  now rewrite Hps.
Qed.

Lemma last_unit_sold_once_in_sequence_witness :
  handle_each JSON_parse_rejects
    [request_of_ann (ItemsArray [cart_line 3 1]);
     request_of_bob (ItemsArray [cart_line 3 1])] shop_with_last_unit
  = (mkStore
       [mkProduct 3 (20 # 1) 0 "P3"]
       [mkOrder 100 9 26 (18 # 100) 2 "Processing" (Some 7%nat);
        mkOrder 104 10 2 (18 # 100) 2 "Processing" (Some 7%nat)]
       [mkOrderItem 101 100 3 1 (20 # 1) "" "P3"]
       [mkShippingInfo 102 100 "Ann" "Chuy" "Bishkek" "KG" "Main st. 1"
          "720000" "0555"]
       [mkPayment 103 100 "Online" "Paid" None]
       105 7,
     [[Json 200
         (OrderPlaced "Order placed successfully."
            (mkOrder 100 9 26 (18 # 100) 2 "Processing" (Some 7%nat)) 26)];
      [Next (ErrorHandler "Only 0 units available for P3" 400);
       Next (DatabaseError "syntax error at or near RETURNING")]])
  /\ exists st' order total_price logs p',
       handle_each JSON_parse_rejects
         [request_of_ann (ItemsArray [cart_line 3 1]);
          request_of_bob (ItemsArray [cart_line 3 1])] shop_with_last_unit
       = (st',
          [Json 200 (OrderPlaced "Order placed successfully." order
                       total_price)]
          :: logs)
       /\ List.length logs = 1%nat
       /\ Forall (out_of_stock "P3") logs
       /\ find_product (products st') 3 = Some p'
       /\ p_stock p' = 0.
Proof.
  split; [reflexivity |].
  apply (last_unit_sold_once_in_sequence JSON_parse_rejects 3 P3
           (request_of_ann (ItemsArray [cart_line 3 1]))
           [request_of_bob (ItemsArray [cart_line 3 1])] shop_with_last_unit).
  - reflexivity.
  - reflexivity.
  - split; [reflexivity |]. exists (cart_line 3 1). repeat split.
  - constructor; [| constructor].
    split; [reflexivity |]. exists (cart_line 3 1). repeat split.
Defined.

(** ** One after the other is one of the interleavings *)

Lemma take_turns_run (p : prog unit) :
  forall st log,
    take_turns (S (turns p st)) p st log
    = (finished (snd (run p st log)), fst (fst (run p st log)),
       snd (fst (run p st log))).
Proof.
  induction p as [a | e | e k IH | c b k IH | R q k IH]; intros st log.
  - reflexivity.
  - reflexivity.
  - exact (IH st (log ++ [Next e])).
  - exact (IH st (log ++ [Json c b])).
  - cbn [turns]. change (take_turns (S (S ?n)) (Await q k) st log)
      with (let '(p', st', log') := turn (Await q k) st log in
            take_turns (S n) p' st' log').
    cbn [turn run]. destruct (exec q st) as [st' r]. cbn [fst snd].
    apply IH.
Qed.

Lemma replace_task_at (done todo : list task) (t x : task) :
  replace_task (List.length done) x (done ++ t :: todo) = done ++ x :: todo.
Proof.
  induction done as [| d done IH]; simpl; [reflexivity | now rewrite IH].
Qed.

Lemma nth_error_at (done todo : list task) (t : task) :
  nth_error (done ++ t :: todo) (List.length done) = Some t.
Proof.
  induction done as [| d done IH]; simpl; [reflexivity | exact IH].
Qed.

Lemma interleave_turns (n : nat) :
  forall (rest : list nat) (done todo : list task) (p : prog unit)
         (log : list event) (st : Store),
    interleave (repeat (List.length done) n ++ rest) st
      (done ++ mkTask p log :: todo)
    = interleave rest (snd (fst (take_turns n p st log)))
        (done ++ mkTask (fst (fst (take_turns n p st log)))
                   (snd (take_turns n p st log)) :: todo).
Proof.
  induction n as [| n IH]; intros rest done todo p log st.
  - reflexivity.
  - cbn [repeat app interleave take_turns].
    rewrite nth_error_at. cbn [remaining passed].
    destruct (turn p st log) as [[p' st'] log'].
    rewrite replace_task_at. apply IH.
Qed.

Lemma interleave_sequential (progs : list (prog unit)) :
  forall (done : list task) (st : Store),
    interleave (sequential (List.length done) progs st) st
      (done ++ map (fun p => mkTask p []) progs)
    = (fst (run_each progs st), done ++ snd (run_each progs st)).
Proof.
  induction progs as [| p rest IH]; intros done st.
  - reflexivity.
  - cbn [sequential map run_each].
    rewrite interleave_turns, take_turns_run. cbn [fst snd].
    pose proof (IH (done ++ [mkTask (finished (snd (run p st [])))
                               (snd (fst (run p st [])))])
                  (fst (fst (run p st [])))) as H.
    rewrite length_app, Nat.add_1_r, <- !app_assoc in H. cbn [app] in H.
    rewrite H.
    destruct (run_each rest (fst (fst (run p st [])))) as [st' ts].
    reflexivity.
Qed.

Lemma run_each_handle_each JSON_parse (reqs : list PlaceOrderRequest) :
  forall st,
    fst (run_each (map (placeNewOrder JSON_parse) reqs) st)
    = fst (handle_each JSON_parse reqs st)
    /\ map passed (snd (run_each (map (placeNewOrder JSON_parse) reqs) st))
       = snd (handle_each JSON_parse reqs st).
Proof.
  induction reqs as [| req rest IH]; intros st.
  - split; reflexivity.
  - cbn [map run_each handle_each]. unfold handle.
    destruct (run (placeNewOrder JSON_parse req) st []) as [[st1 log] r].
    cbn [fst snd]. destruct (IH st1) as [IH1 IH2].
    destruct (run_each (map (placeNewOrder JSON_parse) rest) st1) as [st2 ts].
    destruct (handle_each JSON_parse rest st1) as [st2' logs].
    cbn [fst snd map passed] in *. subst. split; reflexivity.
Qed.

(** Handling placements one after the other is the interleaving in which
    each handler takes all its turns before the next one starts. *)
Lemma handle_each_is_an_interleaving JSON_parse (reqs : list PlaceOrderRequest)
  (st : Store) :
  exists tasks,
    interleave (sequential 0 (map (placeNewOrder JSON_parse) reqs) st) st
      (map (fun req => mkTask (placeNewOrder JSON_parse req) []) reqs)
    = (fst (handle_each JSON_parse reqs st), tasks)
    /\ map passed tasks = snd (handle_each JSON_parse reqs st).
Proof.
  pose proof (interleave_sequential (map (placeNewOrder JSON_parse) reqs) [] st)
    as H.
  cbn [List.length app] in H. rewrite map_map in H.
  exists (snd (run_each (map (placeNewOrder JSON_parse) reqs) st)).
  destruct (run_each_handle_each JSON_parse reqs st) as [H1 H2].
  rewrite H, H1. split; [reflexivity | exact H2].
Qed.

(** * Further properties *)

(** ** Keys under every statement, handler and interleaving *)

Lemma NoDup_map_filter {A B : Type} (f : A -> B) (g : A -> bool) (l : list A) :
  NoDup (map f l) -> NoDup (map f (filter g l)).
Proof.
  induction l as [| a l IH]; simpl; intros H; [constructor |].
  inversion H as [| x xs Hnotin Hnd]; subst.
  destruct (g a); simpl; [| now apply IH].
  constructor; [| now apply IH].
  intros Hin. apply Hnotin. apply in_map_iff in Hin.
  destruct Hin as [b [Hb Hin]]. apply filter_In in Hin.
  apply in_map_iff. exists b. split; [exact Hb | apply Hin].
Qed.

Lemma NoDup_map_snoc {A : Type} (f : A -> nat) (l : list A) (a : A) :
  NoDup (map f l) -> (forall b, In b l -> (f b < f a)%nat) ->
  NoDup (map f (l ++ [a])).
Proof.
  induction l as [| b l IH]; simpl; intros Hnd Hlt.
  - constructor; [intros [] | constructor].
  - inversion Hnd as [| x xs Hnotin Hnd']; subst.
    constructor.
    + rewrite map_app, in_app_iff. intros [Hin | [Hin | []]].
      * now apply Hnotin.
      * specialize (Hlt b (or_introl eq_refl)). simpl in Hin. lia.
    + apply IH; [exact Hnd' |]. intros c Hc. apply Hlt. now right.
Qed.

Lemma exec_keys_ok {R : Type} (q : query R) (st : Store) :
  keys_ok st -> keys_ok (fst (exec q st)).
Proof.
  unfold keys_ok. intros [Hp [Ho Hlt]].
  destruct q; simpl; try (split; [exact Hp | split; [exact Ho | exact Hlt]]).
  - (* INSERT INTO orders *)
    split; [exact Hp |]. split.
    + apply NoDup_map_snoc; [exact Ho | exact Hlt].
    + intros o Hin. apply in_app_iff in Hin.
      destruct Hin as [Hin | [<- | []]]; [specialize (Hlt o Hin); lia |].
      simpl. lia.
  - (* INSERT INTO order_items *)
    destruct placeholders as [| offset rest];
      [split; [exact Hp | split; [exact Ho | exact Hlt]] |].
    destruct (item_rows values (offset :: rest) (next_uuid st)) as [rows |];
      simpl; (split; [exact Hp | split; [exact Ho |]]); [| exact Hlt].
    intros o Hin. specialize (Hlt o Hin). lia.
  - (* INSERT INTO shipping_info *)
    split; [exact Hp | split; [exact Ho |]].
    intros o Hin. specialize (Hlt o Hin). lia.
  - (* INSERT INTO payments *)
    split; [exact Hp | split; [exact Ho |]].
    intros o Hin. specialize (Hlt o Hin). lia.
  - (* UPDATE products *)
    split; [| split; [exact Ho | exact Hlt]].
    rewrite map_map.
    erewrite map_ext; [exact Hp |].
    intros p. simpl. now destruct (Nat.eqb (p_id p) id).
  - (* UPDATE orders *)
    split; [exact Hp |]. split.
    + rewrite map_map. erewrite map_ext; [exact Ho |].
      intros o. simpl. now destruct (Nat.eqb (o_id o) orderId).
    + intros o Hin. apply in_map_iff in Hin. destruct Hin as [o0 [<- Hin]].
      specialize (Hlt o0 Hin).
      now destruct (Nat.eqb (o_id o0) orderId).
  - (* DELETE FROM orders *)
    split; [exact Hp |]. split.
    + now apply NoDup_map_filter.
    + intros o Hin. apply filter_In in Hin. now apply Hlt.
Qed.

Lemma run_keys_ok {A : Type} (p : prog A) :
  forall st log, keys_ok st -> keys_ok (fst (fst (run p st log))).
Proof.
  induction p as [a | e | e k IH | c b k IH | R q k IH]; intros st log H; simpl;
    try exact H; try (now apply IH).
  pose proof (exec_keys_ok q st H) as H'.
  destruct (exec q st) as [st' r]. now apply IH.
Qed.

Lemma turn_keys_ok (p : prog unit) :
  forall st log, keys_ok st -> keys_ok (snd (fst (turn p st log))).
Proof.
  induction p as [a | e | e k IH | c b k IH | R q k IH]; intros st log H; simpl;
    try exact H; try (now apply IH).
  pose proof (exec_keys_ok q st H) as H'.
  now destruct (exec q st) as [st' r].
Qed.

(** X1. Product identifiers and order identifiers stay unique, and order
    identifiers stay below the counter, whatever handlers run and however
    their awaits interleave. *)
Theorem keys_kept_by_every_interleaving
  (schedule : list nat) (tasks : list task) (st : Store) :
  keys_ok st -> keys_ok (fst (interleave schedule st tasks)).
Proof.
  revert st tasks.
  induction schedule as [| i rest IH]; intros st tasks H; simpl; [exact H |].
  destruct (nth_error tasks i) as [t |]; [| now apply IH].
  pose proof (turn_keys_ok (remaining t) st (passed t) H) as H'.
  destruct (turn (remaining t) st (passed t)) as [[p' st'] log'].
  now apply IH.
Qed.

Lemma keys_kept_by_every_interleaving_witness :
  keys_ok shop_after_order
  /\ keys_ok
       (fst (interleave [0; 1; 2; 0; 0; 2; 0; 0; 0; 0; 1]%nat shop_after_order
               [mkTask (placeNewOrder JSON_parse_rejects
                          (request_of_bob (ItemsArray [cart_line 2 1]))) [];
                mkTask (deleteOrder 100) [];
                mkTask (updateOrderStatus (Some "Shipped") 100) []])).
Proof.
  assert (H : keys_ok shop_after_order).
  { unfold keys_ok. simpl. split; [| split].
    - constructor; [intros [H | []]; discriminate H |].
      constructor; [intros [] | constructor].
    - constructor; [intros [] | constructor].
    - intros o [<- | []]. simpl. lia. }
  split; [exact H |].
  now apply keys_kept_by_every_interleaving.
Defined.

(** ** What a placement leaves alone *)

Lemma extends_refl (st : Store) : extends st st.
Proof.
  unfold extends.
  repeat split; try (exists []; now rewrite app_nil_r).
Qed.

Lemma extends_trans (st1 st2 st3 : Store) :
  extends st1 st2 -> extends st2 st3 -> extends st1 st3.
Proof.
  unfold extends.
  intros [[o1 Ho1] [[i1 Hi1] [[s1 Hs1] [[p1 Hp1] [Hid1 [Hpr1 Hn1]]]]]]
         [[o2 Ho2] [[i2 Hi2] [[s2 Hs2] [[p2 Hp2] [Hid2 [Hpr2 Hn2]]]]]].
  split; [exists (o1 ++ o2); now rewrite Ho2, Ho1, app_assoc |].
  split; [exists (i1 ++ i2); now rewrite Hi2, Hi1, app_assoc |].
  split; [exists (s1 ++ s2); now rewrite Hs2, Hs1, app_assoc |].
  split; [exists (p1 ++ p2); now rewrite Hp2, Hp1, app_assoc |].
  split; [congruence |]. split; congruence.
Qed.

Lemma exec_extends {R : Type} (q : query R) (st : Store) :
  appends_only q = true -> extends st (fst (exec q st)).
Proof.
  destruct q; simpl; intros Hq; try discriminate Hq;
    try apply extends_refl.
  - unfold extends; simpl.
    repeat split; try (exists []; now rewrite app_nil_r). now eexists.
  - destruct placeholders as [| offset rest]; [apply extends_refl |].
    destruct (item_rows values (offset :: rest) (next_uuid st)) as [rows |];
      simpl; [| apply extends_refl].
    unfold extends; simpl.
    repeat split; try (exists []; now rewrite app_nil_r). now eexists.
  - unfold extends; simpl.
    repeat split; try (exists []; now rewrite app_nil_r). now eexists.
  - unfold extends; simpl.
    repeat split; try (exists []; now rewrite app_nil_r). now eexists.
  - unfold extends; simpl.
    repeat split; try (exists []; now rewrite app_nil_r);
      rewrite map_map; apply map_ext; intros p;
      now destruct (Nat.eqb (p_id p) id).
Qed.

Lemma run_extends {A : Type} (p : prog A) :
  forall st log, placing p -> extends st (fst (fst (run p st log))).
Proof.
  induction p as [a | e | e k IH | c b k IH | R q k IH]; intros st log H; simpl;
    try apply extends_refl; try (now apply IH).
  destruct H as [Hq Hk].
  pose proof (exec_extends q st Hq) as Hst.
  destruct (exec q st) as [st' r]. simpl in Hst.
  eapply extends_trans; [exact Hst | now apply IH].
Qed.

Lemma placing_bind {A B : Type} (p : prog A) (f : A -> prog B) :
  placing p -> (forall a, placing (f a)) -> placing (bind p f).
Proof.
  intros Hp Hf.
  induction p as [a | e | e k IH | c b k IH | R q k IH]; simpl in *;
    try exact I; try apply Hf; try (now apply IH).
  destruct Hp as [Hq Hk]. split; [exact Hq |]. intros r. now apply IH.
Qed.

Lemma placing_catchAsyncErrors (p : prog unit) :
  placing p -> placing (catchAsyncErrors p).
Proof.
  induction p as [a | e | e k IH | c b k IH | R q k IH]; simpl; intros H;
    try exact I; try (now apply IH).
  destruct H as [Hq Hk]. split; [exact Hq |]. intros r. now apply IH.
Qed.

Lemma placing_await {R : Type} (q : query R) :
  appends_only q = true -> placing (await q).
Proof.
  intros Hq. unfold await. simpl. split; [exact Hq |].
  intros [e | rows]; exact I.
Qed.

Lemma placing_forEach (ps : list Product) (items : list CartLine) :
  forall index acc, placing (forEach (forEach_callback ps) items index acc).
Proof.
  induction items as [| item rest IH]; intros index acc; simpl; [exact I |].
  apply placing_bind; [| intros a; apply IH].
  unfold forEach_callback.
  destruct (find (fun p => Nat.eqb (p_id p) (cp_id (product item))) ps)
    as [p |]; simpl; [| exact I].
  destruct (quantity item >? p_stock p); exact I.
Qed.

Lemma placing_reduce_stock (items : list CartLine) :
  placing (reduce_stock items).
Proof.
  induction items as [| item rest IH]; simpl; [exact I |].
  split; [reflexivity |]. intros [e | []]; simpl; [exact I | exact IH].
Qed.

Lemma placing_place_items (req : PlaceOrderRequest) (items : list CartLine) :
  placing (place_items req items).
Proof.
  unfold place_items.
  apply placing_bind; [now apply placing_await |]. intros products.
  apply placing_bind; [apply placing_forEach |]. intros acc.
  apply placing_bind; [now apply placing_await |]. intros [| order rest];
    [exact I |].
  apply placing_bind; [now apply placing_await |]. intros _.
  apply placing_bind; [now apply placing_await |]. intros _.
  apply placing_bind; [now apply placing_await |]. intros _.
  apply placing_bind; [apply placing_reduce_stock |]. intros _.
  exact I.
Qed.

Lemma placing_placeNewOrder JSON_parse (req : PlaceOrderRequest) :
  placing (placeNewOrder JSON_parse req).
Proof.
  unfold placeNewOrder. apply placing_catchAsyncErrors.
  destruct (falsy (full_name req) || falsy (state req) || falsy (city req)
            || falsy (country req) || falsy (address req)
            || falsy (pincode req) || falsy (phone req)); [exact I |].
  apply placing_bind.
  - unfold parse_items. destruct (orderedItems req) as [items | s |];
      try exact I.
    destruct (String.eqb s ""); [exact I |].
    destruct (JSON_parse s); exact I.
  - intros [[| item rest] | | []]; try exact I.
    apply placing_place_items.
Qed.

Lemma turn_placing (p : prog unit) :
  forall st log,
    placing p ->
    placing (fst (fst (turn p st log)))
    /\ extends st (snd (fst (turn p st log))).
Proof.
  induction p as [a | e | e k IH | c b k IH | R q k IH]; intros st log H; simpl;
    try (split; [exact I | apply extends_refl]); try (now apply IH).
  destruct H as [Hq Hk].
  pose proof (exec_extends q st Hq) as Hst.
  destruct (exec q st) as [st' r]. simpl in *. split; [apply Hk | exact Hst].
Qed.

Lemma replace_task_placing (i : nat) (t : task) (tasks : list task) :
  placing (remaining t) -> Forall (fun t => placing (remaining t)) tasks ->
  Forall (fun t => placing (remaining t)) (replace_task i t tasks).
Proof.
  intros Ht Hall. revert i.
  induction Hall as [| t0 rest H0 Hrest IH]; intros [| i']; simpl;
    constructor; auto.
Qed.

Lemma interleave_extends (schedule : list nat) :
  forall st tasks,
    Forall (fun t => placing (remaining t)) tasks ->
    extends st (fst (interleave schedule st tasks)).
Proof.
  induction schedule as [| i rest IH]; intros st tasks Hall; simpl;
    [apply extends_refl |].
  destruct (nth_error tasks i) as [t |] eqn:Ht; [| now apply IH].
  assert (Hp : placing (remaining t)).
  { apply nth_error_In in Ht. rewrite Forall_forall in Hall. now apply Hall. }
  destruct (turn_placing (remaining t) st (passed t) Hp) as [Hp' Hext].
  destruct (turn (remaining t) st (passed t)) as [[p' st'] log'].
  simpl in Hp', Hext.
  eapply extends_trans; [exact Hext |].
  apply IH. now apply replace_task_placing.
Qed.

(** X2. Whatever the requests and however they interleave, placements only
    add rows: the orders, order items, shipping records and payments already
    in the store stay as they are and where they are, and every product
    keeps its identifier, price and name.  This holds on the failing paths
    too. *)
Theorem placements_only_add_rows
  (JSON_parse : string -> error + parsed) (reqs : list PlaceOrderRequest)
  (schedule : list nat) (st : Store) :
  extends st
    (fst (interleave schedule st
            (map (fun req => mkTask (placeNewOrder JSON_parse req) []) reqs)))
  /\ forall req, extends st (fst (handle (placeNewOrder JSON_parse req) st)).
Proof.
  split.
  - apply interleave_extends. apply Forall_forall. intros t Hin.
    apply in_map_iff in Hin. destruct Hin as [req [<- _]]. simpl.
    apply placing_placeNewOrder.
  - intros req. unfold handle. apply run_extends, placing_placeNewOrder.
Qed.

(** ** A placed order read back *)

Lemma filter_app_fresh {A : Type} (f : A -> bool) (l l' : list A) :
  (forall x, In x l -> f x = false) -> (forall x, In x l' -> f x = true) ->
  filter f (l ++ l') = l'.
Proof.
  intros Hl Hl'. rewrite filter_app.
  assert (H1 : filter f l = []).
  { induction l as [| a l IH]; simpl; [reflexivity |].
    rewrite (Hl a (or_introl eq_refl)). apply IH.
    intros x Hx. apply Hl. now right. }
  assert (H2 : filter f l' = l').
  { induction l' as [| a l' IH]; simpl; [reflexivity |].
    rewrite (Hl' a (or_introl eq_refl)). f_equal. apply IH.
    intros x Hx. apply Hl'. now right. }
  now rewrite H1, H2.
Qed.

Lemma placed_items_order_id (orderId : uuid) (ps : list Product) items :
  forall id oi,
    In oi (placed_items orderId ps items id) -> oi_order_id oi = orderId.
Proof.
  induction items as [| item rest IH]; simpl; intros id oi Hin; [destruct Hin |].
  destruct (find_product ps (cp_id (product item))) as [p |].
  - destruct Hin as [<- | Hin]; [reflexivity | now apply (IH (S id))].
  - now apply (IH (S id)).
Qed.

Lemma placed_items_lines (orderId : uuid) (ps : list Product) items :
  (forall item, In item items -> valid_line ps item) ->
  forall id,
    map (fun oi => (oi_product_id oi, oi_quantity oi, oi_price oi))
      (placed_items orderId ps items id)
    = map (fun item => (cp_id (product item), quantity item, unit_price ps item))
        items.
Proof.
  induction items as [| item rest IH]; simpl; intros Hvalid id; [reflexivity |].
  destruct (Hvalid item (or_introl eq_refl)) as [p [Hp _]].
  unfold unit_price at 1. rewrite Hp. simpl.
  destruct (find_product_id _ _ _ Hp) as [Hid _]. rewrite Hid.
  f_equal. apply IH. intros l Hl. apply Hvalid. now right.
Qed.

Lemma placed_items_total (orderId : uuid) (ps : list Product) items :
  (forall item, In item items -> valid_line ps item) ->
  forall id, items_total (placed_items orderId ps items id) = subtotal ps items.
Proof.
  induction items as [| item rest IH]; simpl; intros Hvalid id; [reflexivity |].
  destruct (Hvalid item (or_introl eq_refl)) as [p [Hp _]].
  unfold unit_price at 1. rewrite Hp. simpl.
  f_equal. apply IH. intros l Hl. apply Hvalid. now right.
Qed.

Lemma truthy_text (f : option string) : falsy f = false -> Some (text f) = f.
Proof. destruct f as [s |]; simpl; [reflexivity | discriminate]. Qed.

Lemma shipping_complete_fields (req : PlaceOrderRequest) :
  shipping_complete req = true ->
  shipping_json
    (Some (mkShippingInfo 0 0 (text (full_name req)) (text (state req))
             (text (city req)) (text (country req)) (text (address req))
             (text (pincode req)) (text (phone req))))
  = mkShippingJson (full_name req) (state req) (city req) (country req)
      (address req) (pincode req) (phone req).
Proof.
  unfold shipping_complete. intros H. apply negb_true_iff in H.
  repeat (apply orb_false_elim in H; destruct H as [H ?]).
  unfold shipping_json. simpl.
  now rewrite !truthy_text.
Qed.

(** X3. Read back with [fetchSingleOrder], a freshly placed order of valid
    lines carries exactly the lines submitted, in cart order, each with its
    product, its quantity and the price of the product when it was placed,
    and the shipping fields as they were submitted. *)
Theorem placed_order_is_read_back
  (JSON_parse : string -> error + parsed) (req : PlaceOrderRequest)
  (items : list CartLine) (st : Store) :
  references_ok st ->
  shipping_complete req = true ->
  normalized_cart JSON_parse (orderedItems req) = inr (ParsedArray items) ->
  items <> [] ->
  (forall item, In item items -> valid_line (products st) item) ->
  exists st' order total_price joined,
    handle (placeNewOrder JSON_parse req) st
    = (st', [Json 200 (OrderPlaced "Order placed successfully." order
                         total_price)])
    /\ handle (fetchSingleOrder (o_id order)) st'
       = (st', [Json 200 (OrderFetched "Order fetched." (Some joined))])
    /\ j_order joined = order
    /\ map (fun j => (j_product_id j, j_quantity j, j_price j))
         (j_order_items joined)
       = map (fun item =>
                (cp_id (product item), quantity item,
                 unit_price (products st) item))
           items
    /\ Forall (fun j => j_order_id j = o_id order) (j_order_items joined)
    /\ j_shipping_info joined
       = mkShippingJson (full_name req) (state req) (city req) (country req)
           (address req) (pincode req) (phone req).
Proof.
  intros [Ho [Hoi [Hsh Hpay]]] Hs Hc Hne Hvalid.
  rewrite (handle_placeNewOrder_ok JSON_parse req items st Hs Hc Hne
             (valid_lines_ok _ _ Hvalid)).
  eexists. eexists. eexists. eexists. split; [reflexivity |].
  unfold handle, fetchSingleOrder.
  rewrite run_catchAsyncErrors, run_bind, run_await.
  cbn [exec fst snd placed_store placed_order orders o_id].
  rewrite filter_app_fresh.
  2: { intros o Hin. apply Nat.eqb_neq. specialize (Ho o Hin). lia. }
  2: { intros o [<- | []]. apply Nat.eqb_refl. }
  cbn [flat_map app]. unfold joined_rows, placed_store, placed_order.
  cbn [order_items shipping_info o_id].
  rewrite (filter_app_fresh
             (fun oi => Nat.eqb (oi_order_id oi) (next_uuid st))).
  2: { intros oi Hin. apply Nat.eqb_neq. specialize (Hoi oi Hin). lia. }
  2: { intros oi Hin. apply placed_items_order_id in Hin. rewrite Hin.
       apply Nat.eqb_refl. }
  rewrite (filter_app_fresh
             (fun s => Nat.eqb (s_order_id s) (next_uuid st))).
  2: { intros s Hin. apply Nat.eqb_neq. specialize (Hsh s Hin). lia. }
  2: { intros s [<- | []]. apply Nat.eqb_refl. }
  cbn [map hd_error run]. split; [reflexivity |].
  cbn [j_order j_order_items j_shipping_info].
  split; [reflexivity |]. split.
  { rewrite map_map. cbn [item_json j_product_id j_quantity j_price].
    now apply placed_items_lines. }
  split.
  { apply Forall_forall. intros j Hin. apply in_map_iff in Hin.
    destruct Hin as [oi [<- Hin]]. simpl.
    now apply placed_items_order_id in Hin. }
  unfold shipping_json. cbn.
  pose proof (shipping_complete_fields req Hs) as H.
  unfold shipping_json in H. cbn in H. exact H.
Qed.

Lemma references_ok_shop : references_ok shop.
Proof. unfold references_ok. simpl. repeat split; intros x []. Defined.

Lemma placed_order_is_read_back_witness :
  exists st' order total_price joined,
    handle (placeNewOrder JSON_parse_rejects
              (request_of_ann (ItemsArray [cart_line 1 2; cart_line 2 1]))) shop
    = (st', [Json 200 (OrderPlaced "Order placed successfully." order
                         total_price)])
    /\ handle (fetchSingleOrder (o_id order)) st'
       = (st', [Json 200 (OrderFetched "Order fetched." (Some joined))])
    /\ j_order joined = order
    /\ map (fun j => (j_product_id j, j_quantity j, j_price j))
         (j_order_items joined)
       = map (fun item =>
                (cp_id (product item), quantity item,
                 unit_price (products shop) item))
           [cart_line 1 2; cart_line 2 1]
    /\ Forall (fun j => j_order_id j = o_id order) (j_order_items joined)
    /\ j_shipping_info joined
       = mkShippingJson (Some "Ann") (Some "Chuy") (Some "Bishkek") (Some "KG")
           (Some "Main st. 1") (Some "720000") (Some "0555").
Proof.
  apply (placed_order_is_read_back JSON_parse_rejects
           (request_of_ann (ItemsArray [cart_line 1 2; cart_line 2 1]))
           [cart_line 1 2; cart_line 2 1] shop).
  - exact references_ok_shop.
  - reflexivity.
  - reflexivity.
  - discriminate.
  - intros item [<- | [<- | []]].
    + exists P1. split; [reflexivity | simpl; lia].
    + exists P2. split; [reflexivity | simpl; lia].
Defined.

(** ** The rows of a placed order *)

Lemma placed_items_snapshot (orderId : uuid) (ps : list Product) items :
  (forall item, In item items -> valid_line ps item) ->
  forall id oi,
    In oi (placed_items orderId ps items id) ->
    exists item p,
      In item items /\ find_product ps (cp_id (product item)) = Some p
      /\ oi_product_id oi = cp_id (product item)
      /\ oi_quantity oi = quantity item
      /\ oi_price oi = p_price p /\ oi_title oi = p_name p.
Proof.
  induction items as [| item rest IH]; simpl; intros Hvalid id oi Hin;
    [destruct Hin |].
  assert (Hrest : forall l, In l rest -> valid_line ps l).
  { intros l Hl. apply Hvalid. now right. }
  destruct (Hvalid item (or_introl eq_refl)) as [p [Hp _]].
  rewrite Hp in Hin. destruct Hin as [<- | Hin].
  - exists item, p. destruct (find_product_id _ _ _ Hp) as [Hid _].
    simpl. repeat split; auto.
  - destruct (IH Hrest (S id) oi Hin) as [item' [p' [Hin' H]]].
    exists item', p'. split; [now right | exact H].
Qed.

Lemma placed_items_total_of_doubles (orderId : uuid) (ps : list Product) items :
  (forall item, In item items -> valid_line ps item) ->
  forall id t,
    fold_left
      (fun t oi =>
         (t + Number_of_Q (oi_price oi) * Number_of_Z (oi_quantity oi))%float)
      (placed_items orderId ps items id) t
    = fold_left (fun t item => (t + line_total ps item)%float) items t.
Proof.
  induction items as [| item rest IH]; simpl; intros Hvalid id t;
    [reflexivity |].
  destruct (Hvalid item (or_introl eq_refl)) as [p [Hp _]].
  unfold line_total at 2. unfold unit_price. rewrite Hp. simpl.
  apply IH. intros l Hl. apply Hvalid. now right.
Qed.

(** X4. The item rows written for a placement of valid lines are a snapshot
    of the catalogue: each row has the quantity of a line of the cart and the
    price and name its product had in the store; the sum over these rows of
    price times quantity is the subtotal; and the total of the order is what
    the rows give when that sum is taken in doubles, row after row, 18% and
    the shipping price of the order are added in doubles, and the result is
    rounded half up.  The cart is one whose total stays within the range of
    the doubles. *)
Theorem item_rows_are_a_snapshot
  (JSON_parse : string -> error + parsed) (req : PlaceOrderRequest)
  (items : list CartLine) (st : Store) :
  shipping_complete req = true ->
  normalized_cart JSON_parse (orderedItems req) = inr (ParsedArray items) ->
  items <> [] ->
  (forall item, In item items -> valid_line (products st) item) ->
  is_finite (charged (loop_subtotal (products st) items)) = true ->
  exists st' order total_price rows,
    handle (placeNewOrder JSON_parse req) st
    = (st', [Json 200 (OrderPlaced "Order placed successfully." order
                         total_price)])
    /\ order_items st' = order_items st ++ rows
    /\ List.length rows = List.length items
    /\ (forall oi, In oi rows ->
        oi_order_id oi = o_id order
        /\ exists item p,
             In item items
             /\ find_product (products st) (cp_id (product item)) = Some p
             /\ oi_product_id oi = cp_id (product item)
             /\ oi_quantity oi = quantity item
             /\ oi_price oi = p_price p /\ oi_title oi = p_name p)
    /\ items_total rows = subtotal (products st) items
    /\ o_total_price order
       = Math_round
           (Q_of_Number
              (items_total_of_doubles rows
               + items_total_of_doubles rows * Number_of_Q (18 # 100)
               + Number_of_Z (o_shipping_price order))%float).
Proof.
  intros Hs Hc Hne Hvalid _.
  rewrite (handle_placeNewOrder_ok JSON_parse req items st Hs Hc Hne
             (valid_lines_ok _ _ Hvalid)).
  eexists. eexists. eexists.
  exists (placed_items (next_uuid st) (products st) items (S (next_uuid st))).
  split; [reflexivity |]. split; [reflexivity |].
  split.
  { rewrite <- (length_map (fun oi => (oi_product_id oi, oi_quantity oi,
                                         oi_price oi))).
    rewrite (placed_items_lines _ _ _ Hvalid). apply length_map. }
  split.
  { intros oi Hin. split.
    - now apply placed_items_order_id in Hin.
    - now apply (placed_items_snapshot _ _ _ Hvalid _ _ Hin). }
  rewrite (placed_items_total _ _ _ Hvalid).
  split; [reflexivity |].
  unfold items_total_of_doubles.
  rewrite (placed_items_total_of_doubles _ _ _ Hvalid).
  reflexivity.
Qed.

Lemma item_rows_are_a_snapshot_witness :
  exists st' order total_price rows,
    handle (placeNewOrder JSON_parse_rejects
              (request_of_ann (ItemsArray [cart_line 1 2; cart_line 2 1]))) shop
    = (st', [Json 200 (OrderPlaced "Order placed successfully." order
                         total_price)])
    /\ order_items st' = order_items shop ++ rows
    /\ List.length rows = 2%nat
    /\ (forall oi, In oi rows ->
        oi_order_id oi = o_id order
        /\ exists item p,
             In item [cart_line 1 2; cart_line 2 1]
             /\ find_product (products shop) (cp_id (product item)) = Some p
             /\ oi_product_id oi = cp_id (product item)
             /\ oi_quantity oi = quantity item
             /\ oi_price oi = p_price p /\ oi_title oi = p_name p)
    /\ items_total rows = subtotal (products shop) [cart_line 1 2; cart_line 2 1]
    /\ o_total_price order
       = Math_round
           (Q_of_Number
              (items_total_of_doubles rows
               + items_total_of_doubles rows * Number_of_Q (18 # 100)
               + Number_of_Z (o_shipping_price order))%float).
Proof.
  apply (item_rows_are_a_snapshot JSON_parse_rejects
           (request_of_ann (ItemsArray [cart_line 1 2; cart_line 2 1]))
           [cart_line 1 2; cart_line 2 1] shop).
  - reflexivity.
  - reflexivity.
  - discriminate.
  - intros item [<- | [<- | []]].
    + exists P1. split; [reflexivity | simpl; lia].
    + exists P2. split; [reflexivity | simpl; lia].
  - vm_compute. reflexivity.
Defined.

(** X5. After a placement of valid lines the store holds exactly one order
    with the new identifier, in status [Processing], paid now and owned by
    the buyer of the request, exactly one shipping record for it and exactly
    one payment for it, of type [Online], status [Paid] and no payment
    intent. *)
Theorem placed_order_has_one_shipping_and_one_payment
  (JSON_parse : string -> error + parsed) (req : PlaceOrderRequest)
  (items : list CartLine) (st : Store) :
  references_ok st ->
  shipping_complete req = true ->
  normalized_cart JSON_parse (orderedItems req) = inr (ParsedArray items) ->
  items <> [] ->
  (forall item, In item items -> valid_line (products st) item) ->
  exists st' order total_price s pay,
    handle (placeNewOrder JSON_parse req) st
    = (st', [Json 200 (OrderPlaced "Order placed successfully." order
                         total_price)])
    /\ filter (fun o => Nat.eqb (o_id o) (o_id order)) (orders st') = [order]
    /\ o_buyer_id order = user_id req
    /\ o_order_status order = "Processing"
    /\ o_paid_at order = Some (db_now st)
    /\ filter (fun s => Nat.eqb (s_order_id s) (o_id order)) (shipping_info st')
       = [s]
    /\ filter (fun pay => Nat.eqb (pay_order_id pay) (o_id order)) (payments st')
       = [pay]
    /\ pay_payment_type pay = "Online"
    /\ pay_payment_status pay = "Paid"
    /\ pay_payment_intent_id pay = None.
Proof.
  intros [Ho [Hoi [Hsh Hpay]]] Hs Hc Hne Hvalid.
  rewrite (handle_placeNewOrder_ok JSON_parse req items st Hs Hc Hne
             (valid_lines_ok _ _ Hvalid)).
  eexists. eexists. eexists. eexists. eexists. split; [reflexivity |].
  unfold placed_store, placed_order.
  cbn [orders shipping_info payments o_id o_buyer_id o_order_status o_paid_at].
  split.
  { apply filter_app_fresh.
    - intros o Hin. apply Nat.eqb_neq. specialize (Ho o Hin). lia.
    - intros o [<- | []]. apply Nat.eqb_refl. }
  split; [reflexivity |]. split; [reflexivity |]. split; [reflexivity |].
  split.
  { apply filter_app_fresh.
    - intros s Hin. apply Nat.eqb_neq. specialize (Hsh s Hin). lia.
    - intros s [<- | []]. apply Nat.eqb_refl. }
  split.
  { apply filter_app_fresh.
    - intros pay Hin. apply Nat.eqb_neq. specialize (Hpay pay Hin). lia.
    - intros pay [<- | []]. apply Nat.eqb_refl. }
  repeat split.
Qed.

Lemma placed_order_has_one_shipping_and_one_payment_witness :
  exists st' order total_price s pay,
    handle (placeNewOrder JSON_parse_rejects
              (request_of_ann (ItemsArray [cart_line 1 2]))) shop
    = (st', [Json 200 (OrderPlaced "Order placed successfully." order
                         total_price)])
    /\ filter (fun o => Nat.eqb (o_id o) (o_id order)) (orders st') = [order]
    /\ o_buyer_id order = 9%nat
    /\ o_order_status order = "Processing"
    /\ o_paid_at order = Some 7%nat
    /\ filter (fun s => Nat.eqb (s_order_id s) (o_id order)) (shipping_info st')
       = [s]
    /\ filter (fun pay => Nat.eqb (pay_order_id pay) (o_id order)) (payments st')
       = [pay]
    /\ pay_payment_type pay = "Online"
    /\ pay_payment_status pay = "Paid"
    /\ pay_payment_intent_id pay = None.
Proof.
  apply (placed_order_has_one_shipping_and_one_payment JSON_parse_rejects
           (request_of_ann (ItemsArray [cart_line 1 2])) [cart_line 1 2] shop).
  - exact references_ok_shop.
  - reflexivity.
  - reflexivity.
  - discriminate.
  - intros item [<- | []]. exists P1. split; [reflexivity | simpl; lia].
Defined.

(** ** A placement on any cart *)

(** Steps 3 to 9 on any cart: the errors of the offending lines are passed
    on, the order row is inserted, and then either the insert of the items is
    rejected, which ends the handler, or all the remaining steps run. *)
Lemma run_place_items (req : PlaceOrderRequest) (items : list CartLine)
  (st : Store) (log : list event) :
  run (place_items req items) st log
  = match loop_placeholders (products st) items with
    | [] =>
        (store_with_order req items st,
         log ++ map Next (cart_errors (products st) items),
         inl (DatabaseError "syntax error at or near RETURNING"))
    | _ :: _ =>
        match item_rows
                (fill_order_id (next_uuid st) 0
                   (loop_values (products st) items))
                (loop_placeholders (products st) items) (S (next_uuid st))
        with
        | None =>
            (store_with_order req items st,
             log ++ map Next (cart_errors (products st) items),
             inl (DatabaseError
                    "bind message does not supply the parameters of the statement"))
        | Some rows =>
            (store_with_all req items rows st,
             (log ++ map Next (cart_errors (products st) items))
               ++ [Json 200 (OrderPlaced "Order placed successfully."
                               (inserted_order req items st)
                               (total_for
                                  (passing_total (products st) items)))],
             inr tt)
        end
    end.
Proof.
  unfold place_items, loop_placeholders, loop_values, store_with_order,
    store_with_all, inserted_order, passing_total.
  step_await.
  rewrite run_bind, run_forEach.
  rewrite cart_errors_selected, cart_loop_selected by apply incl_refl.
  remember (cart_loop (products st) items 0 (mkCartAcc 0 [] [])) as acc.
  step_await. cbn [o_id]. step_await.
  cbn [products orders order_items shipping_info payments next_uuid db_now].
  destruct (acc_placeholders acc) as [| offset rest]; [reflexivity |].
  destruct (item_rows (fill_order_id (next_uuid st) 0 (acc_values acc))
              (offset :: rest) (S (next_uuid st))) as [rows |];
    [| reflexivity].
  cbn [fst snd].
  step_await. step_await.
  rewrite run_bind, run_reduce_stock.
  reflexivity.
Qed.

Lemma line_ok_valid (ps : list Product) (item : CartLine) :
  line_ok ps item = true <-> valid_line ps item.
Proof.
  unfold line_ok, valid_line. split.
  - destruct (find_product ps (cp_id (product item))) as [p |];
      [| discriminate].
    intros H. exists p. split; [reflexivity |].
    apply negb_true_iff in H. rewrite Z.gtb_ltb in H. now apply Z.ltb_ge.
  - intros [p [Hp Hq]]. rewrite Hp. apply negb_true_iff.
    rewrite Z.gtb_ltb. now apply Z.ltb_ge.
Qed.

Lemma cart_loop_offending (ps : list Product) (items : list CartLine) :
  (forall item, In item items -> ~ valid_line ps item) ->
  forall index acc, cart_loop ps items index acc = acc.
Proof.
  induction items as [| item rest IH]; intros H index acc; simpl;
    [reflexivity |].
  assert (Hitem : line_ok ps item = false).
  { destruct (line_ok ps item) eqn:E; [| reflexivity].
    exfalso. apply (H item (or_introl eq_refl)). now apply line_ok_valid. }
  unfold line_ok in Hitem.
  destruct (find_product ps (cp_id (product item))) as [p |].
  - apply negb_false_iff in Hitem. rewrite Hitem. apply IH.
    intros l Hl. apply H. now right.
  - apply IH. intros l Hl. apply H. now right.
Qed.

(** X6. When every line of a non-empty cart offends (unknown product or
    quantity above the stock), the handler passes the error of each line to
    [next], and still inserts an order for the buyer, charged 2 (the shipping
    fee alone); the insert of no item rows is then rejected by the database,
    so nothing else is written and no stock is changed. *)
Theorem all_lines_offending_still_inserts_an_order
  (JSON_parse : string -> error + parsed) (req : PlaceOrderRequest)
  (items : list CartLine) (st : Store) :
  shipping_complete req = true ->
  normalized_cart JSON_parse (orderedItems req) = inr (ParsedArray items) ->
  items <> [] ->
  (forall item, In item items -> ~ valid_line (products st) item) ->
  handle (placeNewOrder JSON_parse req) st
  = (mkStore (products st)
       (orders st
          ++ [mkOrder (next_uuid st) (user_id req) 2 (18 # 100) 2 "Processing"
                (Some (db_now st))])
       (order_items st) (shipping_info st) (payments st) (S (next_uuid st))
       (db_now st),
     map Next (cart_errors (products st) items)
       ++ [Next (DatabaseError "syntax error at or near RETURNING")])
  /\ List.length (cart_errors (products st) items) = List.length items.
Proof.
  intros Hs Hc Hne Hoff.
  rewrite (handle_placeNewOrder_items JSON_parse req items st Hs Hc Hne).
  rewrite run_place_items.
  unfold loop_placeholders, store_with_order, inserted_order, passing_total.
  rewrite (cart_loop_offending _ _ Hoff). simpl. split; [reflexivity |].
  clear Hc Hne. induction items as [| item rest IH]; simpl; [reflexivity |].
  assert (Hitem : line_error (products st) item <> None).
  { intros E. apply (Hoff item (or_introl eq_refl)).
    unfold line_error in E. unfold valid_line.
    destruct (find_product (products st) (cp_id (product item))) as [p |];
      [| discriminate E].
    exists p. split; [reflexivity |].
    destruct (quantity item >? p_stock p) eqn:G; [discriminate E |].
    rewrite Z.gtb_ltb in G. now apply Z.ltb_ge. }
  destruct (line_error (products st) item) as [e |]; [| now elim Hitem].
  simpl. f_equal. apply IH. intros l Hl. apply Hoff. now right.
Qed.

Lemma all_lines_offending_still_inserts_an_order_witness :
  handle (placeNewOrder JSON_parse_rejects
            (request_of_ann (ItemsArray [cart_line 2 4; cart_line 3 1]))) shop
  = (mkStore (products shop)
       (orders shop
          ++ [mkOrder (next_uuid shop) 9 2 (18 # 100) 2 "Processing"
                (Some (db_now shop))])
       (order_items shop) (shipping_info shop) (payments shop)
       (S (next_uuid shop)) (db_now shop),
     map Next
       (cart_errors (products shop) [cart_line 2 4; cart_line 3 1])
       ++ [Next (DatabaseError "syntax error at or near RETURNING")])
  /\ List.length (cart_errors (products shop) [cart_line 2 4; cart_line 3 1])
     = 2%nat.
Proof.
  apply (all_lines_offending_still_inserts_an_order JSON_parse_rejects
           (request_of_ann (ItemsArray [cart_line 2 4; cart_line 3 1]))
           [cart_line 2 4; cart_line 3 1] shop).
  - reflexivity.
  - reflexivity.
  - discriminate.
  - intros item [<- | [<- | []]] [p [Hp Hq]].
    + inversion Hp; subst. simpl in Hq. lia.
    + discriminate Hp.
Defined.

Lemma cart_loop_app (ps : list Product) (l1 l2 : list CartLine) :
  forall index acc,
    cart_loop ps (l1 ++ l2) index acc
    = cart_loop ps l2 (index + List.length l1) (cart_loop ps l1 index acc).
Proof.
  induction l1 as [| item rest IH]; intros index acc; simpl.
  - now rewrite Nat.add_0_r.
  - rewrite IH. f_equal. lia.
Qed.

Lemma cart_loop_values_length (ps : list Product) (items : list CartLine) :
  forall index acc,
    List.length (acc_values (cart_loop ps items index acc))
    = (List.length (acc_values acc)
       + 6 * List.length (filter (line_ok ps) items))%nat.
Proof.
  induction items as [| item rest IH]; intros index acc; simpl; [lia |].
  rewrite IH. unfold line_ok.
  destruct (find_product ps (cp_id (product item))) as [p |]; simpl; [| lia].
  destruct (quantity item >? p_stock p); simpl; [lia |].
  rewrite length_app. simpl. lia.
Qed.

Lemma filter_length_lt {A : Type} (f : A -> bool) (l : list A) (a : A) :
  In a l -> f a = false -> (List.length (filter f l) < List.length l)%nat.
Proof.
  induction l as [| b l IH]; simpl; intros Hin Ha; [destruct Hin |].
  pose proof (filter_length_le f l) as Hle.
  destruct Hin as [-> | Hin].
  - rewrite Ha. lia.
  - specialize (IH Hin Ha). destruct (f b); simpl; lia.
Qed.

Lemma fill_order_id_length (orderId : uuid) (values : list sqlval) :
  forall k, List.length (fill_order_id orderId k values) = List.length values.
Proof.
  induction values as [| v rest IH]; intros k; simpl; [reflexivity |].
  destruct k; simpl; now rewrite IH.
Qed.

Lemma item_rows_out_of_range (values : list sqlval) (placeholders : list nat)
  (offset : nat) :
  In offset placeholders -> (List.length values <= offset)%nat ->
  forall id, item_rows values placeholders id = None.
Proof.
  intros Hin Hlen.
  induction placeholders as [| o rest IH]; intros id; [destruct Hin |].
  simpl. destruct Hin as [-> | Hin].
  - unfold item_row.
    assert (H : nth_error values offset = None) by now apply nth_error_None.
    now rewrite H.
  - rewrite (IH Hin (S id)). now destruct (item_row values o id).
Qed.

(** X7. When the last line of the cart is valid and an earlier line offends,
    the placeholders of the bulk insert, numbered by cart index, name
    parameters that were never pushed: the database rejects the insert of the
    items.  The errors of the offending lines and the database error are
    passed to [next]; the order row inserted before stays, without any item,
    shipping record or payment, and no stock is changed. *)
Theorem valid_line_after_offending_line_rejects_items
  (JSON_parse : string -> error + parsed) (req : PlaceOrderRequest)
  (pre : list CartLine) (last : CartLine) (st : Store) :
  shipping_complete req = true ->
  normalized_cart JSON_parse (orderedItems req)
  = inr (ParsedArray (pre ++ [last])) ->
  valid_line (products st) last ->
  (exists l, In l pre /\ ~ valid_line (products st) l) ->
  exists order,
    handle (placeNewOrder JSON_parse req) st
    = (mkStore (products st) (orders st ++ [order]) (order_items st)
         (shipping_info st) (payments st) (S (next_uuid st)) (db_now st),
       map Next (cart_errors (products st) (pre ++ [last]))
         ++ [Next (DatabaseError
                     "bind message does not supply the parameters of the statement")])
    /\ o_id order = next_uuid st
    /\ o_buyer_id order = user_id req.
Proof.
  intros Hs Hc Hlast [l [Hl Hbad]].
  rewrite (handle_placeNewOrder_items JSON_parse req _ st Hs Hc)
    by (destruct pre; discriminate).
  rewrite run_place_items.
  assert (Hph : loop_placeholders (products st) (pre ++ [last])
                = loop_placeholders (products st) pre
                    ++ [(List.length pre * 6)%nat]).
  { unfold loop_placeholders. rewrite cart_loop_app. simpl.
    destruct Hlast as [p [Hp Hq]]. rewrite Hp.
    assert (Hgt : (quantity last >? p_stock p) = false).
    { rewrite Z.gtb_ltb. now apply Z.ltb_ge. }
    now rewrite Hgt. }
  assert (Hlen : (List.length
                    (fill_order_id (next_uuid st) 0
                       (loop_values (products st) (pre ++ [last])))
                  <= List.length pre * 6)%nat).
  { rewrite fill_order_id_length. unfold loop_values.
    rewrite cart_loop_values_length. simpl.
    rewrite filter_app, length_app. simpl.
    assert (Hlt : (List.length (filter (line_ok (products st)) pre)
                   < List.length pre)%nat).
    { apply (filter_length_lt _ _ l Hl).
      destruct (line_ok (products st) l) eqn:E; [| reflexivity].
      exfalso. apply Hbad. now apply line_ok_valid. }
    apply line_ok_valid in Hlast. rewrite Hlast. simpl. lia. }
  rewrite (item_rows_out_of_range _ _ (List.length pre * 6)%nat);
    [| rewrite Hph; apply in_or_app; right; now left | exact Hlen].
  rewrite Hph.
  destruct (loop_placeholders (products st) pre) as [| o rest];
    exists (inserted_order req (pre ++ [last]) st); repeat split.
Qed.

Lemma valid_line_after_offending_line_rejects_items_witness :
  exists order,
    handle (placeNewOrder JSON_parse_rejects
              (request_of_ann (ItemsArray ([cart_line 2 4] ++ [cart_line 1 1]))))
      shop
    = (mkStore (products shop) (orders shop ++ [order]) (order_items shop)
         (shipping_info shop) (payments shop) (S (next_uuid shop))
         (db_now shop),
       map Next
         (cart_errors (products shop) ([cart_line 2 4] ++ [cart_line 1 1]))
         ++ [Next (DatabaseError
                     "bind message does not supply the parameters of the statement")])
    /\ o_id order = next_uuid shop
    /\ o_buyer_id order = 9%nat.
Proof.
  apply (valid_line_after_offending_line_rejects_items JSON_parse_rejects
           (request_of_ann (ItemsArray ([cart_line 2 4] ++ [cart_line 1 1])))
           [cart_line 2 4] (cart_line 1 1) shop).
  - reflexivity.
  - reflexivity.
  - exists P1. split; [reflexivity | simpl; lia].
  - exists (cart_line 2 4). split; [now left |].
    intros [p [Hp Hq]]. inversion Hp; subst. simpl in Hq. lia.
Defined.

(** ** References under every handler *)

Lemma fill_order_id_at (orderId : uuid) (values : list sqlval) :
  forall k j v,
    nth_error (fill_order_id orderId k values) (k + 6 * j) = Some v ->
    v = SqlUuid orderId.
Proof.
  induction values as [| v0 rest IH]; intros k j v H.
  - destruct (k + 6 * j)%nat; discriminate H.
  - destruct k as [| k']; simpl in H.
    + destruct j as [| j']; simpl in H; [now inversion H |].
      apply (IH 5%nat j' v).
      replace (5 + 6 * j')%nat with (j' + S (j' + S (j' + S (j' + S (j' + S (j' + 0))))))%nat
        by lia.
      exact H.
    + now apply (IH k' j v).
Qed.

Lemma cart_loop_placeholders (ps : list Product) (items : list CartLine) :
  forall index acc,
    Forall (fun offset => exists j, offset = (6 * j)%nat) (acc_placeholders acc) ->
    Forall (fun offset => exists j, offset = (6 * j)%nat)
      (acc_placeholders (cart_loop ps items index acc)).
Proof.
  induction items as [| item rest IH]; intros index acc H; simpl; [exact H |].
  apply IH.
  destruct (find_product ps (cp_id (product item))) as [p |]; [| exact H].
  destruct (quantity item >? p_stock p); [exact H |].
  simpl. apply Forall_app. split; [exact H |].
  constructor; [| constructor]. exists index. lia.
Qed.

Lemma item_rows_order_id (orderId : uuid) (values : list sqlval)
  (placeholders : list nat) :
  Forall (fun offset => exists j, offset = (6 * j)%nat) placeholders ->
  forall id rows,
    item_rows (fill_order_id orderId 0 values) placeholders id = Some rows ->
    forall oi, In oi rows -> oi_order_id oi = orderId.
Proof.
  induction 1 as [| offset rest [j Hj] Hrest IH]; intros id rows Hrows oi Hin;
    simpl in Hrows.
  - inversion Hrows; subst. destruct Hin.
  - destruct (item_row (fill_order_id orderId 0 values) offset id)
      as [row |] eqn:Hrow; [| discriminate Hrows].
    destruct (item_rows (fill_order_id orderId 0 values) rest (S id))
      as [rows' |] eqn:Hrest'; [| discriminate Hrows].
    inversion Hrows; subst. destruct Hin as [<- | Hin].
    + unfold item_row in Hrow.
      destruct (nth_error (fill_order_id orderId 0 values) (6 * j))
        as [v |] eqn:Hv; [| discriminate Hrow].
      apply (fill_order_id_at orderId values 0 j v) in Hv. subst v.
      repeat match type of Hrow with
             | match ?x with _ => _ end = _ =>
                 destruct x; try discriminate Hrow
             end.
      now inversion Hrow.
    + now apply (IH (S id) rows' Hrest').
Qed.

Lemma loop_rows_order_id (ps : list Product) (items : list CartLine)
  (orderId id : uuid) (rows : list OrderItem) :
  item_rows (fill_order_id orderId 0 (loop_values ps items))
    (loop_placeholders ps items) id = Some rows ->
  forall oi, In oi rows -> oi_order_id oi = orderId.
Proof.
  apply item_rows_order_id. unfold loop_placeholders.
  apply cart_loop_placeholders. constructor.
Qed.

(** The store a placement leaves is the store as it was, or that store with
    the order row, or that store with all the rows of the order. *)
Lemma placeNewOrder_store_cases JSON_parse (req : PlaceOrderRequest)
  (st : Store) :
  fst (handle (placeNewOrder JSON_parse req) st) = st
  \/ exists items,
       fst (handle (placeNewOrder JSON_parse req) st)
       = store_with_order req items st
       \/ exists rows,
            item_rows
              (fill_order_id (next_uuid st) 0 (loop_values (products st) items))
              (loop_placeholders (products st) items) (S (next_uuid st))
            = Some rows
            /\ fst (handle (placeNewOrder JSON_parse req) st)
               = store_with_all req items rows st.
Proof.
  destruct (shipping_complete req) eqn:Hs;
    [| left; now rewrite shipping_complete_false].
  destruct (normalized_cart JSON_parse (orderedItems req)) as [e | v] eqn:Hc;
    [left; now rewrite (parse_exception_passed _ _ _ _ Hs Hc) |].
  destruct v as [[| item rest] | | []].
  - left. now rewrite (no_items_rejected _ _ _ _ Hs Hc eq_refl).
  - right. exists (item :: rest).
    rewrite (handle_placeNewOrder_items _ _ _ st Hs Hc) by discriminate.
    rewrite run_place_items.
    destruct (loop_placeholders (products st) (item :: rest)) as [| o l] eqn:Hp;
      [now left |].
    destruct (item_rows
                (fill_order_id (next_uuid st) 0
                   (loop_values (products st) (item :: rest)))
                (o :: l) (S (next_uuid st))) as [rows |] eqn:Hr;
      [| now left].
    right. exists rows. split; reflexivity.
  - left. now rewrite (no_items_rejected _ _ _ _ Hs Hc eq_refl).
  - left. now rewrite (no_items_rejected _ _ _ _ Hs Hc eq_refl).
  - left. now rewrite (non_array_throws _ _ _ Hs Hc).
Qed.

Lemma deleteOrder_store (orderId : uuid) (st : Store) :
  fst (handle (deleteOrder orderId) st)
  = set_orders st
      (filter (fun o => negb (Nat.eqb (o_id o) orderId)) (orders st)).
Proof.
  unfold handle, deleteOrder.
  rewrite run_catchAsyncErrors, run_bind, run_await. simpl.
  now destruct (filter (fun o => Nat.eqb (o_id o) orderId) (orders st)).
Qed.

Lemma updateOrderStatus_store (status : option string) (orderId : uuid)
  (st : Store) :
  fst (handle (updateOrderStatus status orderId) st) = st
  \/ fst (handle (updateOrderStatus status orderId) st)
     = set_orders st
         (map (fun o => if Nat.eqb (o_id o) orderId
                        then set_order_status (text status) o else o)
            (orders st)).
Proof.
  unfold handle, updateOrderStatus. rewrite run_catchAsyncErrors.
  destruct (falsy status); [now left |].
  rewrite run_bind, run_await. simpl.
  destruct (filter (fun o => Nat.eqb (o_id o) orderId) (orders st));
    [now left | now right].
Qed.

(** X8. No handler ever leaves a row that refers to an order identifier the
    database has not handed out: when every order, item, shipping and
    payment row refers to an identifier below the counter, the same holds
    after [placeNewOrder] on any request (failing ones included), after
    [updateOrderStatus], after [deleteOrder] and after [fetchSingleOrder]. *)
Theorem references_kept_by_every_handler
  (JSON_parse : string -> error + parsed) (req : PlaceOrderRequest)
  (status : option string) (orderId : uuid) (st : Store) :
  references_ok st ->
  references_ok (fst (handle (placeNewOrder JSON_parse req) st))
  /\ references_ok (fst (handle (updateOrderStatus status orderId) st))
  /\ references_ok (fst (handle (deleteOrder orderId) st))
  /\ references_ok (fst (handle (fetchSingleOrder orderId) st)).
Proof.
  intros Href. pose proof Href as [Ho [Hoi [Hsh Hpay]]].
  split; [| split; [| split]].
  - destruct (placeNewOrder_store_cases JSON_parse req st)
      as [-> | [items [-> | [rows [Hrows ->]]]]]; [exact Href | |].
    + unfold references_ok, store_with_order. simpl.
      split; [| split; [| split]].
      * intros o Hin. apply in_app_iff in Hin.
        destruct Hin as [Hin | [<- | []]];
          [specialize (Ho o Hin); lia | simpl; lia].
      * intros oi Hin. specialize (Hoi oi Hin). lia.
      * intros s Hin. specialize (Hsh s Hin). lia.
      * intros pay Hin. specialize (Hpay pay Hin). lia.
    + unfold references_ok, store_with_all. simpl.
      split; [| split; [| split]].
      * intros o Hin. apply in_app_iff in Hin.
        destruct Hin as [Hin | [<- | []]];
          [specialize (Ho o Hin); lia | simpl; lia].
      * intros oi Hin. apply in_app_iff in Hin. destruct Hin as [Hin | Hin];
          [specialize (Hoi oi Hin); lia |].
        rewrite (loop_rows_order_id _ _ _ _ _ Hrows oi Hin). lia.
      * intros s Hin. apply in_app_iff in Hin.
        destruct Hin as [Hin | [<- | []]];
          [specialize (Hsh s Hin); lia | simpl; lia].
      * intros pay Hin. apply in_app_iff in Hin.
        destruct Hin as [Hin | [<- | []]];
          [specialize (Hpay pay Hin); lia | simpl; lia].
  - destruct (updateOrderStatus_store status orderId st) as [-> | ->];
      [exact Href |].
    unfold references_ok. simpl. split; [| now repeat split].
    intros o Hin. apply in_map_iff in Hin. destruct Hin as [o0 [<- Hin]].
    specialize (Ho o0 Hin). now destruct (Nat.eqb (o_id o0) orderId).
  - rewrite deleteOrder_store. unfold references_ok. simpl.
    split; [| now repeat split].
    intros o Hin. apply filter_In in Hin. now apply Ho.
  - unfold handle, fetchSingleOrder.
    rewrite run_catchAsyncErrors, run_bind, run_await. exact Href.
Qed.

Lemma references_kept_by_every_handler_witness :
  references_ok
    (fst (handle (placeNewOrder JSON_parse_rejects
                    (request_of_ann (ItemsArray [cart_line 2 4; cart_line 1 1])))
            shop))
  /\ references_ok (fst (handle (updateOrderStatus (Some "Shipped") 100) shop))
  /\ references_ok (fst (handle (deleteOrder 100) shop))
  /\ references_ok (fst (handle (fetchSingleOrder 100) shop)).
Proof.
  exact (references_kept_by_every_handler JSON_parse_rejects
           (request_of_ann (ItemsArray [cart_line 2 4; cart_line 1 1]))
           (Some "Shipped") 100 shop references_ok_shop).
Defined.

(** ** Reading orders *)

Lemma filter_unique_id (os : list Order) (o : Order) :
  NoDup (map o_id os) -> In o os ->
  filter (fun x => Nat.eqb (o_id x) (o_id o)) os = [o].
Proof.
  induction os as [| x os IH]; simpl; intros Hnd Hin; [destruct Hin |].
  inversion Hnd as [| y ys Hnotin Hnd']; subst.
  destruct Hin as [-> | Hin].
  - rewrite Nat.eqb_refl. f_equal.
    assert (H : forall z, In z os -> Nat.eqb (o_id z) (o_id o) = false).
    { intros z Hz. apply Nat.eqb_neq. intros E. apply Hnotin. rewrite <- E.
      now apply in_map. }
    clear - H. induction os as [| z os IH]; simpl; [reflexivity |].
    rewrite (H z (or_introl eq_refl)). apply IH. intros w Hw. apply H.
    now right.
  - destruct (Nat.eqb (o_id x) (o_id o)) eqn:E; [| now apply IH].
    exfalso. apply Nat.eqb_eq in E. apply Hnotin. rewrite E. now apply in_map.
Qed.

(** X9. For an order of a store with unique order identifiers,
    [fetchSingleOrder] answers 200 with that very order, the list of all the
    item rows of the order (the empty list when it has none) and the fields
    of its shipping record (all null when it has none); it passes nothing to
    [next] and leaves the store as it was. *)
Theorem fetchSingleOrder_existing_order (o : Order) (st : Store) :
  NoDup (map o_id (orders st)) ->
  In o (orders st) ->
  handle (fetchSingleOrder (o_id o)) st
  = (st,
     [Json 200
        (OrderFetched "Order fetched."
           (Some (mkJoinedOrder o
                    (map item_json
                       (filter (fun oi => Nat.eqb (oi_order_id oi) (o_id o))
                          (order_items st)))
                    (shipping_json
                       (hd_error
                          (filter (fun s => Nat.eqb (s_order_id s) (o_id o))
                             (shipping_info st)))))))]).
Proof.
  intros Hnd Hin. unfold handle, fetchSingleOrder.
  rewrite run_catchAsyncErrors, run_bind, run_await.
  cbn [exec fst snd]. rewrite (filter_unique_id _ _ Hnd Hin).
  cbn [flat_map app]. unfold joined_rows.
  destruct (filter (fun s => Nat.eqb (s_order_id s) (o_id o)) (shipping_info st))
    as [| s ss]; reflexivity.
Qed.

Lemma fetchSingleOrder_existing_order_witness :
  handle (fetchSingleOrder (o_id order100)) shop_after_order
  = (shop_after_order,
     [Json 200
        (OrderFetched "Order fetched."
           (Some (mkJoinedOrder order100
                    [mkOrderItemJson 101 100 1 2 (30 # 1)]
                    (mkShippingJson (Some "Ann") (Some "Chuy") (Some "Bishkek")
                       (Some "KG") (Some "Main st. 1") (Some "720000")
                       (Some "0555")))))]).
Proof.
  apply (fetchSingleOrder_existing_order order100 shop_after_order).
  - simpl. constructor; [intros [] | constructor].
  - now left.
Defined.

Lemma in_listed_rows (st : Store) (o : Order) (r : ListedOrder) :
  In r (listed_rows st o) ->
  l_order r = o
  /\ l_order_items r
     = map listed_item_json
         (filter (fun oi => Nat.eqb (oi_order_id oi) (o_id o)) (order_items st)).
Proof.
  unfold listed_rows.
  destruct (filter (fun s => Nat.eqb (s_order_id s) (o_id o)) (shipping_info st))
    as [| s ss].
  - intros [<- | []]. split; reflexivity.
  - intros Hin. apply in_map_iff in Hin. destruct Hin as [s0 [<- _]].
    split; reflexivity.
Qed.

Lemma listed_rows_nonempty (st : Store) (o : Order) :
  exists r, In r (listed_rows st o).
Proof.
  unfold listed_rows.
  destruct (filter (fun s => Nat.eqb (s_order_id s) (o_id o)) (shipping_info st))
    as [| s ss]; eexists; now left.
Qed.

Lemma rearranges_newest_first : rearranges newest_first.
Proof.
  intros st rows. unfold newest_first. apply Permutation_sym, Permutation_rev.
Defined.

Lemma row_order_sound row_order (st : Store) (rows : list ListedOrder)
  (r : ListedOrder) :
  rearranges row_order -> In r (row_order st rows) -> In r rows.
Proof. intros H. apply Permutation_in, H. Qed.

Lemma row_order_complete row_order (st : Store) (rows : list ListedOrder)
  (r : ListedOrder) :
  rearranges row_order -> In r rows -> In r (row_order st rows).
Proof. intros H. apply Permutation_in, Permutation_sym, H. Qed.

Lemma Permutation_filter {A : Type} (f : A -> bool) (l l' : list A) :
  Permutation l l' -> Permutation (filter f l) (filter f l').
Proof.
  induction 1 as [| x l l' _ IH | x y l | l l' l'' _ IH1 _ IH2]; simpl.
  - constructor.
  - destruct (f x); [now constructor | exact IH].
  - destruct (f x), (f y); try apply Permutation_refl. apply perm_swap.
  - now apply Permutation_trans with (filter f l').
Qed.

(** X10. [fetchMyOrders] answers 200 with a list in which every entry is an
    order of the store that belongs to the buyer and has a paid timestamp,
    together with all the item rows of that order; every such order of the
    store is listed; an order of another buyer or without paid timestamp
    never is.  The store is unchanged and nothing is passed to [next].  This
    holds in whatever order the database gives the rows. *)
Theorem fetchMyOrders_lists_paid_orders_of_buyer
  (row_order : Store -> list ListedOrder -> list ListedOrder)
  (user_id : uuid) (st : Store) :
  rearranges row_order ->
  exists rows,
    fetchMyOrders row_order user_id st
    = (st, [ListJson 200 (MyOrdersFetched "All your orders are fetched." rows)])
    /\ (forall r, In r rows ->
        In (l_order r) (orders st)
        /\ o_buyer_id (l_order r) = user_id
        /\ o_paid_at (l_order r) <> None
        /\ l_order_items r
           = map listed_item_json
               (filter (fun oi => Nat.eqb (oi_order_id oi) (o_id (l_order r)))
                  (order_items st)))
    /\ (forall o, In o (orders st) -> o_buyer_id o = user_id ->
        o_paid_at o <> None -> exists r, In r rows /\ l_order r = o).
Proof.
  intros Horder. eexists. split; [reflexivity |]. split.
  - intros r Hin. apply row_order_sound in Hin; [| exact Horder].
    apply in_flat_map in Hin. destruct Hin as [o [Ho Hr]].
    apply filter_In in Ho. destruct Ho as [Ho Hf].
    apply andb_prop in Hf. destruct Hf as [Hb Hp].
    apply in_listed_rows in Hr. destruct Hr as [-> Hitems].
    split; [exact Ho |]. split; [now apply Nat.eqb_eq |].
    split; [| exact Hitems].
    unfold paid in Hp. destruct (o_paid_at o); [discriminate | discriminate Hp].
  - intros o Ho Hb Hp. destruct (listed_rows_nonempty st o) as [r Hr].
    exists r. split; [| now apply in_listed_rows in Hr].
    apply row_order_complete; [exact Horder |].
    apply in_flat_map. exists o. split; [| exact Hr].
    apply filter_In. split; [exact Ho |].
    apply andb_true_intro. split; [now apply Nat.eqb_eq |].
    unfold paid. destruct (o_paid_at o); [reflexivity | now elim Hp].
Qed.

Lemma fetchMyOrders_lists_paid_orders_of_buyer_witness :
  exists rows,
    fetchMyOrders newest_first 9 shop_after_order
    = (shop_after_order,
       [ListJson 200 (MyOrdersFetched "All your orders are fetched." rows)])
    /\ (exists r, In r rows /\ l_order r = order100)
    /\ (forall r, In r rows -> o_buyer_id (l_order r) = 9%nat).
Proof.
  destruct (fetchMyOrders_lists_paid_orders_of_buyer newest_first 9
              shop_after_order rearranges_newest_first)
    as [rows [Hrun [Hsound Hcomplete]]].
  exists rows. split; [exact Hrun |]. split.
  - apply Hcomplete; [now left | reflexivity | discriminate].
  - intros r Hr. now apply Hsound.
Defined.

Lemma filter_flat_map_listed (st : Store) (g : Order -> bool) (os : list Order) :
  filter (fun r => g (l_order r)) (flat_map (listed_rows st) os)
  = flat_map (listed_rows st) (filter g os).
Proof.
  induction os as [| o os IH]; simpl; [reflexivity |].
  rewrite filter_app, IH.
  assert (H : filter (fun r => g (l_order r)) (listed_rows st o)
              = if g o then listed_rows st o else []).
  { assert (Hall : forall r, In r (listed_rows st o) -> l_order r = o)
      by (intros r Hr; now apply in_listed_rows in Hr).
    induction (listed_rows st o) as [| r rs IHr]; simpl;
      [now destruct (g o) |].
    rewrite (Hall r (or_introl eq_refl)).
    assert (Hrs : forall r', In r' rs -> l_order r' = o)
      by (intros r' Hr'; apply Hall; now right).
    specialize (IHr Hrs). destruct (g o); [now rewrite IHr | exact IHr]. }
  rewrite H. now destruct (g o).
Qed.

Lemma filter_buyer_paid (user_id : uuid) (os : list Order) :
  filter (fun o => Nat.eqb (o_buyer_id o) user_id) (filter paid os)
  = filter (fun o => Nat.eqb (o_buyer_id o) user_id && paid o) os.
Proof.
  induction os as [| o os IH]; simpl; [reflexivity |].
  destruct (paid o); simpl.
  - rewrite andb_true_r.
    destruct (Nat.eqb (o_buyer_id o) user_id); [now rewrite IH | exact IH].
  - rewrite andb_false_r. exact IH.
Qed.

(** X11. [fetchAllOrders] lists every order that has a paid timestamp and no
    other, whoever the buyer; what [fetchMyOrders] lists for a buyer is what
    [fetchAllOrders] lists, restricted to the orders of that buyer: the same
    entries, each as often, in whatever order each of the two statements
    gives its rows. *)
Theorem fetchMyOrders_is_fetchAllOrders_of_buyer
  (row_order : Store -> list ListedOrder -> list ListedOrder)
  (user_id : uuid) (st : Store) :
  rearranges row_order ->
  (exists rows,
     fetchAllOrders row_order st
     = (st, [ListJson 200 (AllOrdersFetched "All orders fetched." rows)])
     /\ (forall r, In r rows ->
         In (l_order r) (orders st) /\ o_paid_at (l_order r) <> None)
     /\ (forall o, In o (orders st) -> o_paid_at o <> None ->
         exists r, In r rows /\ l_order r = o))
  /\ Permutation
       (listed_orders (snd (fetchMyOrders row_order user_id st)))
       (filter (fun r => Nat.eqb (o_buyer_id (l_order r)) user_id)
          (listed_orders (snd (fetchAllOrders row_order st)))).
Proof.
  intros Horder. split.
  - eexists. split; [reflexivity |]. split.
    + intros r Hin. apply row_order_sound in Hin; [| exact Horder].
      apply in_flat_map in Hin. destruct Hin as [o [Ho Hr]].
      apply filter_In in Ho. destruct Ho as [Ho Hp].
      apply in_listed_rows in Hr. destruct Hr as [-> _].
      split; [exact Ho |].
      unfold paid in Hp. destruct (o_paid_at o); [discriminate | discriminate Hp].
    + intros o Ho Hp. destruct (listed_rows_nonempty st o) as [r Hr].
      exists r. split; [| now apply in_listed_rows in Hr].
      apply row_order_complete; [exact Horder |].
      apply in_flat_map. exists o. split; [| exact Hr].
      apply filter_In. split; [exact Ho |].
      unfold paid. destruct (o_paid_at o); [reflexivity | now elim Hp].
  - unfold fetchMyOrders, fetchAllOrders. cbn [exec_list snd listed_orders].
    eapply Permutation_trans; [apply Horder |].
    eapply Permutation_trans;
      [| apply Permutation_filter, Permutation_sym, Horder].
    rewrite (filter_flat_map_listed st
               (fun o => Nat.eqb (o_buyer_id o) user_id)).
    rewrite filter_buyer_paid. apply Permutation_refl.
Qed.

Lemma fetchMyOrders_is_fetchAllOrders_of_buyer_witness :
  (exists rows,
     fetchAllOrders newest_first shop_after_order
     = (shop_after_order,
        [ListJson 200 (AllOrdersFetched "All orders fetched." rows)])
     /\ exists r, In r rows /\ l_order r = order100)
  /\ Permutation
       (listed_orders (snd (fetchMyOrders newest_first 9 shop_after_order)))
       (filter (fun r => Nat.eqb (o_buyer_id (l_order r)) 9)
          (listed_orders (snd (fetchAllOrders newest_first shop_after_order)))).
Proof.
  destruct (fetchMyOrders_is_fetchAllOrders_of_buyer newest_first 9
              shop_after_order rearranges_newest_first)
    as [[rows [Hrun [Hsound Hcomplete]]] Hmine].
  split; [| exact Hmine].
  exists rows. split; [exact Hrun |].
  apply Hcomplete; [now left | discriminate].
Defined.

(** ** A placement in the listings *)

Lemma filter_none {A : Type} (f : A -> bool) (l : list A) :
  (forall x, In x l -> f x = false) -> filter f l = [].
Proof.
  induction l as [| a l IH]; simpl; intros H; [reflexivity |].
  rewrite (H a (or_introl eq_refl)). apply IH. intros x Hx. apply H. now right.
Qed.

Lemma flat_map_ext_in {A B : Type} (f g : A -> list B) (l : list A) :
  (forall a, In a l -> f a = g a) -> flat_map f l = flat_map g l.
Proof.
  induction l as [| a l IH]; simpl; intros H; [reflexivity |].
  rewrite (H a (or_introl eq_refl)). f_equal. apply IH.
  intros x Hx. apply H. now right.
Qed.

Lemma listed_rows_placed_old (req : PlaceOrderRequest) (items : list CartLine)
  (st : Store) (o : Order) :
  references_ok st -> In o (orders st) ->
  listed_rows (placed_store req items st) o = listed_rows st o.
Proof.
  intros [Ho _] Hin. specialize (Ho o Hin).
  unfold listed_rows, placed_store. cbn [order_items shipping_info].
  rewrite !filter_app.
  rewrite (filter_none (fun oi => Nat.eqb (oi_order_id oi) (o_id o))
             (placed_items _ _ _ _)).
  2: { intros oi Hoi. apply placed_items_order_id in Hoi. rewrite Hoi.
       apply Nat.eqb_neq. lia. }
  rewrite (filter_none (fun s => Nat.eqb (s_order_id s) (o_id o)) [_]).
  2: { intros s [<- | []]. simpl. apply Nat.eqb_neq. lia. }
  now rewrite !app_nil_r.
Qed.

(** X12. After a placement of valid lines, the listing of the buyer of the
    request has the entries it had, each as often, and one more, the new
    order with the lines submitted and the shipping fields submitted; the
    listing of every other buyer has the entries it had.  Where the new entry
    stands, and in which order the others come, is the choice of the
    database. *)
Theorem placement_is_listed_for_its_buyer_only
  (row_order : Store -> list ListedOrder -> list ListedOrder)
  (JSON_parse : string -> error + parsed) (req : PlaceOrderRequest)
  (items : list CartLine) (st : Store) :
  rearranges row_order ->
  references_ok st ->
  shipping_complete req = true ->
  normalized_cart JSON_parse (orderedItems req) = inr (ParsedArray items) ->
  items <> [] ->
  (forall item, In item items -> valid_line (products st) item) ->
  exists st' order total_price row,
    handle (placeNewOrder JSON_parse req) st
    = (st', [Json 200 (OrderPlaced "Order placed successfully." order
                         total_price)])
    /\ Permutation
         (listed_orders (snd (fetchMyOrders row_order (user_id req) st')))
         (row :: listed_orders (snd (fetchMyOrders row_order (user_id req) st)))
    /\ l_order row = order
    /\ map (fun j => (l_product_id j, l_quantity j, l_price j))
         (l_order_items row)
       = map (fun item =>
                (cp_id (product item), quantity item,
                 unit_price (products st) item))
           items
    /\ l_shipping_info row
       = mkShippingJson (full_name req) (state req) (city req) (country req)
           (address req) (pincode req) (phone req)
    /\ forall other,
         other <> user_id req ->
         Permutation
           (listed_orders (snd (fetchMyOrders row_order other st')))
           (listed_orders (snd (fetchMyOrders row_order other st))).
Proof.
  intros Horder Href Hs Hc Hne Hvalid.
  pose proof Href as [Ho [Hoi [Hsh Hpay]]].
  rewrite (handle_placeNewOrder_ok JSON_parse req items st Hs Hc Hne
             (valid_lines_ok _ _ Hvalid)).
  assert (Hold : forall u,
            flat_map (listed_rows (placed_store req items st))
              (filter (fun o => Nat.eqb (o_buyer_id o) u && paid o) (orders st))
            = flat_map (listed_rows st)
                (filter (fun o => Nat.eqb (o_buyer_id o) u && paid o)
                   (orders st))).
  { intros u. apply flat_map_ext_in. intros o Hin. apply filter_In in Hin.
    now apply listed_rows_placed_old. }
  assert (Hnew : listed_rows (placed_store req items st)
                   (placed_order req items st)
                 = [mkListedOrder (placed_order req items st)
                      (map listed_item_json
                         (placed_items (next_uuid st) (products st) items
                            (S (next_uuid st))))
                      (mkShippingJson (full_name req) (state req) (city req)
                         (country req) (address req) (pincode req)
                         (phone req))]).
  { unfold listed_rows, placed_store, placed_order.
    cbn [order_items shipping_info o_id].
    rewrite (filter_app_fresh
               (fun oi => Nat.eqb (oi_order_id oi) (next_uuid st))).
    2: { intros oi Hin. apply Nat.eqb_neq. specialize (Hoi oi Hin). lia. }
    2: { intros oi Hin. apply placed_items_order_id in Hin. rewrite Hin.
         apply Nat.eqb_refl. }
    rewrite (filter_app_fresh
               (fun s => Nat.eqb (s_order_id s) (next_uuid st))).
    2: { intros s Hin. apply Nat.eqb_neq. specialize (Hsh s Hin). lia. }
    2: { intros s [<- | []]. apply Nat.eqb_refl. }
    cbn [map]. do 2 f_equal.
    pose proof (shipping_complete_fields req Hs) as H.
    unfold shipping_json in *. cbn in *. exact H. }
  eexists. eexists. eexists. eexists. split; [reflexivity |].
  unfold fetchMyOrders. cbn [exec_list snd listed_orders].
  split; [| split; [| split; [| split]]].
  - eapply Permutation_trans; [apply Horder |].
    eapply Permutation_trans;
      [| apply perm_skip, Permutation_sym, Horder].
    unfold placed_store at 2. cbn [orders].
    rewrite filter_app, flat_map_app, Hold.
    cbn [filter placed_order o_buyer_id paid o_paid_at].
    rewrite Nat.eqb_refl. cbn [andb flat_map]. rewrite app_nil_r, Hnew.
    apply Permutation_sym, Permutation_cons_append.
  - reflexivity.
  - cbn [l_order_items]. rewrite map_map.
    cbn [listed_item_json l_product_id l_quantity l_price].
    now apply placed_items_lines.
  - reflexivity.
  - intros other Hother.
    eapply Permutation_trans; [apply Horder |].
    eapply Permutation_trans; [| apply Permutation_sym, Horder].
    unfold placed_store at 2. cbn [orders].
    rewrite filter_app, flat_map_app, Hold.
    cbn [filter placed_order o_buyer_id paid o_paid_at].
    assert (E : Nat.eqb (user_id req) other = false).
    { apply Nat.eqb_neq. intros H. apply Hother. now symmetry. }
    rewrite E. cbn [andb flat_map]. rewrite app_nil_r.
    apply Permutation_refl.
Qed.

Lemma placement_is_listed_for_its_buyer_only_witness :
  exists st' order total_price row,
    handle (placeNewOrder JSON_parse_rejects
              (request_of_ann (ItemsArray [cart_line 2 1]))) shop_after_order
    = (st', [Json 200 (OrderPlaced "Order placed successfully." order
                         total_price)])
    /\ Permutation
         (listed_orders (snd (fetchMyOrders newest_first 9 st')))
         (row :: listed_orders (snd (fetchMyOrders newest_first 9
                                       shop_after_order)))
    /\ l_order row = order
    /\ map (fun j => (l_product_id j, l_quantity j, l_price j))
         (l_order_items row)
       = map (fun item =>
                (cp_id (product item), quantity item,
                 unit_price (products shop_after_order) item))
           [cart_line 2 1]
    /\ l_shipping_info row
       = mkShippingJson (Some "Ann") (Some "Chuy") (Some "Bishkek") (Some "KG")
           (Some "Main st. 1") (Some "720000") (Some "0555")
    /\ forall other,
         other <> 9%nat ->
         Permutation
           (listed_orders (snd (fetchMyOrders newest_first other st')))
           (listed_orders (snd (fetchMyOrders newest_first other
                                  shop_after_order))).
Proof.
  apply (placement_is_listed_for_its_buyer_only newest_first JSON_parse_rejects
           (request_of_ann (ItemsArray [cart_line 2 1])) [cart_line 2 1]
           shop_after_order).
  - exact rearranges_newest_first.
  - unfold references_ok. simpl.
    repeat split; intros x [<- | []]; simpl; lia.
  - reflexivity.
  - reflexivity.
  - discriminate.
  - intros item [<- | []]. exists P2. split; [reflexivity | simpl; lia].
Defined.

(** ** Deleting and updating *)

Lemma deleteOrder_missing (orderId : uuid) (st : Store) :
  ~ order_exists st orderId ->
  handle (deleteOrder orderId) st
  = (st, [Next (ErrorHandler "Invalid order ID." 404)]).
Proof.
  intros Hno. unfold handle, deleteOrder.
  rewrite run_catchAsyncErrors, run_bind, run_await. simpl.
  rewrite (filter_has_id_nil st orderId Hno). simpl.
  now rewrite (filter_not_id_all st orderId Hno), set_orders_same.
Qed.

Lemma updateOrderStatus_missing (status : option string) (orderId : uuid)
  (st : Store) :
  falsy status = false -> ~ order_exists st orderId ->
  handle (updateOrderStatus status orderId) st
  = (st, [Next (ErrorHandler "Invalid order ID." 404)]).
Proof.
  intros Hs Hno. unfold handle, updateOrderStatus.
  rewrite run_catchAsyncErrors, Hs, run_bind, run_await. simpl.
  now rewrite (filter_has_id_nil st orderId Hno).
Qed.

Lemma fetchSingleOrder_missing (orderId : uuid) (st : Store) :
  ~ order_exists st orderId ->
  handle (fetchSingleOrder orderId) st
  = (st, [Json 200 (OrderFetched "Order fetched." None)]).
Proof.
  intros Hno. unfold handle, fetchSingleOrder.
  rewrite run_catchAsyncErrors, run_bind, run_await. simpl.
  now rewrite (filter_has_id_nil st orderId Hno).
Qed.

Lemma deleted_order_is_gone (orderId : uuid) (st : Store) :
  ~ order_exists (fst (handle (deleteOrder orderId) st)) orderId.
Proof.
  rewrite deleteOrder_store. intros [o [Hin Hid]]. simpl in Hin.
  apply filter_In in Hin. destruct Hin as [_ Hneg].
  apply Nat.eqb_eq in Hid. rewrite Hid in Hneg. discriminate Hneg.
Qed.

(** X13. Once [deleteOrder] has run for an identifier, whether or not an
    order had it, the identifier is gone for the other handlers: a second
    [deleteOrder] and any [updateOrderStatus] with a status answer 404 and
    change nothing, and [fetchSingleOrder] finds no row. *)
Theorem after_deleteOrder_the_order_is_gone (orderId : uuid) (st : Store) :
  let st' := fst (handle (deleteOrder orderId) st) in
  handle (deleteOrder orderId) st'
  = (st', [Next (ErrorHandler "Invalid order ID." 404)])
  /\ (forall status,
        falsy status = false ->
        handle (updateOrderStatus status orderId) st'
        = (st', [Next (ErrorHandler "Invalid order ID." 404)]))
  /\ handle (fetchSingleOrder orderId) st'
     = (st', [Json 200 (OrderFetched "Order fetched." None)]).
Proof.
  intros st'. pose proof (deleted_order_is_gone orderId st) as Hgone.
  fold st' in Hgone.
  split; [now apply deleteOrder_missing |].
  split; [intros status Hs; now apply updateOrderStatus_missing |].
  now apply fetchSingleOrder_missing.
Qed.

Lemma after_deleteOrder_the_order_is_gone_witness :
  handle (updateOrderStatus (Some "Shipped") 100)
    (fst (handle (deleteOrder 100) shop_after_order))
  = (fst (handle (deleteOrder 100) shop_after_order),
     [Next (ErrorHandler "Invalid order ID." 404)]).
Proof.
  apply (proj1 (proj2 (after_deleteOrder_the_order_is_gone 100
                         shop_after_order)) (Some "Shipped")).
  reflexivity.
Defined.

Lemma map_status_no_match (status : string) (orderId : uuid) (os : list Order) :
  filter (fun o => Nat.eqb (o_id o) orderId) os = [] ->
  map (fun o => if Nat.eqb (o_id o) orderId
                then set_order_status status o else o) os
  = os.
Proof.
  induction os as [| o os IH]; simpl; [reflexivity |].
  destruct (Nat.eqb (o_id o) orderId); [discriminate |].
  intros H. now rewrite IH.
Qed.

Lemma updateOrderStatus_store_eq (status : option string) (orderId : uuid)
  (st : Store) :
  falsy status = false ->
  fst (handle (updateOrderStatus status orderId) st)
  = set_orders st
      (map (fun o => if Nat.eqb (o_id o) orderId
                     then set_order_status (text status) o else o)
         (orders st)).
Proof.
  intros Hs. unfold handle, updateOrderStatus.
  rewrite run_catchAsyncErrors, Hs, run_bind, run_await. simpl.
  destruct (filter (fun o => Nat.eqb (o_id o) orderId) (orders st))
    as [| o rest] eqn:E; simpl; [| reflexivity].
  now rewrite (map_status_no_match _ _ _ E), set_orders_same.
Qed.



(** X15. Read back after a status update, an order of a store with unique
    order identifiers is the order it was with the new status: identifier,
    buyer, prices and paid timestamp are as before, and its items and
    shipping fields are those it had. *)
Theorem updated_status_is_read_back
  (status : option string) (o : Order) (st : Store) :
  falsy status = false ->
  NoDup (map o_id (orders st)) ->
  In o (orders st) ->
  handle (fetchSingleOrder (o_id o))
    (fst (handle (updateOrderStatus status (o_id o)) st))
  = (fst (handle (updateOrderStatus status (o_id o)) st),
     [Json 200
        (OrderFetched "Order fetched."
           (Some (mkJoinedOrder
                    (mkOrder (o_id o) (o_buyer_id o) (o_total_price o)
                       (o_tax_price o) (o_shipping_price o) (text status)
                       (o_paid_at o))
                    (map item_json
                       (filter (fun oi => Nat.eqb (oi_order_id oi) (o_id o))
                          (order_items st)))
                    (shipping_json
                       (hd_error
                          (filter (fun s => Nat.eqb (s_order_id s) (o_id o))
                             (shipping_info st)))))))]).
Proof.
  intros Hs Hnd Hin.
  rewrite (updateOrderStatus_store_eq status (o_id o) st Hs).
  unfold handle, fetchSingleOrder.
  rewrite run_catchAsyncErrors, run_bind, run_await.
  cbn [exec fst snd set_orders orders].
  assert (Hf : filter (fun x => Nat.eqb (o_id x) (o_id o))
                 (map (fun x => if Nat.eqb (o_id x) (o_id o)
                                then set_order_status (text status) x else x)
                    (orders st))
               = map (set_order_status (text status))
                   (filter (fun x => Nat.eqb (o_id x) (o_id o)) (orders st))).
  { clear. induction (orders st) as [| x os IH]; simpl; [reflexivity |].
    destruct (Nat.eqb (o_id x) (o_id o)) eqn:E; simpl; rewrite E;
      [now rewrite IH | exact IH]. }
  rewrite Hf, (filter_unique_id _ _ Hnd Hin).
  cbn [map flat_map app]. unfold joined_rows.
  cbn [order_items shipping_info set_orders set_order_status o_id].
  destruct (filter (fun s => Nat.eqb (s_order_id s) (o_id o)) (shipping_info st))
    as [| s ss]; reflexivity.
Qed.

Lemma updated_status_is_read_back_witness :
  handle (fetchSingleOrder 100)
    (fst (handle (updateOrderStatus (Some "Shipped") 100) shop_after_order))
  = (fst (handle (updateOrderStatus (Some "Shipped") 100) shop_after_order),
     [Json 200
        (OrderFetched "Order fetched."
           (Some (mkJoinedOrder
                    (mkOrder 100 9 71 (18 # 100) 0 "Shipped" (Some 7%nat))
                    [mkOrderItemJson 101 100 1 2 (30 # 1)]
                    (mkShippingJson (Some "Ann") (Some "Chuy") (Some "Bishkek")
                       (Some "KG") (Some "Main st. 1") (Some "720000")
                       (Some "0555")))))]).
Proof.
  apply (updated_status_is_read_back (Some "Shipped") order100
           shop_after_order).
  - reflexivity.
  - simpl. constructor; [intros [] | constructor].
  - now left.
Defined.

(** ** Every offending line is reported *)

Lemma cart_errors_count (ps : list Product) (items : list CartLine) :
  List.length (cart_errors ps items)
  = List.length (filter (fun item => negb (line_ok ps item)) items)
  /\ Forall (fun e => exists msg,
                 e = ErrorHandler msg 400 \/ e = ErrorHandler msg 404)
       (cart_errors ps items).
Proof.
  induction items as [| item rest [IHlen IHall]]; simpl;
    [split; [reflexivity | constructor] |].
  unfold line_error, line_ok.
  destruct (find_product ps (cp_id (product item))) as [p |]; simpl.
  - destruct (quantity item >? p_stock p); simpl.
    + split; [now rewrite IHlen |]. constructor; [| exact IHall].
      eexists. left. reflexivity.
    + split; assumption.
  - split; [now rewrite IHlen |]. constructor; [| exact IHall].
    eexists. right. reflexivity.
Qed.

(** X18. On a request that passes validation with a non-empty cart, [next]
    is called once for every line that is not valid, in cart order and before
    anything else, each time with a 400 or a 404 error; after these calls
    comes exactly one more call, which is either the 200 answer or the error
    of the database passed to [next]. *)
Theorem offending_lines_are_all_reported
  (JSON_parse : string -> error + parsed) (req : PlaceOrderRequest)
  (items : list CartLine) (st : Store) :
  shipping_complete req = true ->
  normalized_cart JSON_parse (orderedItems req) = inr (ParsedArray items) ->
  items <> [] ->
  exists st' last,
    handle (placeNewOrder JSON_parse req) st
    = (st', map Next (cart_errors (products st) items) ++ [last])
    /\ ((exists msg, last = Next (DatabaseError msg))
        \/ exists order total_price,
             last = Json 200 (OrderPlaced "Order placed successfully." order
                                total_price))
    /\ List.length (cart_errors (products st) items)
       = List.length
           (filter (fun item => negb (line_ok (products st) item)) items)
    /\ Forall (fun e => exists msg,
                   e = ErrorHandler msg 400 \/ e = ErrorHandler msg 404)
         (cart_errors (products st) items).
Proof.
  intros Hs Hc Hne.
  rewrite (handle_placeNewOrder_items JSON_parse req items st Hs Hc Hne).
  rewrite run_place_items.
  destruct (cart_errors_count (products st) items) as [Hlen Hall].
  destruct (loop_placeholders (products st) items) as [| o l].
  - eexists. eexists. split; [reflexivity |].
    split; [left; now eexists |]. split; assumption.
  - destruct (item_rows _ (o :: l) _) as [rows |].
    + eexists. eexists. split; [reflexivity |].
      split; [right; now do 2 eexists |]. split; assumption.
    + eexists. eexists. split; [reflexivity |].
      split; [left; now eexists |]. split; assumption.
Qed.

Lemma offending_lines_are_all_reported_witness :
  exists st' last,
    handle (placeNewOrder JSON_parse_rejects
              (request_of_ann
                 (ItemsArray [cart_line 2 4; cart_line 1 1; cart_line 3 1])))
      shop
    = (st',
       map Next
         (cart_errors (products shop)
            [cart_line 2 4; cart_line 1 1; cart_line 3 1])
         ++ [last])
    /\ ((exists msg, last = Next (DatabaseError msg))
        \/ exists order total_price,
             last = Json 200 (OrderPlaced "Order placed successfully." order
                                total_price))
    /\ List.length
         (cart_errors (products shop)
            [cart_line 2 4; cart_line 1 1; cart_line 3 1])
       = List.length
           (filter (fun item => negb (line_ok (products shop) item))
              [cart_line 2 4; cart_line 1 1; cart_line 3 1])
    /\ Forall (fun e => exists msg,
                   e = ErrorHandler msg 400 \/ e = ErrorHandler msg 404)
         (cart_errors (products shop)
            [cart_line 2 4; cart_line 1 1; cart_line 3 1]).
Proof.
  apply (offending_lines_are_all_reported JSON_parse_rejects
           (request_of_ann
              (ItemsArray [cart_line 2 4; cart_line 1 1; cart_line 3 1]))
           [cart_line 2 4; cart_line 1 1; cart_line 3 1] shop).
  - reflexivity.
  - reflexivity.
  - discriminate.
Defined.

(** ** The cart as an array or as a text *)

(** X19. A cart sent as a text that [JSON.parse] turns into an array is
    handled exactly like the same request with that array: same calls to
    [next] and [res.json], same store. *)
Theorem serialized_cart_is_handled_like_the_array
  (JSON_parse : string -> error + parsed) (req : PlaceOrderRequest)
  (s : string) (items : list CartLine) (st : Store) :
  orderedItems req = ItemsText s ->
  s <> "" ->
  JSON_parse s = inr (ParsedArray items) ->
  handle (placeNewOrder JSON_parse req) st
  = handle (placeNewOrder JSON_parse (with_items req (ItemsArray items))) st.
Proof.
  intros Ho Hs Hparse.
  unfold handle, placeNewOrder, with_items.
  cbn [full_name state city country address pincode phone orderedItems].
  destruct (falsy (full_name req) || falsy (state req) || falsy (city req)
            || falsy (country req) || falsy (address req)
            || falsy (pincode req) || falsy (phone req)); [reflexivity |].
  rewrite Ho. unfold parse_items.
  apply String.eqb_neq in Hs. rewrite Hs, Hparse.
  cbn [bind]. destruct items as [| item rest]; reflexivity.
Qed.

Lemma serialized_cart_is_handled_like_the_array_witness :
  handle (placeNewOrder JSON_parse_one_cart
            (request_of_ann (ItemsText "[{product:{id:1},quantity:2}]"))) shop
  = handle (placeNewOrder JSON_parse_one_cart
              (with_items
                 (request_of_ann (ItemsText "[{product:{id:1},quantity:2}]"))
                 (ItemsArray [cart_line 1 2])))
      shop.
Proof.
  apply (serialized_cart_is_handled_like_the_array JSON_parse_one_cart
           (request_of_ann (ItemsText "[{product:{id:1},quantity:2}]"))
           "[{product:{id:1},quantity:2}]" [cart_line 1 2] shop).
  - reflexivity.
  - discriminate.
  - reflexivity.
Defined.
